(** * TranslucentTB: the per-monitor taskbar state engine of [main.cpp]

    A shallow embedding of the functions of [src/TranslucentTB/main.cpp]
    that decide how each taskbar is drawn: [SetWindowBlur], [TogglePeek],
    [ClearBlacklistCache], [IsWindowBlacklisted], [EnumWindowsProcess],
    [SetTaskbarBlur], [RefreshHandles] and the message loop and shutdown
    path of [wWinMain].

    Conventions.
    - Window and monitor handles ([HWND], [HMONITOR]) are integers, the null
      handle is [0].
    - A [uint32_t] is a [Z] in [0, 2^32); arithmetic on it is reduced with
      [uint32].  The [int] counter [run.cache_hits] is a [Z] reduced with
      [wrap_int].
    - Function-local [static] variables and the globals [run] and [opt] are
      fields of explicit records that every function receives and returns.
    - Calls into the shell that change something ([send_message], [show],
      [SetWindowCompositionAttribute]) are recorded, in program order, in a
      list of [Event]s.
    - [std::unordered_map] is a [gmap]; [at] on a missing key throws
      [std::out_of_range], which no function of [main.cpp] catches.  The
      callback of the enumeration, which sends nothing, returns an
      [option], [None] for the throw; the functions above it return a
      [Tick], whose [out_of_range] carries the events that had gone to the
      shell when the exception left them. *)

From Stdlib Require Import ZArith Lia String Ascii List Bool.
From stdpp Require Import base option list gmap strings.

Local Open Scope Z_scope.

(** ** Handles, messages and constants of the Windows API *)

Abbreviation HWND := Z.
Abbreviation HMONITOR := Z.
Abbreviation wstring := string.

Definition WM_THEMECHANGED : Z := 0x031A.
Definition WM_LBUTTONUP : Z := 0x0202.
Definition SW_HIDE : Z := 0.
Definition SW_SHOWNORMAL : Z := 1.

(** ** [swca]: the accent policy handed to the shell *)

Module swca.

  (** Modelled from the spec: [swca::ACCENT] is declared in [swcadata.hpp],
      which is not part of the sources at hand.  The five kinds are the
      spec's [Normal], [OpaqueColor], [Clear], [Blur] and [Fluent]; the two
      that [main.cpp] names keep their names. *)
Inductive ACCENT : Set :=
  | ACCENT_NORMAL
  | ACCENT_ENABLE_GRADIENT
  | ACCENT_ENABLE_TRANSPARENTGRADIENT
  | ACCENT_ENABLE_BLURBEHIND
  | ACCENT_ENABLE_FLUENT.

Definition ACCENT_eqb (a b : ACCENT) : bool :=
    match a, b with
    | ACCENT_NORMAL, ACCENT_NORMAL
    | ACCENT_ENABLE_GRADIENT, ACCENT_ENABLE_GRADIENT
    | ACCENT_ENABLE_TRANSPARENTGRADIENT, ACCENT_ENABLE_TRANSPARENTGRADIENT
    | ACCENT_ENABLE_BLURBEHIND, ACCENT_ENABLE_BLURBEHIND
    | ACCENT_ENABLE_FLUENT, ACCENT_ENABLE_FLUENT => true
    | _, _ => false
    end.

  (** The aggregate [{ appearance, 2, color, 0 }] of [SetWindowBlur]. *)
Record ACCENTPOLICY : Set := mkPolicy {
    nAccentState : ACCENT;
    nFlags : Z;
    nColor : Z;
    nAnimationId : Z
  }.

End swca.
Import swca.

(** ** What the program does to the shell *)

Inductive Event : Set :=
| send_message (window : HWND) (msg : Z)
| show (window : HWND) (nCmdShow : Z)
| SetWindowCompositionAttribute (window : HWND) (policy : ACCENTPOLICY).

(** ** Machine integers *)

Definition uint32 (x : Z) : Z := x mod 2 ^ 32.

Definition INT_MAX : Z := 2 ^ 31 - 1.

(** Two's-complement reduction of an [int] result. *)
Definition wrap_int (x : Z) : Z := (x + 2 ^ 31) mod 2 ^ 32 - 2 ^ 31.

Arguments uint32 : simpl never.
Arguments wrap_int : simpl never.

(** ** [SetWindowBlur] (main.cpp, lines 77-116) *)

(** The third field of the policy aggregate:
    [(color & 0xFF00FF00) + ((color & 0x00FF0000) >> 16)
       + ((color & 0x000000FF) << 16)], in [uint32_t] arithmetic. *)
Definition policy_color (color : Z) : Z :=
  uint32 (uint32 (Z.land color 0xFF00FF00
                  + Z.shiftr (Z.land color 0x00FF0000) 16)
          + uint32 (Z.shiftl (Z.land color 0x000000FF) 16)).

(** [(0x01 << 24) + (policy.nColor & 0x00FFFFFF)] *)
Definition fluent_color (nColor : Z) : Z :=
  uint32 (Z.shiftl 0x01 24 + Z.land nColor 0x00FFFFFF).

Arguments policy_color : simpl never.
Arguments fluent_color : simpl never.

(** [is_normal.count(window) == 0 || !is_normal[window]] *)
Definition not_yet_normal (is_normal : gmap HWND bool) (window : HWND) : bool :=
  match is_normal !! window with
  | None => true
  | Some b => negb b
  end.

(** [has_swca] stands for the test [if (user32::SetWindowCompositionAttribute)]
    on the entry point that [user32] resolved at load time; [is_normal] is
    the function's [static] memo, threaded through. *)
Definition SetWindowBlur (has_swca : bool) (window : HWND)
    (appearance : ACCENT) (color : Z) (is_normal : gmap HWND bool)
  : gmap HWND bool * list Event :=
  if has_swca then
    let policy := mkPolicy appearance 2 (policy_color color) 0 in
    if ACCENT_eqb (nAccentState policy) ACCENT_NORMAL then
      if not_yet_normal is_normal window then
        (<[window := true]> is_normal, [send_message window WM_THEMECHANGED])
      else
        (is_normal, [])
    else
      let policy :=
        if ACCENT_eqb (nAccentState policy) ACCENT_ENABLE_FLUENT
           && (Z.shiftr (nColor policy) 24 =? 0x00)
        then mkPolicy (nAccentState policy) (nFlags policy)
                      (fluent_color (nColor policy)) (nAnimationId policy)
        else policy in
      (<[window := false]> is_normal,
       [SetWindowCompositionAttribute window policy])
  else
    (is_normal, []).

(** ** The colour conversion of the accent API *)

(** The spec's words for the conversion, with [|] where the code has [+]:
    [out = (in & 0xFF00FF00) | ((in & 0x00FF0000) >> 16)
           | ((in & 0x000000FF) << 16)]. *)
Definition abgr_of_argb (c : Z) : Z :=
  Z.lor (Z.lor (Z.land c 0xFF00FF00) (Z.shiftr (Z.land c 0x00FF0000) 16))
        (Z.shiftl (Z.land c 0x000000FF) 16).

(** Byte [k] of a colour, byte 0 being the least significant one. *)
Definition byte_of (k : Z) (c : Z) : Z := Z.land (Z.shiftr c (8 * k)) 0xFF.

(** ** Enumerations and structures (main.cpp, lines 39-73) *)

Inductive TASKBARSTATE : Set :=
| Normal
| WindowMaximised
| StartMenuOpen.

Module Tray.
Inductive EXITREASON : Set :=
| NewInstance
| UserAction
| UserActionNoSave.
End Tray.

(** The [Config] namespace is declared in [config.hpp], which is not part
    of the sources at hand; the values that [main.cpp] reads from it are the
    fields of a record that every tick receives. *)
Module Config.
Module PEEK.
Inductive t : Set :=
| Disabled
| Dynamic
| Enabled.
Definition eqb (a b : t) : bool :=
  match a, b with
  | Disabled, Disabled | Dynamic, Dynamic | Enabled, Enabled => true
  | _, _ => false
  end.
End PEEK.
Record t : Set := mk {
  TASKBAR_APPEARANCE : ACCENT;
  TASKBAR_COLOR : Z;
  DYNAMIC_WS : bool;
  DYNAMIC_APPEARANCE : ACCENT;
  DYNAMIC_COLOR : Z;
  DYNAMIC_START : bool;
  DYNAMIC_NORMAL_ON_PEEK : bool;
  PEEK : PEEK.t;
  CACHE_HIT_MAX : Z;
  VERBOSE : bool
}.
End Config.

(** [static struct OPTIONS { ... } opt] *)
Record OPTIONS : Set := mkOPTIONS {
  blacklisted_classes : list wstring;
  blacklisted_filenames : list wstring;
  blacklisted_titles : list wstring
}.

(** [static struct RUNTIMESTATE { ... } run], without the three file paths. *)
Record RUNTIMESTATE : Type := mkRUN {
  exit_reason : Tray.EXITREASON;
  main_taskbar : HWND;
  taskbars : gmap HMONITOR (HWND * TASKBARSTATE);
  should_show_peek : bool;
  is_running : bool;
  fluent_available : bool;
  cache_hits : Z;
  peek_active : bool
}.

(** The initial value of [run]: the members with an initialiser take it, the
    others are zero-initialised because [run] has static storage. *)
Definition run_initial : RUNTIMESTATE :=
  mkRUN Tray.UserAction 0 ∅ false true false 0 false.

Definition with_taskbars (t : gmap HMONITOR (HWND * TASKBARSTATE))
    (run : RUNTIMESTATE) : RUNTIMESTATE :=
  mkRUN (exit_reason run) (main_taskbar run) t (should_show_peek run)
        (is_running run) (fluent_available run) (cache_hits run)
        (peek_active run).

Definition with_main_taskbar (w : HWND) (run : RUNTIMESTATE) : RUNTIMESTATE :=
  mkRUN (exit_reason run) w (taskbars run) (should_show_peek run)
        (is_running run) (fluent_available run) (cache_hits run)
        (peek_active run).

Definition with_should_show_peek (b : bool) (run : RUNTIMESTATE) : RUNTIMESTATE :=
  mkRUN (exit_reason run) (main_taskbar run) (taskbars run) b
        (is_running run) (fluent_available run) (cache_hits run)
        (peek_active run).

Definition with_cache_hits (n : Z) (run : RUNTIMESTATE) : RUNTIMESTATE :=
  mkRUN (exit_reason run) (main_taskbar run) (taskbars run)
        (should_show_peek run) (is_running run) (fluent_available run) n
        (peek_active run).

Definition with_peek_active (b : bool) (run : RUNTIMESTATE) : RUNTIMESTATE :=
  mkRUN (exit_reason run) (main_taskbar run) (taskbars run)
        (should_show_peek run) (is_running run) (fluent_available run)
        (cache_hits run) b.

Definition with_fluent_available (b : bool) (run : RUNTIMESTATE) : RUNTIMESTATE :=
  mkRUN (exit_reason run) (main_taskbar run) (taskbars run)
        (should_show_peek run) (is_running run) b (cache_hits run)
        (peek_active run).

(** [run.exit_reason = r; run.is_running = false;] *)
Definition stop_running (r : Tray.EXITREASON) (run : RUNTIMESTATE) : RUNTIMESTATE :=
  mkRUN r (main_taskbar run) (taskbars run) (should_show_peek run) false
        (fluent_available run) (cache_hits run) (peek_active run).

(** The function-local [static] variables: [is_normal] of [SetWindowBlur],
    the pair [cached_peek], [cached_taskbar] of [TogglePeek] ([None] until
    the first call has initialised it), [blacklist_cache] of
    [IsWindowBlacklisted] and [counter] of [SetTaskbarBlur]. *)
Record STATICS : Type := mkSTATICS {
  is_normal : gmap HWND bool;
  peek_cache : option (bool * HWND);
  blacklist_cache : gmap HWND bool;
  counter : Z
}.

Definition statics_initial : STATICS := mkSTATICS ∅ None ∅ 10.

(** ** The desktop as the program sees it *)

Definition SW_MAXIMIZE : Z := 3.

(** What the methods of [Window] (window.hpp, not at hand) answer for one
    top-level window. *)
Record Window : Set := mkWindow {
  handle : HWND;
  classname : wstring;
  title : wstring;
  filename : wstring;
  visible : bool;
  state : Z;
  cloaked : bool;
  on_current_desktop : bool;
  monitor : HMONITOR
}.

(** One snapshot of the desktop: the windows [EnumWindows] visits, in its
    order; whether the Start menu is visible and the monitor of its window;
    the windows [Window::Find] and [Window::FindEx] return. *)
Record Desktop : Type := mkDesktop {
  top_level : list Window;
  IsStartVisible : bool;
  start_monitor : HMONITOR;
  Shell_TrayWnd : HWND;
  Shell_SecondaryTrayWnd : list HWND;
  monitor_of : HWND -> HMONITOR;
  FindEx : HWND -> wstring -> HWND
}.

(** ** Strings *)

(** Modelled from the spec: [Util::ToLower] (util.hpp is not at hand)
    lower-cases a string in place; here character by character on the
    letters [A] to [Z]. *)
Definition to_lower_char (c : ascii) : ascii :=
  let n := N_of_ascii c in
  if ((65 <=? n) && (n <=? 90))%N then ascii_of_N (n + 32) else c.

Fixpoint ToLower (s : wstring) : wstring :=
  match s with
  | EmptyString => EmptyString
  | String c s' => String (to_lower_char c) (ToLower s')
  end.

(** [s.find(value)]: the first position at which [value] occurs in [s], or
    [None] for [npos]. *)
Fixpoint find (value s : wstring) : option nat :=
  if String.prefix value s then Some 0%nat
  else match s with
       | EmptyString => None
       | String _ s' => S <$> find value s'
       end.

(** ** The blacklist (main.cpp, lines 325-408) *)

(** [run.cache_hits = Config::CACHE_HIT_MAX + 1] *)
Definition ClearBlacklistCache (cfg : Config.t) (run : RUNTIMESTATE) : RUNTIMESTATE :=
  with_cache_hits (wrap_int (Config.CACHE_HIT_MAX cfg + 1)) run.

(** A comparison of one blacklist entry with the window, in the order in
    which [IsWindowBlacklisted] makes them. *)
Inductive Comparison : Set :=
| cmp_classname (value : wstring)
| cmp_title (value : wstring)
| cmp_filename (value : wstring).

(** [for (value : values) if (test(value)) return true;] with the
    comparisons made. *)
Fixpoint first_match (test : wstring -> bool) (mk : wstring -> Comparison)
    (values : list wstring) : bool * list Comparison :=
  match values with
  | [] => (false, [])
  | value :: rest =>
      if test value then (true, [mk value])
      else let '(found, made) := first_match test mk rest in
           (found, mk value :: made)
  end.

(** [blacklist_cache.count(window)] *)
Definition count (cache : gmap HWND bool) (window : HWND) : Z :=
  match cache !! window with Some _ => 1 | None => 0 end.

Record Blacklisted : Type := mkBlacklisted {
  answer : bool;
  hits_after : Z;
  cache_after : gmap HWND bool;
  compared : list Comparison
}.

(** The conditions of the three loops: [window.classname() == value],
    [title.find(value) != std::wstring::npos] and [exeName == value] with
    [exeName] the lower-cased [window.filename()]. *)
Definition class_test (window : Window) (value : wstring) : bool :=
  String.eqb (classname window) value.

Definition title_test (window : Window) (value : wstring) : bool :=
  bool_decide (find value (title window) ≠ None).

Definition filename_test (window : Window) (value : wstring) : bool :=
  String.eqb (ToLower (filename window)) value.

Definition IsWindowBlacklisted (cfg : Config.t) (opt : OPTIONS)
    (window : Window) (hits : Z) (cache : gmap HWND bool) : Blacklisted :=
  if (hits <=? Config.CACHE_HIT_MAX cfg) && (count cache (handle window) >? 0)
  then
    mkBlacklisted (default false (cache !! handle window))
                  (wrap_int (hits + 1)) cache []
  else
    let '(hits, cache) :=
      if hits >? Config.CACHE_HIT_MAX cfg then (0, ∅) else (hits, cache) in
    let '(by_class, made1) :=
      first_match (class_test window) cmp_classname
                  (blacklisted_classes opt) in
    if by_class then
      mkBlacklisted true hits (<[handle window := true]> cache) made1
    else
      let '(by_title, made2) :=
        first_match (title_test window) cmp_title
                    (blacklisted_titles opt) in
      if by_title then
        mkBlacklisted true hits (<[handle window := true]> cache)
                      (made1 ++ made2)
      else
        let '(by_name, made3) :=
          first_match (filename_test window) cmp_filename
                      (blacklisted_filenames opt) in
        if by_name then
          mkBlacklisted true hits (<[handle window := true]> cache)
                        (made1 ++ made2 ++ made3)
        else
          mkBlacklisted false hits (<[handle window := false]> cache)
                        (made1 ++ made2 ++ made3).

(** ** [RefreshHandles] and [TogglePeek] (main.cpp, lines 279-323) *)

(** [run.taskbars[secondtaskbar.monitor()] = { secondtaskbar, Normal }] for
    every window the [FindEx] loop returns. *)
Fixpoint add_secondary (desk : Desktop) (found : list HWND)
    (t : gmap HMONITOR (HWND * TASKBARSTATE)) : gmap HMONITOR (HWND * TASKBARSTATE) :=
  match found with
  | [] => t
  | secondtaskbar :: rest =>
      add_secondary desk rest
        (<[monitor_of desk secondtaskbar := (secondtaskbar, Normal)]> t)
  end.

(** The right operand of the first assignment stores the new primary
    taskbar in [run.main_taskbar] before the subscript on the left asks for
    its monitor (the order C++17 fixes for [=]). *)
Definition RefreshHandles (desk : Desktop) (run : RUNTIMESTATE) : RUNTIMESTATE :=
  let run := with_taskbars ∅ run in
  let run := with_main_taskbar (Shell_TrayWnd desk) run in
  let t := <[monitor_of desk (main_taskbar run) := (main_taskbar run, Normal)]>
             (taskbars run) in
  with_taskbars (add_secondary desk (Shell_SecondaryTrayWnd desk) t) run.

(** The two statics are initialised when control first passes their
    declarations, that is at the first call, from [run.main_taskbar] as it
    is then. *)
Definition peek_statics (main : HWND) (cache : option (bool * HWND)) : bool * HWND :=
  match cache with
  | None => (true, main)
  | Some c => c
  end.

Definition TogglePeek (desk : Desktop) (main : HWND) (status : bool)
    (cache : option (bool * HWND)) : option (bool * HWND) * list Event :=
  let '(cached_peek, cached_taskbar) := peek_statics main cache in
  if negb (Bool.eqb status cached_peek) || negb (cached_taskbar =? main) then
    let _tray := FindEx desk main "TrayNotifyWnd" in
    let _peek := FindEx desk _tray "TrayShowDesktopButtonWClass" in
    let _overflow := FindEx desk _tray "Button" in
    (Some (status, main),
     [ show _peek (if status then SW_SHOWNORMAL else SW_HIDE);
       send_message _overflow WM_LBUTTONUP;
       send_message _overflow WM_LBUTTONUP ])
  else
    (Some (cached_peek, cached_taskbar), []).

(** ** Main logic (main.cpp, lines 468-560) *)

(** [for (auto &taskbar : run.taskbars) taskbar.second.second = Normal;] *)
Definition reset_states (t : gmap HMONITOR (HWND * TASKBARSTATE))
  : gmap HMONITOR (HWND * TASKBARSTATE) :=
  (fun taskbar : HWND * TASKBARSTATE => (taskbar.1, Normal)) <$> t.

(** The callback of [EnumWindows].  It touches [run] and the blacklist
    cache; [None] is the [std::out_of_range] that [run.taskbars.at] throws
    for a monitor without an entry. *)
Definition EnumWindowsProcess (cfg : Config.t) (opt : OPTIONS) (window : Window)
    (s : RUNTIMESTATE * gmap HWND bool) : option (RUNTIMESTATE * gmap HWND bool) :=
  let '(run, cache) := s in
  if visible window && (state window =? SW_MAXIMIZE) && negb (cloaked window)
  then
    let r := IsWindowBlacklisted cfg opt window (cache_hits run) cache in
    let run := with_cache_hits (hits_after r) run in
    let cache := cache_after r in
    if negb (answer r) && on_current_desktop window then
      taskbar ← taskbars run !! monitor window;
      let run :=
        if Config.DYNAMIC_WS cfg
        then with_taskbars
               (<[monitor window := (taskbar.1, WindowMaximised)]> (taskbars run))
               run
        else run in
      let run :=
        if Config.PEEK.eqb (Config.PEEK cfg) Config.PEEK.Dynamic
           && (taskbar.1 =? main_taskbar run)
        then with_should_show_peek true run
        else run in
      Some (run, cache)
    else Some (run, cache)
  else Some (run, cache).

(** [EnumWindows(&EnumWindowsProcess, NULL)]: the callback always returns
    [true], so every window is visited unless a visit throws. *)
Fixpoint EnumWindows (cfg : Config.t) (opt : OPTIONS) (windows : list Window)
    (s : RUNTIMESTATE * gmap HWND bool) : option (RUNTIMESTATE * gmap HWND bool) :=
  match windows with
  | [] => Some s
  | window :: rest =>
      s' ← EnumWindowsProcess cfg opt window s;
      EnumWindows cfg opt rest s'
  end.

(** How a piece of the tick ends: it returns, or [std::out_of_range]
    leaves it after the events [sent] have gone to the shell. *)
Inductive Tick (A : Type) : Type :=
| returned (a : A)
| out_of_range (sent : list Event).

Arguments returned {A} a.
Arguments out_of_range {A} sent.

#[global] Instance Tick_fmap : FMap Tick :=
  fun (A B : Type) (f : A -> B) (t : Tick A) =>
    match t with
    | returned a => returned (f a)
    | out_of_range sent => out_of_range sent
    end.

(** The block under [if (counter >= 10)]; it returns the events of
    [TogglePeek].  The enumeration sends nothing, so an exception in it
    comes before any event; the lookup for the Start menu comes after
    [TogglePeek]. *)
Definition full_pass (cfg : Config.t) (opt : OPTIONS) (desk : Desktop)
    (run : RUNTIMESTATE) (st : STATICS)
  : Tick (RUNTIMESTATE * STATICS * list Event) :=
  let run :=
    with_should_show_peek
      (Config.PEEK.eqb (Config.PEEK cfg) Config.PEEK.Enabled) run in
  let run := with_taskbars (reset_states (taskbars run)) run in
  match
    (if Config.DYNAMIC_WS cfg
        || Config.PEEK.eqb (Config.PEEK cfg) Config.PEEK.Dynamic
     then EnumWindows cfg opt (top_level desk) (run, blacklist_cache st)
     else Some (run, blacklist_cache st))
  with
  | None => out_of_range []
  | Some (run, cache) =>
      let '(peek, toggled) :=
        TogglePeek desk (main_taskbar run) (should_show_peek run)
                   (peek_cache st) in
      match
        (if Config.DYNAMIC_START cfg && IsStartVisible desk then
           taskbar ← taskbars run !! start_monitor desk;
           Some (with_taskbars
                   (<[start_monitor desk := (taskbar.1, StartMenuOpen)]>
                      (taskbars run))
                   run)
         else Some run)
      with
      | None => out_of_range toggled
      | Some run =>
          let run :=
            if Config.DYNAMIC_WS cfg && Config.DYNAMIC_NORMAL_ON_PEEK cfg
               && peek_active run
            then with_taskbars (reset_states (taskbars run)) run
            else run in
          returned (run, mkSTATICS (is_normal st) peek cache 0, toggled)
      end
  end.

(** The arguments of [SetWindowBlur] in the three cases of the [switch]. *)
Definition accent_for (cfg : Config.t) (s : TASKBARSTATE) : ACCENT * Z :=
  match s with
  | StartMenuOpen => (ACCENT_NORMAL, 0)
  | WindowMaximised => (Config.DYNAMIC_APPEARANCE cfg, Config.DYNAMIC_COLOR cfg)
  | Normal => (Config.TASKBAR_APPEARANCE cfg, Config.TASKBAR_COLOR cfg)
  end.

(** [for (const auto &taskbar : run.taskbars) SetWindowBlur(taskbar.second.first, ...)]
    with the accent and colour chosen by [args] from the state of each
    entry: the [switch] of [SetTaskbarBlur], or the constant arguments of the
    loop that ends [wWinMain]. *)
Fixpoint blur_each (has_swca : bool) (args : TASKBARSTATE -> ACCENT * Z)
    (entries : list (HMONITOR * (HWND * TASKBARSTATE)))
    (memo : gmap HWND bool) : gmap HWND bool * list Event :=
  match entries with
  | [] => (memo, [])
  | (_, (window, s)) :: rest =>
      let '(memo, sent) :=
        SetWindowBlur has_swca window (args s).1 (args s).2 memo in
      let '(memo, sent') := blur_each has_swca args rest memo in
      (memo, sent ++ sent')
  end.

Definition SetTaskbarBlur (has_swca : bool) (cfg : Config.t) (opt : OPTIONS)
    (desk : Desktop) (run : RUNTIMESTATE) (st : STATICS)
  : Tick (RUNTIMESTATE * STATICS * list Event) :=
  match
    (if counter st >=? 10 then full_pass cfg opt desk run st
     else returned (run, st, []))
  with
  | out_of_range sent => out_of_range sent
  | returned (run, st, toggled) =>
      let '(memo, sent) :=
        blur_each has_swca (accent_for cfg) (map_to_list (taskbars run))
                  (is_normal st) in
      returned (run,
                mkSTATICS memo (peek_cache st) (blacklist_cache st)
                          (counter st + 1),
                toggled ++ sent)
  end.

(** ** The message loop and the way out of it (main.cpp, lines 642-761 and 763-839) *)

(** The messages and the event whose callbacks write to [run] or [opt].
    [IDM_RELOADDYNAMICBLACKLIST] carries what [ParseBlacklistFile] reads;
    [AeroPeekEvent] is the call of [HandleAeroPeekEvent];
    [other_message] is any message whose callback leaves both alone. *)
Inductive Message : Set :=
| NEW_TTB_INSTANCE
| WM_DISPLAYCHANGE
| WM_TASKBARCREATED
| WM_CLOSE
| IDM_EXITWITHOUTSAVING
| IDM_EXIT
| IDM_CLEARBLACKLISTCACHE
| IDM_RELOADDYNAMICBLACKLIST (parsed : OPTIONS)
| AeroPeekEvent (event : Z)
| other_message.

Definition is_shutdown (msg : Message) : bool :=
  match msg with
  | NEW_TTB_INSTANCE | WM_CLOSE | IDM_EXITWITHOUTSAVING | IDM_EXIT => true
  | _ => false
  end.

Definition DispatchMessage (cfg : Config.t) (desk : Desktop) (msg : Message)
    (s : RUNTIMESTATE * OPTIONS) : RUNTIMESTATE * OPTIONS :=
  let '(run, opt) := s in
  match msg with
  | NEW_TTB_INSTANCE => (stop_running Tray.NewInstance run, opt)
  | WM_DISPLAYCHANGE => (RefreshHandles desk run, opt)
  | WM_TASKBARCREATED => (RefreshHandles desk run, opt)
  | WM_CLOSE => (stop_running Tray.UserAction run, opt)
  | IDM_EXITWITHOUTSAVING => (stop_running Tray.UserActionNoSave run, opt)
  | IDM_EXIT => (stop_running Tray.UserAction run, opt)
  | IDM_CLEARBLACKLISTCACHE => (ClearBlacklistCache cfg run, opt)
  | IDM_RELOADDYNAMICBLACKLIST parsed => (ClearBlacklistCache cfg run, parsed)
  | AeroPeekEvent event => (with_peek_active (event =? 0x21) run, opt)
  | other_message => (run, opt)
  end.

(** Everything the program owns between two iterations of the loop. *)
Record Machine : Type := mkMachine {
  run : RUNTIMESTATE;
  opt : OPTIONS;
  statics : STATICS
}.

(** What one iteration of the loop meets: the message [PeekMessage] finds,
    if any, the configuration in force and the desktop. *)
Record Input : Type := mkInput {
  message : option Message;
  config : Config.t;
  desktop : Desktop
}.

(** The state after the message of the iteration has been dispatched. *)
Definition dispatched (i : Input) (m : Machine) : RUNTIMESTATE * OPTIONS :=
  match message i with
  | Some msg => DispatchMessage (config i) (desktop i) msg (run m, opt m)
  | None => (run m, opt m)
  end.

(** The body of [while (run.is_running)]; [out_of_range] when the
    exception leaves [SetTaskbarBlur]. *)
Definition iteration (has_swca : bool) (i : Input) (m : Machine)
  : Tick (Machine * list Event) :=
  let '(run, opt) := dispatched i m in
  match SetTaskbarBlur has_swca (config i) opt (desktop i) run (statics m) with
  | out_of_range sent => out_of_range sent
  | returned (run, st, sent) => returned (mkMachine run opt st, sent)
  end.

(** The block after the loop: [TogglePeek(true)] and [ACCENT_NORMAL] for
    every taskbar, unless a new instance takes over. *)
Definition restore_default (has_swca : bool) (desk : Desktop) (m : Machine)
  : Machine * list Event :=
  match exit_reason (run m) with
  | Tray.NewInstance => (m, [])
  | _ =>
      let '(peek, toggled) :=
        TogglePeek desk (main_taskbar (run m)) true (peek_cache (statics m)) in
      let '(memo, sent) :=
        blur_each has_swca (fun _ => (ACCENT_NORMAL, 0))
                  (map_to_list (taskbars (run m))) (is_normal (statics m)) in
      (mkMachine (run m) (opt m)
                 (mkSTATICS memo peek (blacklist_cache (statics m))
                            (counter (statics m))),
       toggled ++ sent)
  end.

Definition EXIT_SUCCESS : Z := 0.
Definition EXIT_FAILURE : Z := 1.

(** [exit(run.is_running ? EXIT_FAILURE : EXIT_SUCCESS)] *)
Definition Terminate (run : RUNTIMESTATE) : Z :=
  if is_running run then EXIT_FAILURE else EXIT_SUCCESS.

(** How a run over finitely many iterations ends: the loop is still
    turning when the inputs are used up; or it was left, the block after it
    ran and [std::terminate()] ended the process; or an exception escaped
    from an iteration and [Terminate], the terminate handler, ended the
    process there. *)
Inductive Outcome : Type :=
| turning (m : Machine) (sent : list Event)
| left_loop (m : Machine) (sent : list Event) (code : Z)
| uncaught (sent : list Event) (code : Z).

Fixpoint message_loop (has_swca : bool) (desk : Desktop) (inputs : list Input)
    (m : Machine) (sent : list Event) : Outcome :=
  if is_running (run m) then
    match inputs with
    | [] => turning m sent
    | i :: rest =>
        match iteration has_swca i m with
        | out_of_range sent' =>
            uncaught (sent ++ sent') (Terminate (dispatched i m).1)
        | returned (m', sent') =>
            message_loop has_swca (desktop i) rest m' (sent ++ sent')
        end
    end
  else
    let '(m', sent') := restore_default has_swca desk m in
    left_loop m' (sent ++ sent') (Terminate (run m')).

(** [wWinMain] from the point where the configuration has been read:
    [fluent] is what [win32::IsAtLeastBuild(MIN_FLUENT_BUILD)] answers,
    [parsed] what [ParseBlacklistFile] reads, [desk] the desktop at start. *)
Definition wWinMain (has_swca fluent : bool) (parsed : OPTIONS) (desk : Desktop)
    (inputs : list Input) : Outcome :=
  let run := with_fluent_available fluent run_initial in
  let run := RefreshHandles desk run in
  message_loop has_swca desk inputs (mkMachine run parsed statics_initial) [].

(** ** Vocabulary of the properties *)

(** One call [SetWindowBlur(window, appearance, color)]. *)
Record Call : Set := mkCall {
  call_window : HWND;
  call_appearance : ACCENT;
  call_color : Z
}.

(** A sequence of calls of [SetWindowBlur], the memo threaded through. *)
Fixpoint blur_calls (has_swca : bool) (calls : list Call)
    (memo : gmap HWND bool) : gmap HWND bool * list Event :=
  match calls with
  | [] => (memo, [])
  | c :: rest =>
      let '(memo, sent) :=
        SetWindowBlur has_swca (call_window c) (call_appearance c)
                      (call_color c) memo in
      let '(memo, sent') := blur_calls has_swca rest memo in
      (memo, sent ++ sent')
  end.

(** The accent of the latest call in [calls] for [window], if there is one. *)
Fixpoint last_applied (window : HWND) (calls : list Call) : option ACCENT :=
  match calls with
  | [] => None
  | c :: rest =>
      match last_applied window rest with
      | Some a => Some a
      | None => if call_window c =? window then Some (call_appearance c) else None
      end
  end.

Definition is_theme_reset (window : HWND) (e : Event) : bool :=
  match e with
  | send_message w msg => (w =? window) && (msg =? WM_THEMECHANGED)
  | _ => false
  end.

(** How many times [WM_THEMECHANGED] goes to [window] in [sent]. *)
Definition theme_resets (window : HWND) (sent : list Event) : nat :=
  length (filter (fun e => is_theme_reset window e = true) sent).

(** Whether the latest accent applied, if any, was [ACCENT_NORMAL]. *)
Definition was_normal (latest : option ACCENT) : bool :=
  match latest with
  | Some a => ACCENT_eqb a ACCENT_NORMAL
  | None => false
  end.

(** The spec's words for the three rule sets: the class name equals an
    entry; the title contains an entry; the executable name equals an entry,
    both lower-cased. *)
Definition occurs_in (value s : wstring) : Prop :=
  exists pre post : wstring, s = pre +:+ value +:+ post.

Definition matches_rules (opt : OPTIONS) (window : Window) : Prop :=
  In (classname window) (blacklisted_classes opt)
  \/ (exists value, In value (blacklisted_titles opt)
                    /\ occurs_in value (title window))
  \/ (exists value, In value (blacklisted_filenames opt)
                    /\ ToLower (filename window) = ToLower value).

(** The entries of one rule set that are looked at: all of them up to and
    with the first that matches. *)
Fixpoint until_match (test : wstring -> bool) (values : list wstring)
  : list wstring :=
  match values with
  | [] => []
  | value :: rest => if test value then [value] else value :: until_match test rest
  end.

(** The comparisons of a full evaluation, rule set after rule set, none
    after the first match. *)
Definition comparisons_in_order (opt : OPTIONS) (window : Window)
  : list Comparison :=
  (cmp_classname <$> until_match (class_test window) (blacklisted_classes opt))
  ++ if existsb (class_test window) (blacklisted_classes opt) then []
     else
       (cmp_title <$> until_match (title_test window) (blacklisted_titles opt))
       ++ if existsb (title_test window) (blacklisted_titles opt) then []
          else cmp_filename
                 <$> until_match (filename_test window) (blacklisted_filenames opt).

(** The states of the matcher, that is [run.cache_hits] and
    [blacklist_cache], that calls of [IsWindowBlacklisted] and
    [ClearBlacklistCache] lead to from the start of the process, whatever
    the rule sets and the windows. *)
Inductive matcher_reachable (cfg : Config.t)
  : RUNTIMESTATE -> gmap HWND bool -> Prop :=
| reach_start : matcher_reachable cfg run_initial ∅
| reach_asked (run : RUNTIMESTATE) (cache : gmap HWND bool)
    (opt : OPTIONS) (window : Window) :
    matcher_reachable cfg run cache ->
    matcher_reachable cfg
      (with_cache_hits
         (hits_after (IsWindowBlacklisted cfg opt window (cache_hits run) cache))
         run)
      (cache_after (IsWindowBlacklisted cfg opt window (cache_hits run) cache))
| reach_cleared (run : RUNTIMESTATE) (cache : gmap HWND bool) :
    matcher_reachable cfg run cache ->
    matcher_reachable cfg (ClearBlacklistCache cfg run) cache.

(** The show-desktop button and the overflow button that [TogglePeek]
    looks up under the primary taskbar. *)
Definition peek_button (desk : Desktop) (main : HWND) : HWND :=
  FindEx desk (FindEx desk main "TrayNotifyWnd") "TrayShowDesktopButtonWClass".

Definition overflow_button (desk : Desktop) (main : HWND) : HWND :=
  FindEx desk (FindEx desk main "TrayNotifyWnd") "Button".


(** ** Sample data for the examples *)

Definition notepad : Window :=
  mkWindow 42 "Notepad" "Untitled - Notepad" "NOTEPAD.EXE" true 3 false true 1.

Definition some_rules : OPTIONS :=
  mkOPTIONS ["Progman"; "Shell_TrayWnd"] ["notepad.exe"] ["Visual Studio"].

Definition some_config : Config.t :=
  Config.mk ACCENT_ENABLE_BLURBEHIND 0x80000000 true ACCENT_ENABLE_FLUENT
            0x00112233 true true Config.PEEK.Dynamic 500 false.

Definition sample_FindEx (parent : HWND) (class : wstring) : HWND :=
  if String.eqb class "TrayNotifyWnd" then parent + 1
  else if String.eqb class "TrayShowDesktopButtonWClass" then parent + 1
  else if String.eqb class "Button" then parent + 2
  else 0.

(** Two monitors: the primary taskbar [100] on monitor [1], a secondary
    taskbar [200] on monitor [2]; [notepad] maximised on monitor [1]; the
    Start menu open on monitor [1]. *)
Definition sample_desktop : Desktop :=
  mkDesktop [notepad] true 1 100 [200]
            (fun w => if w =? 100 then 1 else if w =? 200 then 2 else 0)
            sample_FindEx.

Definition no_rules : OPTIONS := mkOPTIONS [] [] [].

(** [run] after [RefreshHandles] on [sample_desktop]. *)
Definition sample_run : RUNTIMESTATE :=
  RefreshHandles sample_desktop run_initial.

(** The program on [sample_desktop] at the moment the user asks it to
    exit: the primary taskbar drawn with a policy, the peek button hidden. *)
Definition sample_machine : Machine :=
  mkMachine (stop_running Tray.UserAction sample_run) no_rules
            (mkSTATICS {[ 100 := false ]} (Some (false, 100)) ∅ 3).

(** ** Vocabulary of the properties of the loop *)

(** A window that passes every test of [EnumWindowsProcess] that does not
    depend on the blacklist. *)
Definition is_candidate (window : Window) : bool :=
  visible window && (state window =? SW_MAXIMIZE) && negb (cloaked window)
  && on_current_desktop window.

(** Every monitor that a full pass can look up with [at] has an entry. *)
Definition covered (cfg : Config.t) (desk : Desktop)
    (t : gmap HMONITOR (HWND * TASKBARSTATE)) : Prop :=
  (Config.DYNAMIC_WS cfg
   || Config.PEEK.eqb (Config.PEEK cfg) Config.PEEK.Dynamic = true ->
   forall window : Window,
     In window (top_level desk) -> is_candidate window = true ->
     is_Some (t !! monitor window))
  /\ (Config.DYNAMIC_START cfg && IsStartVisible desk = true ->
      is_Some (t !! start_monitor desk)).

(** The same monitors with the same taskbar windows; the states may differ. *)
Definition same_handles (t t' : gmap HMONITOR (HWND * TASKBARSTATE)) : Prop :=
  forall mon : HMONITOR, fst <$> t' !! mon = fst <$> t !! mon.

(** Nothing but the states of the taskbars, [should_show_peek] and
    [cache_hits] differs. *)
Definition same_elsewhere (run run' : RUNTIMESTATE) : Prop :=
  exit_reason run' = exit_reason run
  /\ main_taskbar run' = main_taskbar run
  /\ is_running run' = is_running run
  /\ fluent_available run' = fluent_available run
  /\ peek_active run' = peek_active run
  /\ same_handles (taskbars run) (taskbars run').

(** Every iteration that the loop comes to meets a registry that covers
    its lookups, or makes no full pass. *)
Fixpoint always_covered (has_swca : bool) (inputs : list Input) (m : Machine)
  : Prop :=
  match inputs with
  | [] => True
  | i :: rest =>
      is_running (run m) = true ->
      (counter (statics m) < 10
       \/ covered (config i) (desktop i) (taskbars (dispatched i m).1))
      /\ forall (m' : Machine) (sent : list Event),
           iteration has_swca i m = returned (m', sent) ->
           always_covered has_swca rest m'
  end.

(** The colour of the policy that [SetWindowBlur] submits with
    [ACCENT_ENABLE_FLUENT]. *)
Definition fluent_policy_color (color : Z) : Z :=
  if Z.shiftr (policy_color color) 24 =? 0
  then fluent_color (policy_color color)
  else policy_color color.

(** More sample desktops, all with the taskbars of [sample_desktop]:
    [notepad] maximised on monitor [1] and no Start menu; a maximised window
    on a monitor [9] that has no taskbar; the Start menu open on that
    monitor. *)
Definition maximised_desktop : Desktop :=
  mkDesktop [notepad] false 0 100 [200]
            (fun w => if w =? 100 then 1 else if w =? 200 then 2 else 0)
            sample_FindEx.

Definition stray_window : Window :=
  mkWindow 43 "Chrome_WidgetWin_1" "New Tab" "chrome.exe" true 3 false true 9.

Definition stray_desktop : Desktop :=
  mkDesktop [stray_window] false 0 100 [200]
            (fun w => if w =? 100 then 1 else if w =? 200 then 2 else 0)
            sample_FindEx.

Definition stray_start_desktop : Desktop :=
  mkDesktop [] true 9 100 [200]
            (fun w => if w =? 100 then 1 else if w =? 200 then 2 else 0)
            sample_FindEx.

(** The program as [wWinMain] enters the loop on [sample_desktop], and
    iterations of the loop: one on [sample_desktop], one on
    [stray_desktop], one on [stray_start_desktop], none with a message; and
    one in which the user closes the program. *)
Definition machine_at_start : Machine :=
  mkMachine sample_run no_rules statics_initial.

Definition sample_input : Input := mkInput None some_config sample_desktop.
Definition stray_input : Input := mkInput None some_config stray_desktop.
Definition stray_start_input : Input :=
  mkInput None some_config stray_start_desktop.
Definition closing_input : Input :=
  mkInput (Some WM_CLOSE) some_config sample_desktop.

(** ** Vocabulary of the further properties *)

(** Every window of [windows], asked about one after the other, is answered
    from the cache. *)
Fixpoint answered_from_cache (cfg : Config.t) (opt : OPTIONS)
    (windows : list Window) (hits : Z) (cache : gmap HWND bool) : bool :=
  match windows with
  | [] => true
  | window :: rest =>
      (hits <=? Config.CACHE_HIT_MAX cfg)
      && (count cache (handle window) >? 0)
      && answered_from_cache cfg opt rest
           (hits_after (IsWindowBlacklisted cfg opt window hits cache))
           (cache_after (IsWindowBlacklisted cfg opt window hits cache))
  end.

(** The window of [notepad] with another title and another file name. *)
Definition notepad_renamed : Window :=
  mkWindow 42 "Notepad" "notes.txt - Notepad" "other.exe" true 3 false true 1.

(** The windows of [windows] that pass the whole test of
    [EnumWindowsProcess] in an enumeration that starts with the counter
    [hits] and the cache [cache]: visible, maximised, not cloaked, answered
    [false] by [IsWindowBlacklisted] with the counter and cache as the
    windows before have left them, and on the current desktop. *)
Fixpoint passing (cfg : Config.t) (opt : OPTIONS) (windows : list Window)
    (hits : Z) (cache : gmap HWND bool) : list Window :=
  match windows with
  | [] => []
  | window :: rest =>
      if visible window && (state window =? SW_MAXIMIZE)
         && negb (cloaked window)
      then
        let r := IsWindowBlacklisted cfg opt window hits cache in
        (if negb (answer r) && on_current_desktop window then [window] else [])
        ++ passing cfg opt rest (hits_after r) (cache_after r)
      else passing cfg opt rest hits cache
  end.

(** Some window on monitor [mon] passes the test of [EnumWindowsProcess]
    in that enumeration. *)
Definition trigger_on (cfg : Config.t) (opt : OPTIONS) (windows : list Window)
    (hits : Z) (cache : gmap HWND bool) (mon : HMONITOR) : Prop :=
  exists window : Window,
    In window (passing cfg opt windows hits cache) /\ monitor window = mon.

(** [SetTaskbarBlur] called once for each desktop of [desks], as the loop
    calls it tick after tick while the configuration stays. *)
Fixpoint ticks (has_swca : bool) (cfg : Config.t) (opt : OPTIONS)
    (desks : list Desktop) (r : RUNTIMESTATE) (st : STATICS)
  : Tick (RUNTIMESTATE * STATICS * list Event) :=
  match desks with
  | [] => returned (r, st, [])
  | desk :: rest =>
      match SetTaskbarBlur has_swca cfg opt desk r st with
      | out_of_range sent1 => out_of_range sent1
      | returned (r1, st1, sent1) =>
          match ticks has_swca cfg opt rest r1 st1 with
          | out_of_range sent2 => out_of_range (sent1 ++ sent2)
          | returned (r2, st2, sent2) => returned (r2, st2, sent1 ++ sent2)
          end
      end
  end.

(** The policy that [SetWindowBlur] hands to the shell for an accent other
    than the normal one. *)
Definition policy_for (appearance : ACCENT) (color : Z) : ACCENTPOLICY :=
  mkPolicy appearance 2
    (if ACCENT_eqb appearance ACCENT_ENABLE_FLUENT
        && (Z.shiftr (policy_color color) 24 =? 0)
     then fluent_color (policy_color color)
     else policy_color color) 0.

(** One submission for every entry whose accent is not the normal one, in
    the order of the entries. *)
Fixpoint submissions (args : TASKBARSTATE -> ACCENT * Z)
    (entries : list (HMONITOR * (HWND * TASKBARSTATE))) : list Event :=
  match entries with
  | [] => []
  | (_, (window, s)) :: rest =>
      (if ACCENT_eqb (args s).1 ACCENT_NORMAL then []
       else [SetWindowCompositionAttribute window
               (policy_for (args s).1 (args s).2)])
      ++ submissions args rest
  end.

(** The exit reason that a shutdown message records. *)
Definition reason_of (msg : Message) : Tray.EXITREASON :=
  match msg with
  | NEW_TTB_INSTANCE => Tray.NewInstance
  | IDM_EXITWITHOUTSAVING => Tray.UserActionNoSave
  | _ => Tray.UserAction
  end.

(** The code of the latest [AeroPeekEvent] among the messages of [inputs]. *)
Fixpoint last_peek_event (inputs : list Input) : option Z :=
  match inputs with
  | [] => None
  | i :: rest =>
      match last_peek_event rest with
      | Some event => Some event
      | None => match message i with
                | Some (AeroPeekEvent event) => Some event
                | _ => None
                end
      end
  end.

(** An event that changes how a taskbar is drawn. *)
Definition is_accent_event (e : Event) : bool :=
  match e with
  | SetWindowCompositionAttribute _ _ => true
  | send_message _ msg => msg =? WM_THEMECHANGED
  | show _ _ => false
  end.

(** The events and, where there is one, the machine an outcome ends with. *)
Definition events_of (out : Outcome) : list Event :=
  match out with
  | turning _ sent | left_loop _ sent _ | uncaught sent _ => sent
  end.

Definition machine_of (out : Outcome) : option Machine :=
  match out with
  | turning m _ | left_loop m _ _ => Some m
  | uncaught _ _ => None
  end.

(** ** The shell as the events leave it *)




(** The taskbars of [sample_desktop] with no window and no Start menu, and
    iterations on it: one without a message, one in which the user closes
    the program. *)
Definition bare_desktop : Desktop :=
  mkDesktop [] false 0 100 [200]
            (fun w => if w =? 100 then 1 else if w =? 200 then 2 else 0)
            sample_FindEx.

Definition bare_input : Input := mkInput None some_config bare_desktop.
Definition bare_closing_input : Input :=
  mkInput (Some WM_CLOSE) some_config bare_desktop.

(** ** [ParseBlacklistFile] (main.cpp, lines 219-273) *)

Definition delimiter : ascii := ","%char.
Definition comment : ascii := ";"%char.

(** [line.find(comment)] for a single character. *)
Fixpoint find_char (c : ascii) (s : wstring) : option nat :=
  match s with
  | EmptyString => None
  | String a s' => if Ascii.eqb a c then Some 0%nat else S <$> find_char c s'
  end.

(** [line[line.length() - 1]] *)
Fixpoint last_char (s : wstring) : option ascii :=
  match s with
  | EmptyString => None
  | String a EmptyString => Some a
  | String _ s' => last_char s'
  end.

(** The line as the three tests see it: cut at the comment character, the
    delimiter appended unless it ends the line; [None] for a line that is
    skipped. *)
Definition prepared (line : wstring) : option wstring :=
  if String.eqb line "" then None
  else
    match find_char comment line with
    | Some O => None
    | found =>
        let line :=
          match found with
          | Some comment_index => substring 0 comment_index line
          | None => line
          end in
        Some (if bool_decide (last_char line = Some delimiter) then line
              else line +:+ String delimiter "")
    end.

(** The body of the loop.  [AddValuesToVectorByDelimiter] stands for the
    function of that name in [Util] (util.hpp is not at hand), from the
    delimiter, the vector and the line to the vector it leaves; the second
    component counts the messages about invalid lines. *)
Definition parse_line
    (AddValuesToVectorByDelimiter : ascii -> list wstring -> wstring -> list wstring)
    (acc : OPTIONS * nat) (line : wstring) : OPTIONS * nat :=
  match prepared line with
  | None => acc
  | Some line =>
      let line_lowercase := ToLower line in
      if String.eqb (substring 0 5 line_lowercase) "class" then
        (mkOPTIONS
           (AddValuesToVectorByDelimiter delimiter
              (blacklisted_classes acc.1) line)
           (blacklisted_filenames acc.1) (blacklisted_titles acc.1),
         acc.2)
      else if String.eqb (substring 0 5 line_lowercase) "title"
              || String.eqb (substring 0 13 line) "windowtitle" then
        (mkOPTIONS
           (blacklisted_classes acc.1) (blacklisted_filenames acc.1)
           (AddValuesToVectorByDelimiter delimiter
              (blacklisted_titles acc.1) line),
         acc.2)
      else if String.eqb (substring 0 7 line_lowercase) "exename" then
        (mkOPTIONS
           (blacklisted_classes acc.1)
           (AddValuesToVectorByDelimiter delimiter
              (blacklisted_filenames acc.1) line_lowercase)
           (blacklisted_titles acc.1),
         acc.2)
      else (acc.1, S acc.2)
  end.

(** [lines] are the lines [std::getline] reads from the exclude file. *)
Definition ParseBlacklistFile
    (AddValuesToVectorByDelimiter : ascii -> list wstring -> wstring -> list wstring)
    (lines : list wstring) : OPTIONS * nat :=
  fold_left (parse_line AddValuesToVectorByDelimiter) lines
            (mkOPTIONS [] [] [], 0%nat).

(** A stand-in for [AddValuesToVectorByDelimiter] in the examples: it adds
    the whole line. *)
Definition add_whole_line (d : ascii) (values : list wstring) (line : wstring)
  : list wstring :=
  values ++ [line].

(** * Properties *)

Lemma ACCENT_eqb_eq (a b : ACCENT) : ACCENT_eqb a b = true <-> a = b.
Proof. destruct a, b; simpl; split; congruence. Qed.

Lemma ACCENT_eqb_refl (a : ACCENT) : ACCENT_eqb a a = true.
Proof. now destruct a. Qed.

Example SetWindowBlur_blur :
  SetWindowBlur true 7 ACCENT_ENABLE_BLURBEHIND 0x80112233 ∅
  = ({[ 7 := false ]},
     [SetWindowCompositionAttribute 7
        (mkPolicy ACCENT_ENABLE_BLURBEHIND 2 0x80332211 0)]).
Proof. reflexivity. Qed.

(** ** Bit-level facts about 32-bit colours *)

Section Bits.

Lemma testbit_u32_high (x n : Z) :
    0 <= x < 2 ^ 32 -> 32 <= n -> Z.testbit x n = false.
  Proof.
    intros Hx Hn.
    destruct (Z.eq_dec x 0) as [->|Hne]; [apply Z.bits_0|].
    apply Z.bits_above_log2; [lia|].
    assert (Z.log2 x < 32) by (apply Z.log2_lt_pow2; lia).
    lia.
  Qed.

Lemma u32_bits_inj (a b : Z) :
    0 <= a < 2 ^ 32 -> 0 <= b < 2 ^ 32 ->
    (forall n, 0 <= n < 32 -> Z.testbit a n = Z.testbit b n) -> a = b.
  Proof.
    intros Ha Hb H. apply Z.bits_inj'. intros n Hn.
    destruct (Z.lt_ge_cases n 32) as [Hlt|Hge].
    - apply H; lia.
    - rewrite !testbit_u32_high by lia. reflexivity.
  Qed.

(** The bits of a byte mask placed [k] bits up. *)
Lemma testbit_byte_at (k n : Z) :
  0 <= k -> 0 <= n ->
  Z.testbit (Z.shiftl (Z.ones 8) k) n = (k <=? n) && (n <? k + 8).
Proof.
  intros Hk Hn. rewrite Z.shiftl_spec by lia.
  destruct (Z.leb_spec k n) as [Hle|Hgt].
  - rewrite Z.testbit_ones_nonneg by lia. cbn [andb].
    destruct (Z.ltb_spec (n - k) 8), (Z.ltb_spec n (k + 8)); lia || reflexivity.
  - rewrite Z.testbit_neg_r by lia. reflexivity.
Qed.

(** The bits of the four masks of [SetWindowBlur]. *)
Lemma mask_FF00FF00 (n : Z) :
  0 <= n ->
  Z.testbit 0xFF00FF00 n = ((8 <=? n) && (n <? 16)) || ((24 <=? n) && (n <? 32)).
Proof.
  intros Hn.
  change 0xFF00FF00
    with (Z.lor (Z.shiftl (Z.ones 8) 8) (Z.shiftl (Z.ones 8) 24)).
  rewrite Z.lor_spec, !testbit_byte_at by lia. reflexivity.
Qed.

Lemma mask_00FF0000 (n : Z) :
  0 <= n -> Z.testbit 0x00FF0000 n = (16 <=? n) && (n <? 24).
Proof.
  intros Hn. change 0x00FF0000 with (Z.shiftl (Z.ones 8) 16).
  rewrite testbit_byte_at by lia. reflexivity.
Qed.

Lemma mask_000000FF (n : Z) :
    0 <= n -> Z.testbit 0x000000FF n = (n <? 8).
  Proof.
    intros Hn. change 0x000000FF with (Z.ones 8).
    now rewrite Z.testbit_ones_nonneg by lia.
  Qed.

Lemma mask_00FFFFFF (n : Z) :
    0 <= n -> Z.testbit 0x00FFFFFF n = (n <? 24).
  Proof.
    intros Hn. change 0x00FFFFFF with (Z.ones 24).
    now rewrite Z.testbit_ones_nonneg by lia.
  Qed.

End Bits.

Ltac split_cmp :=
  repeat first
    [ match goal with |- context [Z.ltb ?x ?y] => destruct (Z.ltb_spec x y) end
    | match goal with |- context [Z.leb ?x ?y] => destruct (Z.leb_spec x y) end
    | match goal with |- context [Z.eqb ?x ?y] => destruct (Z.eqb_spec x y) end ].

Ltac bool_tidy :=
  simpl;
  rewrite ?andb_false_r, ?andb_true_r, ?orb_false_r, ?orb_true_r;
  simpl.

Section Colour.

Lemma u32_of_bits (x : Z) :
    0 <= x -> (forall n, 32 <= n -> Z.testbit x n = false) -> 0 <= x < 2 ^ 32.
  Proof.
    intros Hx Hhigh.
    assert (Hmod : x mod 2 ^ 32 = x).
    { rewrite <- Z.land_ones by lia. apply Z.bits_inj'. intros n Hn.
      rewrite Z.land_spec, Z.testbit_ones_nonneg by lia.
      destruct (Z.ltb_spec n 32); bool_tidy; [reflexivity|].
      symmetry. apply Hhigh. lia. }
    rewrite <- Hmod. apply Z.mod_pos_bound. lia.
  Qed.

  (** Where each bit of the converted colour comes from. *)
Lemma abgr_of_argb_testbit (c n : Z) :
    0 <= n ->
    Z.testbit (abgr_of_argb c) n
    = if n <? 8 then Z.testbit c (n + 16)
      else if n <? 16 then Z.testbit c n
      else if n <? 24 then Z.testbit c (n - 16)
      else if n <? 32 then Z.testbit c n
      else false.
  Proof.
    intros Hn. unfold abgr_of_argb.
    rewrite !Z.lor_spec, Z.shiftr_spec, !Z.land_spec by lia.
    rewrite mask_FF00FF00, mask_00FF0000 by lia.
    destruct (Z.ltb_spec n 16) as [Hlow|Hhigh].
    - rewrite (Z.shiftl_spec_low _ 16 n) by lia.
      split_cmp; try lia; bool_tidy; reflexivity.
    - rewrite Z.shiftl_spec, Z.land_spec, mask_000000FF by lia.
      split_cmp; try lia; bool_tidy; reflexivity.
  Qed.

Lemma abgr_of_argb_nonneg (c : Z) : 0 <= abgr_of_argb c.
  Proof.
    unfold abgr_of_argb.
    repeat first [ apply Z.lor_nonneg; split
                 | apply Z.shiftr_nonneg | apply Z.shiftl_nonneg
                 | apply Z.land_nonneg; right; lia ].
  Qed.

Lemma abgr_of_argb_range (c : Z) : 0 <= abgr_of_argb c < 2 ^ 32.
  Proof.
    apply u32_of_bits; [apply abgr_of_argb_nonneg|].
    intros n Hn. rewrite abgr_of_argb_testbit by lia.
    split_cmp; lia || reflexivity.
  Qed.

  (** The three masked operands have no bit in common, so adding them
      carries nothing. *)
Lemma operands_disjoint (c : Z) :
    Z.land (Z.land c 0xFF00FF00) (Z.shiftr (Z.land c 0x00FF0000) 16) = 0
    /\ Z.land (Z.land c 0xFF00FF00) (Z.shiftl (Z.land c 0x000000FF) 16) = 0
    /\ Z.land (Z.shiftr (Z.land c 0x00FF0000) 16)
              (Z.shiftl (Z.land c 0x000000FF) 16) = 0.
  Proof.
    repeat split; apply Z.bits_inj'; intros n Hn; rewrite Z.bits_0;
      rewrite !Z.land_spec, ?Z.shiftr_spec, ?Z.land_spec,
        ?mask_FF00FF00, ?mask_00FF0000 by lia;
      (destruct (Z.ltb_spec n 16);
       [ rewrite ?(Z.shiftl_spec_low _ 16 n) by lia
       | rewrite ?Z.shiftl_spec, ?Z.land_spec, ?mask_000000FF by lia ]);
      split_cmp; try lia; bool_tidy; reflexivity.
  Qed.

Lemma add_is_lor (a b : Z) : Z.land a b = 0 -> a + b = Z.lor a b.
  Proof.
    intros H. rewrite Z.add_nocarry_lxor by exact H. now apply Z.lxor_lor.
  Qed.

  (** The sum that [SetWindowBlur] computes is the spec's [|] expression. *)
Lemma policy_color_abgr (c : Z) : policy_color c = abgr_of_argb c.
  Proof.
    destruct (operands_disjoint c) as (H12 & H13 & H23).
    pose proof (abgr_of_argb_range c) as Hr. unfold abgr_of_argb in Hr.
    set (a := Z.land c 0xFF00FF00) in *.
    set (b := Z.shiftr (Z.land c 0x00FF0000) 16) in *.
    set (d := Z.shiftl (Z.land c 0x000000FF) 16) in *.
    assert (Ha : 0 <= a) by (apply Z.land_nonneg; right; lia).
    assert (Hb : 0 <= b) by (apply Z.shiftr_nonneg, Z.land_nonneg; right; lia).
    assert (Hd : 0 <= d) by (apply Z.shiftl_nonneg, Z.land_nonneg; right; lia).
    assert (Hab : a + b = Z.lor a b) by now apply add_is_lor.
    assert (Habd : Z.lor a b + d = Z.lor (Z.lor a b) d).
    { apply add_is_lor. rewrite Z.land_lor_distr_l, H13, H23. reflexivity. }
    unfold policy_color, abgr_of_argb, uint32. fold a b d.
    assert (Hab_r : 0 <= Z.lor a b < 2 ^ 32).
    { split; [apply Z.lor_nonneg; lia|]. lia. }
    assert (Hd_r : 0 <= d < 2 ^ 32) by lia.
    rewrite Hab, (Z.mod_small (Z.lor a b)) by lia.
    rewrite (Z.mod_small d) by lia.
    rewrite Habd. apply Z.mod_small. lia.
  Qed.

Lemma abgr_of_argb_involutive (c : Z) :
    0 <= c < 2 ^ 32 -> abgr_of_argb (abgr_of_argb c) = c.
  Proof.
    intros Hc. apply u32_bits_inj; [apply abgr_of_argb_range | exact Hc |].
    intros n Hn. rewrite abgr_of_argb_testbit by lia.
    split_cmp; try lia; rewrite abgr_of_argb_testbit by lia;
      split_cmp; try lia; f_equal; lia.
  Qed.

Lemma byte_of_testbit (k c n : Z) :
    0 <= k -> 0 <= n ->
    Z.testbit (byte_of k c) n = Z.testbit c (n + 8 * k) && (n <? 8).
  Proof.
    intros Hk Hn. unfold byte_of.
    now rewrite Z.land_spec, Z.shiftr_spec, mask_000000FF by lia.
  Qed.

Lemma byte_of_abgr (k c : Z) :
    0 <= k < 4 ->
    byte_of k (abgr_of_argb c)
    = byte_of (if k =? 0 then 2 else if k =? 2 then 0 else k) c.
  Proof.
    intros Hk. apply Z.bits_inj'. intros n Hn.
    rewrite !byte_of_testbit by (split_cmp; lia).
    destruct (Z.ltb_spec n 8); bool_tidy; [|reflexivity].
    rewrite abgr_of_argb_testbit by lia.
    assert (Hcases : k = 0 \/ k = 1 \/ k = 2 \/ k = 3) by lia.
    destruct Hcases as [-> | [-> | [-> | ->]]]; simpl (_ =? _);
      split_cmp; try lia; f_equal; lia.
  Qed.

End Colour.

(** ** [SetWindowBlur]: colour, Fluent alpha, theme reset *)

Lemma shiftr_24_alpha (x : Z) : 0 <= x < 2 ^ 32 -> Z.shiftr x 24 = byte_of 3 x.
Proof.
  intros Hx. unfold byte_of. change (8 * 3) with 24.
  change 0xFF with (Z.ones 8). rewrite Z.land_ones by lia.
  rewrite Z.shiftr_div_pow2 by lia.
  symmetry. apply Z.mod_small.
  split; [apply Z.div_pos; lia|].
  apply Z.div_lt_upper_bound; lia.
Qed.

Lemma SetWindowBlur_not_normal (window : HWND) (appearance : ACCENT)
    (color : Z) (memo : gmap HWND bool) :
  appearance <> ACCENT_NORMAL ->
  SetWindowBlur true window appearance color memo
  = (<[window := false]> memo,
     [SetWindowCompositionAttribute window
        (mkPolicy appearance 2
           (if ACCENT_eqb appearance ACCENT_ENABLE_FLUENT
               && (Z.shiftr (policy_color color) 24 =? 0)
            then fluent_color (policy_color color)
            else policy_color color) 0)]).
Proof.
  intros Hne. unfold SetWindowBlur. cbn [nAccentState nColor nFlags nAnimationId].
  destruct (ACCENT_eqb appearance ACCENT_NORMAL) eqn:E.
  - apply ACCENT_eqb_eq in E. contradiction.
  - destruct (ACCENT_eqb appearance ACCENT_ENABLE_FLUENT
              && (Z.shiftr (policy_color color) 24 =? 0)); reflexivity.
Qed.

(** C8.  For every 32-bit colour the sum computed by [SetWindowBlur] is the
    spec's expression with [|]: the three masked operands share no bit; the
    alpha and green bytes pass through, red and blue change places; the
    conversion undoes itself; and this is the colour of the policy that
    reaches the accent API, except where the Fluent promotion of a zero
    alpha applies. *)
Theorem policy_color_swaps_red_and_blue (color : Z) :
  0 <= color < 2 ^ 32 ->
  policy_color color
  = Z.lor (Z.lor (Z.land color 0xFF00FF00)
                 (Z.shiftr (Z.land color 0x00FF0000) 16))
          (Z.shiftl (Z.land color 0x000000FF) 16)
  /\ (Z.land (Z.land color 0xFF00FF00) (Z.shiftr (Z.land color 0x00FF0000) 16) = 0
      /\ Z.land (Z.land color 0xFF00FF00) (Z.shiftl (Z.land color 0x000000FF) 16) = 0
      /\ Z.land (Z.shiftr (Z.land color 0x00FF0000) 16)
                (Z.shiftl (Z.land color 0x000000FF) 16) = 0)
  /\ byte_of 3 (policy_color color) = byte_of 3 color
  /\ byte_of 2 (policy_color color) = byte_of 0 color
  /\ byte_of 1 (policy_color color) = byte_of 1 color
  /\ byte_of 0 (policy_color color) = byte_of 2 color
  /\ policy_color (policy_color color) = color
  /\ forall (window : HWND) (appearance : ACCENT) (memo : gmap HWND bool),
       appearance <> ACCENT_NORMAL ->
       ~ (appearance = ACCENT_ENABLE_FLUENT /\ byte_of 3 color = 0) ->
       SetWindowBlur true window appearance color memo
       = (<[window := false]> memo,
          [SetWindowCompositionAttribute window
             (mkPolicy appearance 2 (abgr_of_argb color) 0)]).
Proof.
  intros Hc. rewrite !policy_color_abgr.
  split; [reflexivity|].
  split; [apply operands_disjoint|].
  rewrite !byte_of_abgr by lia. cbn [Z.eqb].
  repeat (split; [reflexivity|]).
  split; [now apply abgr_of_argb_involutive|].
  intros window appearance memo Hn Hf.
  rewrite SetWindowBlur_not_normal by exact Hn.
  rewrite policy_color_abgr.
  destruct (ACCENT_eqb appearance ACCENT_ENABLE_FLUENT) eqn:Ef; [|reflexivity].
  destruct (Z.eqb_spec (Z.shiftr (abgr_of_argb color) 24) 0) as [Hz|Hz];
    [|reflexivity].
  exfalso. apply Hf. split; [now apply ACCENT_eqb_eq|].
  rewrite shiftr_24_alpha in Hz by apply abgr_of_argb_range.
  now rewrite byte_of_abgr in Hz by lia.
Qed.

Lemma policy_color_swaps_red_and_blue_witness :
  0 <= 0x80112233 < 2 ^ 32 /\ policy_color 0x80112233 = 0x80332211.
Proof.
  split; [lia|].
  destruct (policy_color_swaps_red_and_blue 0x80112233 ltac:(lia)) as [H _].
  rewrite H. reflexivity.
Defined.

Lemma fluent_color_bytes (x : Z) :
  0 <= x ->
  fluent_color x = 0x01000000 + Z.land x 0x00FFFFFF
  /\ Z.shiftr (fluent_color x) 24 = 1
  /\ byte_of 3 (fluent_color x) = 1
  /\ Z.land (fluent_color x) 0x00FFFFFF = Z.land x 0x00FFFFFF.
Proof.
  intros Hx. unfold fluent_color, uint32, byte_of.
  change (Z.shiftl 1 24) with 0x01000000. change (8 * 3) with 24.
  change 0x00FFFFFF with (Z.ones 24). change 0xFF with (Z.ones 8).
  rewrite !Z.land_ones by lia.
  pose proof (Z.mod_pos_bound x (2 ^ 24) ltac:(lia)) as Hr.
  set (r := x mod 2 ^ 24) in *.
  rewrite (Z.mod_small (16777216 + r)) by lia.
  rewrite !Z.shiftr_div_pow2 by lia.
  assert (Hq : (16777216 + r) / 2 ^ 24 = 1).
  { symmetry. apply (Z.div_unique _ _ 1 r); lia. }
  rewrite Hq. repeat split.
  symmetry. apply (Z.mod_unique _ _ 1 r); lia.
Qed.

(** From here on the two colour computations are used through the lemmas
    above only. *)
Opaque policy_color fluent_color.

(** C7.  A Fluent accent never reaches the shell with an opacity byte of 0.
    For a 32-bit colour whose alpha byte is 0 the policy submitted has alpha
    exactly 1 and the low 24 bits of the converted colour as they are; for a
    colour with another alpha the policy carries that alpha unchanged; and
    whatever the arguments and the host, no policy with state Fluent and a
    zero top byte is among the events of [SetWindowBlur]. *)
Theorem fluent_never_submitted_with_zero_alpha (window : HWND) (color : Z)
    (memo : gmap HWND bool) :
  0 <= color < 2 ^ 32 ->
  (byte_of 3 color = 0 ->
   exists nColor,
     (SetWindowBlur true window ACCENT_ENABLE_FLUENT color memo).2
     = [SetWindowCompositionAttribute window
          (mkPolicy ACCENT_ENABLE_FLUENT 2 nColor 0)]
     /\ nColor = 0x01000000 + Z.land (policy_color color) 0x00FFFFFF
     /\ byte_of 3 nColor = 1
     /\ Z.land nColor 0x00FFFFFF = Z.land (policy_color color) 0x00FFFFFF)
  /\ (byte_of 3 color <> 0 ->
      (SetWindowBlur true window ACCENT_ENABLE_FLUENT color memo).2
      = [SetWindowCompositionAttribute window
           (mkPolicy ACCENT_ENABLE_FLUENT 2 (policy_color color) 0)]
      /\ byte_of 3 (policy_color color) = byte_of 3 color)
  /\ (forall (has_swca : bool) (appearance : ACCENT) (w : HWND)
             (policy : ACCENTPOLICY),
        In (SetWindowCompositionAttribute w policy)
           (SetWindowBlur has_swca window appearance color memo).2 ->
        nAccentState policy = ACCENT_ENABLE_FLUENT ->
        Z.shiftr (nColor policy) 24 <> 0 /\ byte_of 3 (nColor policy) <> 0).
Proof.
  intros Hc.
  assert (Hp : 0 <= policy_color color < 2 ^ 32)
    by (rewrite policy_color_abgr; apply abgr_of_argb_range).
  assert (Ha : byte_of 3 (policy_color color) = byte_of 3 color)
    by (rewrite policy_color_abgr; now rewrite byte_of_abgr by lia).
  pose proof (shiftr_24_alpha _ Hp) as Hs.
  destruct (fluent_color_bytes (policy_color color) ltac:(lia))
    as (Hf1 & Hf2 & Hf3 & Hf4).
  split; [|split].
  - intros Hz. exists (fluent_color (policy_color color)).
    rewrite SetWindowBlur_not_normal by discriminate.
    cbn [snd ACCENT_eqb andb].
    replace (Z.shiftr (policy_color color) 24 =? 0) with true
      by (symmetry; apply Z.eqb_eq; lia).
    auto.
  - intros Hnz. rewrite SetWindowBlur_not_normal by discriminate.
    cbn [snd ACCENT_eqb andb].
    replace (Z.shiftr (policy_color color) 24 =? 0) with false
      by (symmetry; apply Z.eqb_neq; lia).
    auto.
  - intros has_swca appearance w policy Hin Hst.
    destruct has_swca; [|now cbn in Hin].
    destruct (ACCENT_eqb appearance ACCENT_NORMAL) eqn:En.
    + unfold SetWindowBlur in Hin. cbn [nAccentState] in Hin. rewrite En in Hin.
      destruct (not_yet_normal memo window); cbn in Hin;
        [destruct Hin as [Hin|[]]; discriminate | contradiction].
    + rewrite SetWindowBlur_not_normal in Hin
        by (intros ->; discriminate).
      cbn [snd] in Hin. destruct Hin as [Hin|[]].
      assert (Hpol : policy
                = mkPolicy appearance 2
                    (if ACCENT_eqb appearance ACCENT_ENABLE_FLUENT
                        && (Z.shiftr (policy_color color) 24 =? 0)
                     then fluent_color (policy_color color)
                     else policy_color color) 0) by congruence.
      clear Hin. subst policy. cbn [nAccentState] in Hst.
      subst appearance. cbn [nColor ACCENT_eqb andb].
      destruct (Z.eqb_spec (Z.shiftr (policy_color color) 24) 0) as [Hz|Hz].
      * rewrite Hf2, Hf3. lia.
      * rewrite <- Hs. auto.
Qed.

Lemma fluent_never_submitted_with_zero_alpha_witness :
  0 <= 0x00112233 < 2 ^ 32
  /\ (SetWindowBlur true 7 ACCENT_ENABLE_FLUENT 0x00112233 ∅).2
     = [SetWindowCompositionAttribute 7
          (mkPolicy ACCENT_ENABLE_FLUENT 2 0x01332211 0)].
Proof.
  split; [lia|].
  destruct (fluent_never_submitted_with_zero_alpha 7 0x00112233 ∅ ltac:(lia))
    as [H _].
  destruct (H eq_refl) as (nColor & Hsent & Hcol & _).
  rewrite Hsent, Hcol. reflexivity.
Defined.

(** The memo records, for every window, whether the latest accent applied
    to it was the normal one. *)
Lemma blur_calls_memo (window : HWND) (calls : list Call)
    (memo : gmap HWND bool) :
  (blur_calls true calls memo).1 !! window
  = match last_applied window calls with
    | Some a => Some (ACCENT_eqb a ACCENT_NORMAL)
    | None => memo !! window
    end.
Proof.
  revert memo.
  induction calls as [|[cw ca cc] rest IH]; intros memo; [reflexivity|].
  cbn [blur_calls last_applied call_window call_appearance call_color].
  destruct (SetWindowBlur true cw ca cc memo) as [memo1 sent1] eqn:E1.
  specialize (IH memo1).
  destruct (blur_calls true rest memo1) as [memo2 sent2]. cbn [fst] in *.
  rewrite IH. destruct (last_applied window rest); [reflexivity|].
  unfold SetWindowBlur in E1. cbn [nAccentState] in E1.
  destruct (ACCENT_eqb ca ACCENT_NORMAL) eqn:En.
  - unfold not_yet_normal in E1.
    destruct (Z.eqb_spec cw window) as [->|Hne].
    + destruct (memo !! window) as [[]|] eqn:Em; cbn [negb] in E1;
        injection E1 as <- _; rewrite ?lookup_insert_eq, ?Em, ?En; reflexivity.
    + destruct (memo !! cw) as [[]|]; cbn [negb] in E1;
        injection E1 as <- _; rewrite ?lookup_insert_ne by exact Hne; auto.
  - assert (Hm : memo1 = <[cw := false]> memo).
    { destruct (ACCENT_eqb ca ACCENT_ENABLE_FLUENT
                && (Z.shiftr (policy_color cc) 24 =? 0));
        cbn [nAccentState nColor nFlags nAnimationId] in E1; congruence. }
    subst memo1. clear E1.
    destruct (Z.eqb_spec cw window) as [->|Hne].
    + rewrite lookup_insert_eq, En. reflexivity.
    + rewrite lookup_insert_ne by exact Hne. reflexivity.
Qed.

Lemma SetWindowBlur_theme_resets (window target : HWND) (appearance : ACCENT)
    (color : Z) (memo : gmap HWND bool) :
  theme_resets target (SetWindowBlur true window appearance color memo).2
  = if (window =? target) && ACCENT_eqb appearance ACCENT_NORMAL
       && not_yet_normal memo window
    then 1%nat else 0%nat.
Proof.
  unfold SetWindowBlur. cbn [nAccentState].
  destruct (ACCENT_eqb appearance ACCENT_NORMAL).
  - destruct (not_yet_normal memo window).
    + unfold theme_resets. cbn [snd filter list_filter is_theme_reset].
      rewrite Z.eqb_refl, !andb_true_r.
      destruct (Z.eqb_spec window target);
        case_decide; try reflexivity; congruence.
    + rewrite andb_false_r. reflexivity.
  - rewrite andb_false_r. reflexivity.
Qed.

(** C3.  After any sequence of applications, starting from the empty memo
    of a fresh process, an application to [window] sends [WM_THEMECHANGED]
    to it exactly once if the accent is [ACCENT_NORMAL] and the latest
    accent applied to that window was not (or none was applied yet), and not
    at all otherwise: so a second normal application in a row sends nothing,
    and an application of another accent in between makes the next normal
    one send the message again.  No other window receives the message.  On
    a host without the entry point nothing is applied and nothing is sent. *)
Theorem theme_reset_only_on_the_edge (calls : list Call) (window : HWND)
    (appearance : ACCENT) (color : Z) :
  let memo := (blur_calls true calls ∅).1 in
  let sent := (SetWindowBlur true window appearance color memo).2 in
  theme_resets window sent
  = (if ACCENT_eqb appearance ACCENT_NORMAL
        && negb (was_normal (last_applied window calls))
     then 1%nat else 0%nat)
  /\ (forall other : HWND, other <> window -> theme_resets other sent = 0%nat)
  /\ last_applied window (calls ++ [mkCall window appearance color])
     = Some appearance
  /\ forall memo' : gmap HWND bool,
       SetWindowBlur false window appearance color memo' = (memo', []).
Proof.
  cbn zeta. split; [|split; [|split]].
  - rewrite SetWindowBlur_theme_resets, Z.eqb_refl. cbn [andb].
    unfold not_yet_normal. rewrite blur_calls_memo, lookup_empty.
    destruct (last_applied window calls); reflexivity.
  - intros other Hne. rewrite SetWindowBlur_theme_resets.
    destruct (Z.eqb_spec window other); [congruence | reflexivity].
  - induction calls as [|c rest IH]; cbn [app last_applied call_window call_appearance].
    + now rewrite Z.eqb_refl.
    + now rewrite IH.
  - reflexivity.
Qed.

Lemma theme_reset_only_on_the_edge_witness :
  let history := [ mkCall 100 ACCENT_NORMAL 0;
                   mkCall 100 ACCENT_ENABLE_BLURBEHIND 0x80000000 ] in
  theme_resets 100
    (SetWindowBlur true 100 ACCENT_NORMAL 0 (blur_calls true history ∅).1).2
  = 1%nat
  /\ theme_resets 100
       (SetWindowBlur true 100 ACCENT_NORMAL 0
          (blur_calls true (history ++ [mkCall 100 ACCENT_NORMAL 0]) ∅).1).2
     = 0%nat.
Proof.
  cbn zeta. split.
  - exact (proj1 (theme_reset_only_on_the_edge
                    [ mkCall 100 ACCENT_NORMAL 0;
                      mkCall 100 ACCENT_ENABLE_BLURBEHIND 0x80000000 ]
                    100 ACCENT_NORMAL 0)).
  - exact (proj1 (theme_reset_only_on_the_edge
                    ([ mkCall 100 ACCENT_NORMAL 0;
                       mkCall 100 ACCENT_ENABLE_BLURBEHIND 0x80000000 ]
                     ++ [mkCall 100 ACCENT_NORMAL 0])
                    100 ACCENT_NORMAL 0)).
Defined.

(** ** The blacklist *)

Lemma prefix_spec (value s : wstring) :
  String.prefix value s = true <-> exists post, s = value +:+ post.
Proof.
  revert s. induction value as [|a value IH]; intros s.
  - split; [intros _; now exists s | intros _; now destruct s].
  - destruct s as [|b s]; cbn [String.prefix].
    + split; [discriminate | intros [post H]; discriminate].
    + destruct (ascii_dec a b) as [->|Hne].
      * rewrite IH. split; intros [post H]; exists post.
        -- cbn. now rewrite H.
        -- cbn in H. now injection H.
      * split; [discriminate|]. intros [post H]. simpl in H.
        injection H as H1 H2. congruence.
Qed.

Lemma find_occurs (value s : wstring) :
  find value s <> None <-> occurs_in value s.
Proof.
  unfold occurs_in. induction s as [|c s IH].
  - cbn [find]. destruct (String.prefix value "") eqn:Ep.
    + split; [|discriminate]. intros _.
      apply prefix_spec in Ep. destruct Ep as [post H].
      exists ""%string, post. exact H.
    + split; [congruence|]. intros (pre & post & H).
      destruct pre; [|discriminate]. cbn in H.
      assert (String.prefix value "" = true) by (apply prefix_spec; eauto).
      congruence.
  - cbn [find]. destruct (String.prefix value (String c s)) eqn:Ep.
    + split; [|discriminate]. intros _.
      apply prefix_spec in Ep. destruct Ep as [post H].
      exists ""%string, post. exact H.
    + split.
      * intros Hf. destruct (find value s); [|now cbn in Hf].
        destruct IH as [IH _]. destruct (IH ltac:(discriminate)) as (pre & post & H).
        exists (String c pre), post. cbn. now rewrite H.
      * intros (pre & post & H). destruct pre as [|c' pre].
        -- cbn in H.
           assert (String.prefix value (String c s) = true)
             by (apply prefix_spec; eauto).
           congruence.
        -- cbn in H. injection H as _ H.
           destruct IH as [_ IH].
           specialize (IH (ex_intro _ pre (ex_intro _ post H))).
           destruct (find value s); [discriminate | contradiction].
Qed.

Lemma first_match_spec (test : wstring -> bool) (mk : wstring -> Comparison)
    (values : list wstring) :
  first_match test mk values
  = (existsb test values, mk <$> until_match test values).
Proof.
  induction values as [|value rest IH]; [reflexivity|].
  cbn [first_match existsb until_match].
  destruct (test value); [reflexivity|]. now rewrite IH.
Qed.

Lemma existsb_In (test : wstring -> bool) (values : list wstring) :
  existsb test values = true <-> exists value, In value values /\ test value = true.
Proof. apply existsb_exists. Qed.

(** The answer of a full evaluation, as the three loops compute it. *)
Lemma rules_answer (opt : OPTIONS) (window : Window) :
  Forall (fun value => ToLower value = value) (blacklisted_filenames opt) ->
  existsb (class_test window) (blacklisted_classes opt)
  || existsb (title_test window) (blacklisted_titles opt)
  || existsb (filename_test window) (blacklisted_filenames opt) = true
  <-> matches_rules opt window.
Proof.
  intros Hlow. unfold matches_rules.
  rewrite !orb_true_iff, !existsb_In. split.
  - intros [[(value & Hin & Ht)|(value & Hin & Ht)]|(value & Hin & Ht)].
    + left. apply String.eqb_eq in Ht. now rewrite Ht.
    + right; left. exists value. split; [exact Hin|].
      apply find_occurs. unfold title_test in Ht.
      now apply bool_decide_eq_true in Ht.
    + right; right. exists value. split; [exact Hin|].
      apply String.eqb_eq in Ht. rewrite Ht.
      rewrite Forall_forall in Hlow. symmetry. apply Hlow.
      now apply list_elem_of_In.
  - intros [Hc|[(value & Hin & Ht)|(value & Hin & Ht)]].
    + left; left. exists (classname window). split; [exact Hc|].
      apply String.eqb_refl.
    + left; right. exists value. split; [exact Hin|].
      apply bool_decide_eq_true. now apply find_occurs.
    + right. exists value. split; [exact Hin|].
      apply String.eqb_eq. rewrite Ht.
      rewrite Forall_forall in Hlow. apply Hlow. now apply list_elem_of_In.
Qed.

(** [IsWindowBlacklisted] when it does not answer from the cache. *)
Lemma IsWindowBlacklisted_evaluates (cfg : Config.t) (opt : OPTIONS)
    (window : Window) (hits : Z) (cache : gmap HWND bool) :
  (hits <=? Config.CACHE_HIT_MAX cfg) && (count cache (handle window) >? 0)
  = false ->
  let fresh := hits >? Config.CACHE_HIT_MAX cfg in
  let verdict :=
    existsb (class_test window) (blacklisted_classes opt)
    || existsb (title_test window) (blacklisted_titles opt)
    || existsb (filename_test window) (blacklisted_filenames opt) in
  IsWindowBlacklisted cfg opt window hits cache
  = mkBlacklisted verdict (if fresh then 0 else hits)
      (<[handle window := verdict]> (if fresh then ∅ else cache))
      (comparisons_in_order opt window).
Proof.
  intros Hmiss. cbn zeta. unfold IsWindowBlacklisted, comparisons_in_order.
  rewrite Hmiss, !first_match_spec.
  destruct (hits >? Config.CACHE_HIT_MAX cfg);
    destruct (existsb (class_test window) (blacklisted_classes opt));
    cbn [orb]; rewrite ?app_nil_r; try reflexivity;
    destruct (existsb (title_test window) (blacklisted_titles opt));
    cbn [orb]; rewrite ?app_nil_r; try reflexivity;
    destruct (existsb (filename_test window) (blacklisted_filenames opt));
    reflexivity.
Qed.

Lemma wrap_int_small (x : Z) : - 2 ^ 31 <= x <= INT_MAX -> wrap_int x = x.
Proof.
  unfold wrap_int, INT_MAX. intros Hx.
  rewrite Z.mod_small by lia. lia.
Qed.

(** C4.  [IsWindowBlacklisted], for an [int] counter, a bound below
    [INT_MAX] and file names stored lower-cased (as [ParseBlacklistFile]
    stores them).  With the counter at most the bound and the window in the
    cache, the cached boolean is the answer, the counter goes up by one, the
    cache stays and no entry is compared.  Otherwise a counter above the
    bound first empties the cache and returns to 0; then the class names,
    then the title substrings, then the lower-cased executable name are
    compared, entry by entry and none after the first match; the answer says
    whether a rule matches, and it is stored for the window. *)
Theorem IsWindowBlacklisted_spec (cfg : Config.t) (opt : OPTIONS)
    (window : Window) (hits : Z) (cache : gmap HWND bool) :
  - 2 ^ 31 <= hits <= INT_MAX ->
  Config.CACHE_HIT_MAX cfg < INT_MAX ->
  Forall (fun value => ToLower value = value) (blacklisted_filenames opt) ->
  let r := IsWindowBlacklisted cfg opt window hits cache in
  (forall b : bool,
     hits <= Config.CACHE_HIT_MAX cfg ->
     cache !! handle window = Some b ->
     answer r = b /\ hits_after r = hits + 1 /\ cache_after r = cache
     /\ compared r = [])
  /\ (hits > Config.CACHE_HIT_MAX cfg \/ cache !! handle window = None ->
      (answer r = true <-> matches_rules opt window)
      /\ hits_after r = (if hits >? Config.CACHE_HIT_MAX cfg then 0 else hits)
      /\ cache_after r
         = <[handle window := answer r]>
             (if hits >? Config.CACHE_HIT_MAX cfg then ∅ else cache)
      /\ compared r = comparisons_in_order opt window).
Proof.
  intros Hhits Hmax Hlow. cbn zeta. split.
  - intros b Hle Hb. unfold IsWindowBlacklisted, count. rewrite Hb.
    replace (hits <=? Config.CACHE_HIT_MAX cfg) with true
      by (symmetry; apply Z.leb_le; lia).
    cbn. rewrite wrap_int_small by (unfold INT_MAX in *; lia). auto.
  - intros Hmiss.
    rewrite IsWindowBlacklisted_evaluates.
    + cbn [answer hits_after cache_after compared].
      split; [now apply rules_answer | auto].
    + apply andb_false_iff. destruct Hmiss as [Hgt|Hnone].
      * left. apply Z.leb_gt. lia.
      * right. unfold count. now rewrite Hnone.
Qed.

Example notepad_is_blacklisted_by_name :
  IsWindowBlacklisted some_config some_rules notepad 0 ∅
  = mkBlacklisted true 0 {[ 42 := true ]}
      [cmp_classname "Progman"; cmp_classname "Shell_TrayWnd";
       cmp_title "Visual Studio"; cmp_filename "notepad.exe"].
Proof. reflexivity. Qed.

Lemma IsWindowBlacklisted_spec_witness :
  let r := IsWindowBlacklisted some_config some_rules notepad 3 {[ 42 := true ]} in
  answer r = true /\ hits_after r = 4.
Proof.
  assert (Hlow : Forall (fun value => ToLower value = value)
                        (blacklisted_filenames some_rules))
    by (repeat constructor).
  destruct (IsWindowBlacklisted_spec some_config some_rules notepad 3
              {[ 42 := true ]} ltac:(unfold INT_MAX; lia)
              ltac:(unfold INT_MAX; cbn; lia) Hlow) as [Hhit _].
  destruct (Hhit true ltac:(cbn; lia) eq_refl) as (Ha & Hh & _).
  cbn zeta. rewrite Ha, Hh. split; reflexivity.
Defined.

Lemma hits_after_bounds (cfg : Config.t) (opt : OPTIONS) (window : Window)
    (hits : Z) (cache : gmap HWND bool) :
  0 <= Config.CACHE_HIT_MAX cfg < INT_MAX ->
  0 <= hits <= Config.CACHE_HIT_MAX cfg + 1 ->
  0 <= hits_after (IsWindowBlacklisted cfg opt window hits cache)
    <= Config.CACHE_HIT_MAX cfg + 1.
Proof.
  intros Hmax Hhits.
  destruct ((hits <=? Config.CACHE_HIT_MAX cfg)
            && (count cache (handle window) >? 0)) eqn:E.
  - unfold IsWindowBlacklisted. rewrite E. cbn [hits_after].
    apply andb_true_iff in E. destruct E as [Hle _]. apply Z.leb_le in Hle.
    rewrite wrap_int_small by (unfold INT_MAX in *; lia). lia.
  - rewrite IsWindowBlacklisted_evaluates by exact E. cbn [hits_after].
    destruct (hits >? Config.CACHE_HIT_MAX cfg) eqn:Eg; [lia|].
    rewrite Z.gtb_ltb in Eg. apply Z.ltb_ge in Eg. lia.
Qed.

(** C5.  In every state that calls of [IsWindowBlacklisted] and
    [ClearBlacklistCache] lead to, the counter is at most one above the
    bound.  While it is above the bound the next call does not look at the
    cache: it gives what it gives on an empty cache, makes the comparisons
    of a full evaluation, sets the counter to 0 and leaves a cache that
    holds the new answer and nothing else.  [ClearBlacklistCache] puts the
    counter above the bound. *)
Theorem cache_cleared_when_hits_exceed_bound (cfg : Config.t)
    (run : RUNTIMESTATE) (cache : gmap HWND bool) :
  0 <= Config.CACHE_HIT_MAX cfg < INT_MAX ->
  matcher_reachable cfg run cache ->
  0 <= cache_hits run <= Config.CACHE_HIT_MAX cfg + 1
  /\ (cache_hits run > Config.CACHE_HIT_MAX cfg ->
      forall (opt : OPTIONS) (window : Window),
        let r := IsWindowBlacklisted cfg opt window (cache_hits run) cache in
        r = IsWindowBlacklisted cfg opt window (cache_hits run) ∅
        /\ hits_after r = 0
        /\ cache_after r = {[ handle window := answer r ]}
        /\ compared r = comparisons_in_order opt window)
  /\ cache_hits (ClearBlacklistCache cfg run) > Config.CACHE_HIT_MAX cfg.
Proof.
  intros Hmax Hreach. split; [|split].
  - induction Hreach as [|run cache opt window _ IH|run cache _ IH].
    + cbn. lia.
    + cbn [with_cache_hits cache_hits]. now apply hits_after_bounds.
    + cbn [ClearBlacklistCache with_cache_hits cache_hits].
      rewrite wrap_int_small by (unfold INT_MAX in *; lia). lia.
  - intros Hgt opt window. cbn zeta.
    assert (Hmiss : forall c : gmap HWND bool,
               (cache_hits run <=? Config.CACHE_HIT_MAX cfg)
               && (count c (handle window) >? 0) = false).
    { intros c. apply andb_false_iff. left. apply Z.leb_gt. lia. }
    rewrite !IsWindowBlacklisted_evaluates by apply Hmiss.
    replace (cache_hits run >? Config.CACHE_HIT_MAX cfg) with true
      by (rewrite Z.gtb_ltb; symmetry; apply Z.ltb_lt; lia).
    cbn [answer hits_after cache_after compared]. auto.
  - cbn [ClearBlacklistCache with_cache_hits cache_hits].
    rewrite wrap_int_small by (unfold INT_MAX in *; lia). lia.
Qed.

Lemma cache_cleared_when_hits_exceed_bound_witness :
  let run := ClearBlacklistCache some_config
               (with_cache_hits
                  (hits_after (IsWindowBlacklisted some_config some_rules
                                 notepad 0 ∅)) run_initial) in
  let cache := cache_after (IsWindowBlacklisted some_config some_rules
                              notepad 0 ∅) in
  cache !! 42 = Some true
  /\ cache_hits run = 501
  /\ answer (IsWindowBlacklisted some_config (mkOPTIONS [] [] []) notepad
               (cache_hits run) cache) = false.
Proof.
  cbn zeta.
  pose proof (cache_cleared_when_hits_exceed_bound some_config _ _
                ltac:(unfold INT_MAX; cbn; lia)
                (reach_cleared _ _ _
                   (reach_asked _ _ _ some_rules notepad (reach_start _))))
    as (_ & Hfresh & _).
  split; [reflexivity|]. split; [reflexivity|].
  destruct (Hfresh ltac:(vm_compute; reflexivity) (mkOPTIONS [] [] []) notepad)
    as (Heq & _).
  exact (eq_trans (f_equal answer Heq) eq_refl).
Defined.

(** ** [TogglePeek] *)

Lemma TogglePeek_cases (desk : Desktop) (main : HWND) (status : bool)
    (cache : option (bool * HWND)) :
  TogglePeek desk main status cache
  = if bool_decide (status = (peek_statics main cache).1
                    /\ (peek_statics main cache).2 = main)
    then (Some (peek_statics main cache), [])
    else (Some (status, main),
          [ show (peek_button desk main)
                 (if status then SW_SHOWNORMAL else SW_HIDE);
            send_message (overflow_button desk main) WM_LBUTTONUP;
            send_message (overflow_button desk main) WM_LBUTTONUP ]).
Proof.
  unfold TogglePeek, peek_button, overflow_button.
  destruct (peek_statics main cache) as [cached_peek cached_taskbar].
  cbn [fst snd].
  destruct (Z.eqb_spec cached_taskbar main) as [Ht|Ht];
    destruct status, cached_peek; cbn [Bool.eqb negb orb];
    case_bool_decide; try reflexivity; intuition congruence.
Qed.

(** C10.  The two statics of [TogglePeek] start as [true] and the primary
    taskbar of the moment, so a first call that asks for a visible button
    does nothing to the shell.  In general the call shows or hides the
    button and sends the two [WM_LBUTTONUP] to the overflow button exactly
    when the status asked for differs from the cached one or the primary
    taskbar is not the cached one; otherwise it sends nothing and keeps the
    cache. *)
Theorem TogglePeek_touches_shell_only_on_change (desk : Desktop) (main : HWND)
    (status : bool) (cache : option (bool * HWND)) :
  peek_cache statics_initial = None
  /\ peek_statics main None = (true, main)
  /\ TogglePeek desk main true None = (Some (true, main), [])
  /\ TogglePeek desk main status cache
     = if bool_decide (status = (peek_statics main cache).1
                       /\ (peek_statics main cache).2 = main)
       then (Some (peek_statics main cache), [])
       else (Some (status, main),
             [ show (peek_button desk main)
                    (if status then SW_SHOWNORMAL else SW_HIDE);
               send_message (overflow_button desk main) WM_LBUTTONUP;
               send_message (overflow_button desk main) WM_LBUTTONUP ]).
Proof.
  split; [reflexivity|]. split; [reflexivity|]. split.
  - unfold TogglePeek. cbn [peek_statics]. now rewrite Z.eqb_refl.
  - apply TogglePeek_cases.
Qed.

Example TogglePeek_after_shell_restart :
  forall desk : Desktop,
    TogglePeek desk 200 true (Some (true, 100))
    = (Some (true, 200),
       [ show (peek_button desk 200) SW_SHOWNORMAL;
         send_message (overflow_button desk 200) WM_LBUTTONUP;
         send_message (overflow_button desk 200) WM_LBUTTONUP ]).
Proof. reflexivity. Qed.

(** ** The loops over the registry *)

Lemma blur_each_without_swca (args : TASKBARSTATE -> ACCENT * Z)
    (entries : list (HMONITOR * (HWND * TASKBARSTATE))) (memo : gmap HWND bool) :
  blur_each false args entries memo = (memo, []).
Proof.
  induction entries as [|[mon [window s]] rest IH]; [reflexivity|].
  cbn [blur_each SetWindowBlur]. now rewrite IH.
Qed.

Lemma theme_resets_app (window : HWND) (l1 l2 : list Event) :
  theme_resets window (l1 ++ l2)
  = (theme_resets window l1 + theme_resets window l2)%nat.
Proof. unfold theme_resets. now rewrite filter_app, length_app. Qed.

Lemma SetWindowBlur_normal (window : HWND) (color : Z) (memo : gmap HWND bool) :
  SetWindowBlur true window ACCENT_NORMAL color memo
  = if not_yet_normal memo window
    then (<[window := true]> memo, [send_message window WM_THEMECHANGED])
    else (memo, []).
Proof. reflexivity. Qed.

Lemma SetWindowBlur_normal_memo (window w : HWND) (color : Z)
    (memo : gmap HWND bool) :
  (SetWindowBlur true window ACCENT_NORMAL color memo).1 !! w
  = if decide (window = w) then Some true else memo !! w.
Proof.
  rewrite SetWindowBlur_normal. unfold not_yet_normal.
  destruct (decide (window = w)) as [->|Hne].
  - destruct (memo !! w) as [[]|] eqn:E; cbn [negb fst];
      rewrite ?lookup_insert_eq; auto.
  - destruct (memo !! window) as [[]|]; cbn [negb fst];
      rewrite ?lookup_insert_ne by exact Hne; auto.
Qed.



(** ** The way out of [wWinMain] *)



Example restore_default_sample :
  (restore_default true sample_desktop sample_machine).2
  = [ show 102 SW_SHOWNORMAL; send_message 103 WM_LBUTTONUP;
      send_message 103 WM_LBUTTONUP;
      send_message 200 WM_THEMECHANGED; send_message 100 WM_THEMECHANGED ].
Proof. vm_compute. reflexivity. Qed.

(** ** The classifier: what it leaves alone and when it completes *)

Lemma same_handles_refl (t : gmap HMONITOR (HWND * TASKBARSTATE)) :
  same_handles t t.
Proof. intros mon. reflexivity. Qed.

Lemma same_handles_trans (t1 t2 t3 : gmap HMONITOR (HWND * TASKBARSTATE)) :
  same_handles t1 t2 -> same_handles t2 t3 -> same_handles t1 t3.
Proof. intros H12 H23 mon. now rewrite H23, H12. Qed.

Lemma same_handles_reset (t : gmap HMONITOR (HWND * TASKBARSTATE)) :
  same_handles t (reset_states t).
Proof.
  intros mon. unfold reset_states. rewrite lookup_fmap.
  destruct (t !! mon) as [[w s]|]; reflexivity.
Qed.

Lemma same_handles_insert (t : gmap HMONITOR (HWND * TASKBARSTATE))
    (mon : HMONITOR) (taskbar : HWND * TASKBARSTATE) (s : TASKBARSTATE) :
  t !! mon = Some taskbar ->
  same_handles t (<[mon := (taskbar.1, s)]> t).
Proof.
  intros Hl mon'. destruct (decide (mon = mon')) as [<-|Hne].
  - rewrite lookup_insert_eq, Hl. reflexivity.
  - rewrite lookup_insert_ne by exact Hne. reflexivity.
Qed.

Lemma same_handles_is_Some (t t' : gmap HMONITOR (HWND * TASKBARSTATE))
    (mon : HMONITOR) :
  same_handles t t' -> is_Some (t !! mon) -> is_Some (t' !! mon).
Proof.
  intros Hs [x Hx]. specialize (Hs mon). rewrite Hx in Hs.
  destruct (t' !! mon); [eauto | discriminate].
Qed.

Lemma same_elsewhere_refl (r : RUNTIMESTATE) : same_elsewhere r r.
Proof. do 5 (split; [reflexivity|]). apply same_handles_refl. Qed.

Lemma same_elsewhere_trans (r1 r2 r3 : RUNTIMESTATE) :
  same_elsewhere r1 r2 -> same_elsewhere r2 r3 -> same_elsewhere r1 r3.
Proof.
  intros (A1 & A2 & A3 & A4 & A5 & A6) (B1 & B2 & B3 & B4 & B5 & B6).
  do 5 (split; [congruence|]).
  eapply same_handles_trans; eassumption.
Qed.

Lemma same_elsewhere_taskbars (r : RUNTIMESTATE)
    (t : gmap HMONITOR (HWND * TASKBARSTATE)) :
  same_handles (taskbars r) t -> same_elsewhere r (with_taskbars t r).
Proof. intros H. do 5 (split; [reflexivity|]). exact H. Qed.

Lemma same_elsewhere_peek (r : RUNTIMESTATE) (b : bool) :
  same_elsewhere r (with_should_show_peek b r).
Proof. do 5 (split; [reflexivity|]). apply same_handles_refl. Qed.

Lemma same_elsewhere_hits (r : RUNTIMESTATE) (n : Z) :
  same_elsewhere r (with_cache_hits n r).
Proof. do 5 (split; [reflexivity|]). apply same_handles_refl. Qed.

Lemma same_handles_None (t t' : gmap HMONITOR (HWND * TASKBARSTATE))
    (mon : HMONITOR) :
  same_handles t t' -> t' !! mon = None -> t !! mon = None.
Proof.
  intros Hs Hn. specialize (Hs mon). rewrite Hn in Hs.
  destruct (t !! mon); [discriminate | reflexivity].
Qed.

(** One visit of [EnumWindowsProcess]: it ends normally and leaves the rest
    of [run] alone, or the window passes the tests and its monitor has no
    taskbar. *)
Lemma EnumWindowsProcess_cases (cfg : Config.t) (opt : OPTIONS)
    (window : Window) (r : RUNTIMESTATE) (cache : gmap HWND bool) :
  match EnumWindowsProcess cfg opt window (r, cache) with
  | Some (r', _) => same_elsewhere r r'
  | None => is_candidate window = true /\ taskbars r !! monitor window = None
  end.
Proof.
  unfold EnumWindowsProcess, is_candidate.
  destruct (visible window && (state window =? SW_MAXIMIZE)
            && negb (cloaked window)); [|apply same_elsewhere_refl].
  set (b := IsWindowBlacklisted cfg opt window (cache_hits r) cache).
  destruct (answer b); cbn [negb andb]; [apply same_elsewhere_hits|].
  destruct (on_current_desktop window); [|apply same_elsewhere_hits].
  cbn [with_cache_hits taskbars main_taskbar].
  destruct (taskbars r !! monitor window) as [taskbar|] eqn:Hl;
    cbn [mbind option_bind]; [|split; reflexivity].
  set (r1 := with_cache_hits (hits_after b) r).
  assert (H1 : same_elsewhere r r1) by apply same_elsewhere_hits.
  set (r2 := if Config.DYNAMIC_WS cfg then _ else r1).
  assert (H2 : same_elsewhere r1 r2).
  { subst r2. destruct (Config.DYNAMIC_WS cfg); [|apply same_elsewhere_refl].
    apply same_elsewhere_taskbars.
    apply (same_handles_insert (taskbars r)). exact Hl. }
  match goal with
  | |- same_elsewhere r (if ?c then _ else _) => destruct c
  end.
  - eapply same_elsewhere_trans; [exact H1|].
    eapply same_elsewhere_trans; [exact H2|]. apply same_elsewhere_peek.
  - exact (same_elsewhere_trans _ _ _ H1 H2).
Qed.

Lemma EnumWindows_cases (cfg : Config.t) (opt : OPTIONS)
    (windows : list Window) (r : RUNTIMESTATE) (cache : gmap HWND bool) :
  match EnumWindows cfg opt windows (r, cache) with
  | Some (r', _) => same_elsewhere r r'
  | None => exists window : Window,
              In window windows /\ is_candidate window = true
              /\ taskbars r !! monitor window = None
  end.
Proof.
  revert r cache. induction windows as [|window rest IH]; intros r cache.
  - apply same_elsewhere_refl.
  - cbn [EnumWindows].
    pose proof (EnumWindowsProcess_cases cfg opt window r cache) as H1.
    destruct (EnumWindowsProcess cfg opt window (r, cache)) as [[r1 c1]|];
      cbn [mbind option_bind].
    + specialize (IH r1 c1).
      destruct (EnumWindows cfg opt rest (r1, c1)) as [[r2 c2]|].
      * exact (same_elsewhere_trans _ _ _ H1 IH).
      * destruct IH as (w & Hin & Hc & Hn). exists w.
        split; [now right|]. split; [exact Hc|].
        destruct H1 as (_ & _ & _ & _ & _ & Hs).
        eapply same_handles_None; eassumption.
    + destruct H1 as [Hc Hn]. exists window. split; [now left|]. auto.
Qed.

Lemma reset_states_Normal (t : gmap HMONITOR (HWND * TASKBARSTATE))
    (mon : HMONITOR) (w : HWND) (s : TASKBARSTATE) :
  reset_states t !! mon = Some (w, s) -> s = Normal.
Proof.
  unfold reset_states. rewrite lookup_fmap.
  destruct (t !! mon) as [[w' s']|]; cbn; congruence.
Qed.

(** A full pass: it ends normally, with the precedence its last two steps
    give, or the registry does not cover a monitor it looks up. *)
Lemma full_pass_cases (cfg : Config.t) (opt : OPTIONS) (desk : Desktop)
    (r : RUNTIMESTATE) (st : STATICS) :
  match full_pass cfg opt desk r st with
  | returned (r', st', sent) =>
      same_elsewhere r r' /\ counter st' = 0 /\ is_normal st' = is_normal st
      /\ (Config.DYNAMIC_WS cfg && Config.DYNAMIC_NORMAL_ON_PEEK cfg
          && peek_active r = true ->
          forall (mon : HMONITOR) (w : HWND) (s : TASKBARSTATE),
            taskbars r' !! mon = Some (w, s) -> s = Normal)
      /\ (Config.DYNAMIC_WS cfg && Config.DYNAMIC_NORMAL_ON_PEEK cfg
          && peek_active r = false ->
          Config.DYNAMIC_START cfg && IsStartVisible desk = true ->
          exists w : HWND,
            taskbars r' !! start_monitor desk = Some (w, StartMenuOpen))
  | out_of_range _ => ~ covered cfg desk (taskbars r)
  end.
Proof.
  unfold full_pass.
  set (r0 := with_should_show_peek _ r).
  set (r1 := with_taskbars (reset_states (taskbars r0)) r0).
  assert (H01 : same_elsewhere r r1).
  { apply (same_elsewhere_trans _ r0); [apply same_elsewhere_peek|].
    apply same_elsewhere_taskbars, same_handles_reset. }
  set (enumerate := Config.DYNAMIC_WS cfg
                    || Config.PEEK.eqb (Config.PEEK cfg) Config.PEEK.Dynamic).
  assert (Henum :
    match (if enumerate
           then EnumWindows cfg opt (top_level desk) (r1, blacklist_cache st)
           else Some (r1, blacklist_cache st)) with
    | Some (r2, _) => same_elsewhere r r2
    | None => ~ covered cfg desk (taskbars r)
    end).
  { destruct enumerate eqn:Ee; [|exact H01].
    pose proof (EnumWindows_cases cfg opt (top_level desk) r1
                  (blacklist_cache st)) as Hc.
    destruct (EnumWindows cfg opt (top_level desk) (r1, blacklist_cache st))
      as [[r2 c2]|].
    - exact (same_elsewhere_trans _ _ _ H01 Hc).
    - destruct Hc as (w & Hin & Hcand & Hnone). intros [Hcov _].
      specialize (Hcov Ee w Hin Hcand).
      destruct H01 as (_ & _ & _ & _ & _ & Hs).
      rewrite (same_handles_None _ _ _ Hs Hnone) in Hcov.
      now destruct Hcov. }
  destruct (if enumerate
            then EnumWindows cfg opt (top_level desk) (r1, blacklist_cache st)
            else Some (r1, blacklist_cache st)) as [[r2 c2]|];
    [|exact Henum].
  destruct (TogglePeek desk (main_taskbar r2) (should_show_peek r2)
              (peek_cache st)) as [peek toggled].
  destruct (Config.DYNAMIC_START cfg && IsStartVisible desk) eqn:Es.
  - destruct (taskbars r2 !! start_monitor desk) as [taskbar|] eqn:Hl;
      cbn [mbind option_bind].
    + set (r3 := with_taskbars _ r2).
      assert (H23 : same_elsewhere r2 r3).
      { apply same_elsewhere_taskbars. now apply same_handles_insert. }
      pose proof (same_elsewhere_trans _ _ _ Henum H23) as H03.
      assert (Hpa : peek_active r3 = peek_active r)
        by (destruct H03 as (_ & _ & _ & _ & Hp & _); exact Hp).
      rewrite Hpa.
      destruct (Config.DYNAMIC_WS cfg && Config.DYNAMIC_NORMAL_ON_PEEK cfg
                && peek_active r).
      * split.
        { eapply same_elsewhere_trans; [exact H03|].
          apply same_elsewhere_taskbars, same_handles_reset. }
        do 2 (split; [reflexivity|]). split; [|discriminate].
        intros _ mon w s. apply reset_states_Normal.
      * split; [exact H03|]. do 2 (split; [reflexivity|]).
        split; [discriminate|]. intros _ _. exists taskbar.1.
        subst r3. cbn [with_taskbars taskbars]. apply lookup_insert_eq.
    + intros [_ Hcov]. specialize (Hcov Es).
      destruct Henum as (_ & _ & _ & _ & _ & Hs).
      rewrite (same_handles_None _ _ _ Hs Hl) in Hcov. now destruct Hcov.
  - assert (Hpa : peek_active r2 = peek_active r)
      by (destruct Henum as (_ & _ & _ & _ & Hp & _); exact Hp).
    rewrite Hpa.
    destruct (Config.DYNAMIC_WS cfg && Config.DYNAMIC_NORMAL_ON_PEEK cfg
              && peek_active r).
    + split.
      { eapply same_elsewhere_trans; [exact Henum|].
        apply same_elsewhere_taskbars, same_handles_reset. }
      do 2 (split; [reflexivity|]). split; [|discriminate].
      intros _ mon w s. apply reset_states_Normal.
    + split; [exact Henum|]. do 2 (split; [reflexivity|]).
      split; discriminate.
Qed.

(** The policy that reaches the shell for an entry whose accent is not the
    normal one. *)
Lemma blur_each_submits (args : TASKBARSTATE -> ACCENT * Z)
    (entries : list (HMONITOR * (HWND * TASKBARSTATE))) (memo : gmap HWND bool)
    (mon : HMONITOR) (w : HWND) (s : TASKBARSTATE) :
  In (mon, (w, s)) entries ->
  (args s).1 <> ACCENT_NORMAL ->
  In (SetWindowCompositionAttribute w
        (mkPolicy (args s).1 2
           (if ACCENT_eqb (args s).1 ACCENT_ENABLE_FLUENT
               && (Z.shiftr (policy_color (args s).2) 24 =? 0)
            then fluent_color (policy_color (args s).2)
            else policy_color (args s).2) 0))
     (blur_each true args entries memo).2.
Proof.
  revert memo. induction entries as [|[mon' [w' s']] rest IH]; intros memo Hin Hne.
  - destruct Hin.
  - cbn [blur_each].
    destruct (SetWindowBlur true w' (args s').1 (args s').2 memo)
      as [memo1 sent1] eqn:E1.
    specialize (IH memo1).
    destruct (blur_each true args rest memo1) as [memo2 sent2].
    cbn [snd] in *. apply in_or_app.
    destruct Hin as [Heq|Hin].
    + left. assert (w' = w /\ s' = s) as [-> ->] by (split; congruence).
      rewrite SetWindowBlur_not_normal in E1 by exact Hne.
      assert (Hs : sent1 = [SetWindowCompositionAttribute w
                (mkPolicy (args s).1 2
                   (if ACCENT_eqb (args s).1 ACCENT_ENABLE_FLUENT
                       && (Z.shiftr (policy_color (args s).2) 24 =? 0)
                    then fluent_color (policy_color (args s).2)
                    else policy_color (args s).2) 0)]) by congruence.
      rewrite Hs. left. reflexivity.
    + right. now apply IH.
Qed.

(** One call of [SetTaskbarBlur]. *)
Lemma SetTaskbarBlur_cases (has_swca : bool) (cfg : Config.t) (opt : OPTIONS)
    (desk : Desktop) (r : RUNTIMESTATE) (st : STATICS) :
  match SetTaskbarBlur has_swca cfg opt desk r st with
  | returned (r', st', sent) =>
      same_elsewhere r r'
      /\ (counter st < 10 -> r' = r)
      /\ (10 <= counter st ->
          (Config.DYNAMIC_WS cfg && Config.DYNAMIC_NORMAL_ON_PEEK cfg
           && peek_active r = true ->
           forall (mon : HMONITOR) (w : HWND) (s : TASKBARSTATE),
             taskbars r' !! mon = Some (w, s) -> s = Normal)
          /\ (Config.DYNAMIC_WS cfg && Config.DYNAMIC_NORMAL_ON_PEEK cfg
              && peek_active r = false ->
              Config.DYNAMIC_START cfg && IsStartVisible desk = true ->
              exists w : HWND,
                taskbars r' !! start_monitor desk = Some (w, StartMenuOpen)))
      /\ exists toggled : list Event,
           sent = toggled
                  ++ (blur_each has_swca (accent_for cfg)
                        (map_to_list (taskbars r')) (is_normal st)).2
  | out_of_range _ => 10 <= counter st /\ ~ covered cfg desk (taskbars r)
  end.
Proof.
  unfold SetTaskbarBlur.
  destruct (Z.geb_spec (counter st) 10) as [Hge|Hlt].
  - pose proof (full_pass_cases cfg opt desk r st) as Hfp.
    destruct (full_pass cfg opt desk r st) as [[[r1 st1] toggled]|thrown];
      [|split; [lia | exact Hfp]].
    destruct Hfp as (Hse & _ & Hmemo & Hpeek & Hstart).
    rewrite Hmemo.
    destruct (blur_each has_swca (accent_for cfg) (map_to_list (taskbars r1))
                (is_normal st)) as [memo sent] eqn:Eb.
    split; [exact Hse|]. split; [lia|]. split; [auto|].
    exists toggled. rewrite Eb. reflexivity.
  - destruct (blur_each has_swca (accent_for cfg) (map_to_list (taskbars r))
                (is_normal st)) as [memo sent] eqn:Eb.
    split; [apply same_elsewhere_refl|]. split; [reflexivity|].
    split; [lia|]. exists []. rewrite Eb. reflexivity.
Qed.

(** ** The message loop *)

Lemma RefreshHandles_is_running (desk : Desktop) (r : RUNTIMESTATE) :
  is_running (RefreshHandles desk r) = is_running r.
Proof. reflexivity. Qed.

(** Only the four shutdown messages stop the loop. *)
Lemma dispatched_stops (i : Input) (m : Machine) :
  is_running (run m) = true ->
  is_running (dispatched i m).1 = false ->
  exists msg : Message, message i = Some msg /\ is_shutdown msg = true.
Proof.
  unfold dispatched. intros Hrun Hstop.
  destruct (message i) as [msg|]; [|cbn [fst] in Hstop; congruence].
  exists msg. split; [reflexivity|].
  destruct msg; cbn [DispatchMessage fst] in Hstop; try reflexivity;
    cbn in Hstop; congruence.
Qed.

Lemma iteration_cases (has_swca : bool) (i : Input) (m : Machine) :
  match iteration has_swca i m with
  | returned (m', sent) =>
      same_elsewhere (dispatched i m).1 (run m')
      /\ opt m' = (dispatched i m).2
  | out_of_range _ =>
      10 <= counter (statics m)
      /\ ~ covered (config i) (desktop i) (taskbars (dispatched i m).1)
  end.
Proof.
  unfold iteration. destruct (dispatched i m) as [r o]. cbn [fst snd].
  pose proof (SetTaskbarBlur_cases has_swca (config i) o (desktop i) r
                (statics m)) as H.
  destruct (SetTaskbarBlur has_swca (config i) o (desktop i) r (statics m))
    as [[[r' st'] sent]|thrown].
  - destruct H as (Hs & _). split; [exact Hs | reflexivity].
  - exact H.
Qed.

Lemma restore_default_run (has_swca : bool) (desk : Desktop) (m : Machine) :
  run (restore_default has_swca desk m).1 = run m.
Proof.
  unfold restore_default.
  destruct (exit_reason (run m)); [reflexivity| |];
    destruct (TogglePeek desk (main_taskbar (run m)) true
                (peek_cache (statics m)));
    destruct (blur_each has_swca (fun _ => (ACCENT_NORMAL, 0))
                (map_to_list (taskbars (run m))) (is_normal (statics m)));
    reflexivity.
Qed.

Lemma message_loop_never_uncaught (has_swca : bool) (inputs : list Input) :
  forall (desk : Desktop) (m : Machine) (sent : list Event),
    always_covered has_swca inputs m ->
    forall (s : list Event) (c : Z),
      message_loop has_swca desk inputs m sent <> uncaught s c.
Proof.
  induction inputs as [|i rest IH]; intros desk m sent Hcov s c.
  - cbn [message_loop]. destruct (is_running (run m)); [discriminate|].
    destruct (restore_default has_swca desk m). discriminate.
  - cbn [message_loop]. destruct (is_running (run m)) eqn:Hrun.
    + cbn [always_covered] in Hcov. destruct (Hcov Hrun) as [Hc Hnext].
      pose proof (iteration_cases has_swca i m) as Hi.
      destruct (iteration has_swca i m) as [[m' sent']|] eqn:Eit.
      * apply IH. apply (Hnext m' sent'). first [exact Eit | reflexivity].
      * exfalso. destruct Hi as [Hge Hn]. destruct Hc as [Hlt|Hc]; [lia|].
        now apply Hn.
    + destruct (restore_default has_swca desk m). discriminate.
Qed.

Lemma message_loop_left (has_swca : bool) (inputs : list Input) :
  forall (desk : Desktop) (m : Machine) (sent : list Event)
         (m' : Machine) (sent' : list Event) (code : Z),
    is_running (run m) = true ->
    message_loop has_swca desk inputs m sent = left_loop m' sent' code ->
    code = EXIT_SUCCESS
    /\ exists (i : Input) (msg : Message),
         In i inputs /\ message i = Some msg /\ is_shutdown msg = true.
Proof.
  induction inputs as [|i rest IH]; intros desk m sent m' sent' code Hrun Hl.
  - cbn [message_loop] in Hl. rewrite Hrun in Hl. discriminate.
  - cbn [message_loop] in Hl. rewrite Hrun in Hl.
    pose proof (iteration_cases has_swca i m) as Hi.
    destruct (iteration has_swca i m) as [[m1 sent1]|]; [|discriminate].
    destruct Hi as [(_ & _ & Hr & _) _].
    destruct (is_running (run m1)) eqn:Hrun1.
    + destruct (IH _ _ _ _ _ _ Hrun1 Hl) as (Hcode & i' & msg & Hin & Hm & Hs).
      split; [exact Hcode|]. exists i', msg. split; [now right | auto].
    + destruct rest as [|i2 rest]; cbn [message_loop] in Hl;
        rewrite Hrun1 in Hl;
        pose proof (restore_default_run has_swca (desktop i) m1) as Hrr;
        destruct (restore_default has_swca (desktop i) m1) as [m2 sent2];
        cbn [fst] in Hrr;
        (assert (Hcode : code = Terminate (run m2)) by congruence);
        (split;
         [ rewrite Hcode, Hrr; unfold Terminate; now rewrite Hrun1
         | symmetry in Hr;
           destruct (dispatched_stops i m Hrun Hr) as (msg & Hm & Hs);
           exists i, msg; split; [now left | auto] ]).
Qed.

Lemma covered_sample :
  covered some_config sample_desktop (taskbars sample_run).
Proof.
  split.
  - intros _ window [<-|[]] _. exists (100, Normal). vm_compute. reflexivity.
  - intros _. exists (100, Normal). vm_compute. reflexivity.
Qed.

(** C6, as the code has it.  An iteration completes whenever it makes no
    full pass or the registry has an entry for the monitor of every window
    that passes the tests of [EnumWindowsProcess] and, when the Start menu
    counts and is visible, for the monitor of the Start menu; it fails only
    on a full pass that such an entry is missing for.  A loop whose
    iterations all meet such a registry never ends in the terminate handler
    through an exception; and a loop that was running is left only after
    one of the four shutdown messages, with [EXIT_SUCCESS]. *)
Theorem loop_left_only_on_shutdown_when_covered (has_swca : bool) :
  (forall (i : Input) (m : Machine),
     counter (statics m) < 10
     \/ covered (config i) (desktop i) (taskbars (dispatched i m).1) ->
     exists done : Machine * list Event, iteration has_swca i m = returned done)
  /\ (forall (i : Input) (m : Machine) (before : list Event),
        iteration has_swca i m = out_of_range before ->
        10 <= counter (statics m)
        /\ ~ covered (config i) (desktop i) (taskbars (dispatched i m).1))
  /\ (forall (inputs : list Input) (desk : Desktop) (m : Machine)
             (sent : list Event),
        always_covered has_swca inputs m ->
        forall (s : list Event) (c : Z),
          message_loop has_swca desk inputs m sent <> uncaught s c)
  /\ (forall (inputs : list Input) (desk : Desktop) (m : Machine)
             (sent : list Event) (m' : Machine) (sent' : list Event) (code : Z),
        is_running (run m) = true ->
        message_loop has_swca desk inputs m sent = left_loop m' sent' code ->
        code = EXIT_SUCCESS
        /\ exists (i : Input) (msg : Message),
             In i inputs /\ message i = Some msg /\ is_shutdown msg = true).
Proof.
  split; [|split; [|split]].
  - intros i m Hc. pose proof (iteration_cases has_swca i m) as Hi.
    destruct (iteration has_swca i m) as [r|thrown]; [eauto|].
    exfalso. destruct Hi as [Hge Hn]. destruct Hc as [Hlt|Hc]; [lia|].
    now apply Hn.
  - intros i m before Hnone. pose proof (iteration_cases has_swca i m) as Hi.
    rewrite Hnone in Hi. exact Hi.
  - intros inputs. apply message_loop_never_uncaught.
  - intros inputs. apply message_loop_left.
Qed.

Lemma loop_left_only_on_shutdown_when_covered_witness :
  (exists done : Machine * list Event,
     iteration true sample_input machine_at_start = returned done)
  /\ exists (m : Machine) (sent : list Event),
       message_loop true sample_desktop [closing_input] machine_at_start []
       = left_loop m sent EXIT_SUCCESS.
Proof.
  destruct (loop_left_only_on_shutdown_when_covered true)
    as (Hcompletes & _ & _ & Hleft).
  split.
  - apply Hcompletes. right. exact covered_sample.
  - destruct (message_loop true sample_desktop [closing_input]
                machine_at_start []) as [m sent|m sent code|sent code] eqn:E.
    + exfalso. vm_compute in E. discriminate.
    + destruct (Hleft [closing_input] sample_desktop machine_at_start []
                  m sent code eq_refl E) as [-> _].
      eauto.
    + exfalso. vm_compute in E. discriminate.
Defined.

(** C6, the claim as it is written, fails: with a maximised window on a
    monitor that has no taskbar, or the Start menu open on such a monitor,
    the exception of [at] leaves [SetTaskbarBlur], and the process ends in
    the terminate handler with [EXIT_FAILURE] although no shutdown was
    asked for.  In the first run the exception comes in the enumeration,
    before anything is sent; in the second it comes at the lookup for the
    Start menu, after [TogglePeek] has hidden the peek button. *)
Lemma out_of_range_ends_the_loop :
  message stray_input = None
  /\ iteration true stray_input machine_at_start = out_of_range []
  /\ wWinMain true false no_rules sample_desktop [stray_input]
     = uncaught [] EXIT_FAILURE
  /\ message stray_start_input = None
  /\ iteration true stray_start_input machine_at_start
     = out_of_range [ show 102 SW_HIDE; send_message 103 WM_LBUTTONUP;
                      send_message 103 WM_LBUTTONUP ]
  /\ wWinMain true false no_rules sample_desktop [stray_start_input]
     = uncaught [ show 102 SW_HIDE; send_message 103 WM_LBUTTONUP;
                  send_message 103 WM_LBUTTONUP ] EXIT_FAILURE.
Proof. repeat split; vm_compute; reflexivity. Qed.

(** ** What the enumeration assigns *)

Lemma trigger_on_existsb (cfg : Config.t) (o : OPTIONS) (windows : list Window)
    (hits : Z) (cache : gmap HWND bool) (mon : HMONITOR) :
  trigger_on cfg o windows hits cache mon
  <-> existsb (fun window => monitor window =? mon)
              (passing cfg o windows hits cache) = true.
Proof.
  unfold trigger_on. rewrite existsb_exists. split.
  - intros (window & Hin & Hm). exists window. split; [exact Hin|].
    now apply Z.eqb_eq.
  - intros (window & Hin & Hm). exists window. split; [exact Hin|].
    now apply Z.eqb_eq.
Qed.

(** The windows that pass are windows of the enumeration that pass the
    tests apart from the blacklist. *)
Lemma passing_candidate (cfg : Config.t) (o : OPTIONS) (windows : list Window) :
  forall (hits : Z) (cache : gmap HWND bool) (window : Window),
    In window (passing cfg o windows hits cache) ->
    In window windows /\ is_candidate window = true.
Proof.
  induction windows as [|first rest IH]; intros hits cache window Hin.
  - destruct Hin.
  - cbn [passing] in Hin.
    destruct (visible first && (state first =? SW_MAXIMIZE)
              && negb (cloaked first)) eqn:E3.
    + apply in_app_or in Hin. destruct Hin as [Hin|Hin].
      * destruct (negb (answer (IsWindowBlacklisted cfg o first hits cache))
                  && on_current_desktop first) eqn:E; [|destruct Hin].
        destruct Hin as [<-|[]]. split; [now left|].
        unfold is_candidate. rewrite E3.
        apply andb_true_iff in E. now destruct E as [_ ->].
      * destruct (IH _ _ _ Hin) as [H1 H2]. split; [now right | exact H2].
    + destruct (IH _ _ _ Hin) as [H1 H2]. split; [now right | exact H2].
Qed.

(** One visit of the callback, next to the list of the windows that pass. *)
Lemma EnumWindowsProcess_passing (cfg : Config.t) (o : OPTIONS)
    (window : Window) (rest : list Window) (r r' : RUNTIMESTATE)
    (cache cache' : gmap HWND bool) :
  EnumWindowsProcess cfg o window (r, cache) = Some (r', cache') ->
  (passing cfg o (window :: rest) (cache_hits r) cache
   = passing cfg o rest (cache_hits r') cache'
   /\ taskbars r' = taskbars r)
  \/ (passing cfg o (window :: rest) (cache_hits r) cache
      = window :: passing cfg o rest (cache_hits r') cache'
      /\ exists taskbar : HWND * TASKBARSTATE,
           taskbars r !! monitor window = Some taskbar
           /\ taskbars r'
              = if Config.DYNAMIC_WS cfg
                then <[monitor window := (taskbar.1, WindowMaximised)]>
                       (taskbars r)
                else taskbars r).
Proof.
  unfold EnumWindowsProcess. cbn [passing].
  destruct (visible window && (state window =? SW_MAXIMIZE)
            && negb (cloaked window)).
  2:{ intros H. left. assert (r' = r) as -> by congruence.
      assert (cache' = cache) as -> by congruence. split; reflexivity. }
  set (b := IsWindowBlacklisted cfg o window (cache_hits r) cache).
  destruct (negb (answer b) && on_current_desktop window).
  2:{ intros H. left.
      assert (r' = with_cache_hits (hits_after b) r) as -> by congruence.
      assert (cache' = cache_after b) as -> by congruence.
      split; reflexivity. }
  cbn [with_cache_hits taskbars main_taskbar].
  destruct (taskbars r !! monitor window) as [taskbar|] eqn:Hl;
    cbn [mbind option_bind]; [|discriminate].
  intros H. right.
  assert (Hc : cache' = cache_after b) by congruence.
  assert (Hr' : r' = _) by (symmetry; injection H as H _; exact H).
  clear H. rewrite Hc, Hr'.
  assert (Hhits : forall (c1 c2 : bool) (t : gmap HMONITOR (HWND * TASKBARSTATE)),
            cache_hits
              (if c2
               then with_should_show_peek true
                      (if c1
                       then with_taskbars t (with_cache_hits (hits_after b) r)
                       else with_cache_hits (hits_after b) r)
               else if c1
                    then with_taskbars t (with_cache_hits (hits_after b) r)
                    else with_cache_hits (hits_after b) r)
            = hits_after b) by (intros [] [] t; reflexivity).
  split.
  - cbn [app]. f_equal. f_equal.
    destruct (Config.DYNAMIC_WS cfg);
      cbn [with_taskbars with_cache_hits main_taskbar taskbars];
      destruct (Config.PEEK.eqb (Config.PEEK cfg) Config.PEEK.Dynamic
                && (taskbar.1 =? main_taskbar r)); reflexivity.
  - exists taskbar. split; [reflexivity|].
    destruct (Config.DYNAMIC_WS cfg);
      cbn [with_taskbars with_cache_hits main_taskbar taskbars];
      destruct (Config.PEEK.eqb (Config.PEEK cfg) Config.PEEK.Dynamic
                && (taskbar.1 =? main_taskbar r)); reflexivity.
Qed.

(** The states after the enumeration: [WindowMaximised] exactly on the
    monitors of the windows that pass, when [DYNAMIC_WS] is set; every
    other entry as it was. *)
Lemma EnumWindows_states (cfg : Config.t) (o : OPTIONS) (windows : list Window) :
  forall (r r' : RUNTIMESTATE) (cache cache' : gmap HWND bool),
    EnumWindows cfg o windows (r, cache) = Some (r', cache') ->
    forall (mon : HMONITOR) (w : HWND) (s : TASKBARSTATE),
      taskbars r' !! mon = Some (w, s) ->
      (Config.DYNAMIC_WS cfg = true
       /\ trigger_on cfg o windows (cache_hits r) cache mon ->
       s = WindowMaximised)
      /\ (~ (Config.DYNAMIC_WS cfg = true
             /\ trigger_on cfg o windows (cache_hits r) cache mon) ->
          taskbars r !! mon = Some (w, s)).
Proof.
  induction windows as [|window rest IH]; intros r r' cache cache' He mon w s Hl.
  - cbn [EnumWindows] in He. assert (r' = r) as -> by congruence.
    split; [|intros _; exact Hl].
    intros [_ (x & [] & _)].
  - cbn [EnumWindows] in He.
    destruct (EnumWindowsProcess cfg o window (r, cache)) as [[r1 c1]|] eqn:E1;
      cbn [mbind option_bind] in He; [|discriminate].
    destruct (IH _ _ _ _ He mon w s Hl) as [IHmax IHkeep].
    pose proof (EnumWindowsProcess_passing cfg o window rest _ _ _ _ E1) as Hp.
    unfold trigger_on in *.
    destruct Hp as [[Hp Ht]|(Hp & taskbar & Hlt & Ht)]; rewrite Hp.
    + rewrite <- Ht. split; [exact IHmax | exact IHkeep].
    + destruct (Config.DYNAMIC_WS cfg) eqn:Ews.
      * pose proof (trigger_on_existsb cfg o rest (cache_hits r1) c1 mon) as Hdec.
        unfold trigger_on in Hdec.
        destruct (existsb (fun window0 => monitor window0 =? mon)
                    (passing cfg o rest (cache_hits r1) c1)) eqn:Eex.
        -- assert (Hrest : exists x, In x (passing cfg o rest (cache_hits r1) c1)
                                     /\ monitor x = mon)
             by now apply Hdec.
           split; [intros _; apply IHmax; auto|].
           intros Hn. exfalso. apply Hn. split; [reflexivity|].
           destruct Hrest as (x & Hin & Hm). exists x. split; [now right|exact Hm].
        -- assert (Hnrest : ~ (true = true
                               /\ exists x,
                                    In x (passing cfg o rest (cache_hits r1) c1)
                                    /\ monitor x = mon)).
           { intros [_ H]. apply Hdec in H. congruence. }
           specialize (IHkeep Hnrest). rewrite Ht in IHkeep.
           destruct (decide (monitor window = mon)) as [Hm|Hm].
           ++ rewrite <- Hm, lookup_insert_eq in IHkeep.
              split; [intros _; congruence|].
              intros Hn. exfalso. apply Hn. split; [reflexivity|].
              exists window. split; [now left | exact Hm].
           ++ rewrite lookup_insert_ne in IHkeep by exact Hm.
              split; [|intros _; exact IHkeep].
              intros [_ (x & [<-|Hin] & Hx)]; [contradiction|].
              exfalso. apply Hnrest. split; [reflexivity|]. eauto.
      * split; [intros [H _]; discriminate|].
        intros _. rewrite <- Ht. apply IHkeep. intros [H _]. discriminate.
Qed.

(** The states after a full pass that completes, from the strongest cause
    to the weakest: the reset on peek, the Start menu, a window that
    passes, none. *)
Lemma full_pass_states (cfg : Config.t) (o : OPTIONS) (desk : Desktop)
    (r r' : RUNTIMESTATE) (st st' : STATICS) (sent : list Event) :
  full_pass cfg o desk r st = returned (r', st', sent) ->
  forall (mon : HMONITOR) (w : HWND) (s : TASKBARSTATE),
    taskbars r' !! mon = Some (w, s) ->
    (Config.DYNAMIC_WS cfg && Config.DYNAMIC_NORMAL_ON_PEEK cfg
     && peek_active r = true -> s = Normal)
    /\ (Config.DYNAMIC_WS cfg && Config.DYNAMIC_NORMAL_ON_PEEK cfg
        && peek_active r = false ->
        (Config.DYNAMIC_START cfg && IsStartVisible desk = true
         /\ mon = start_monitor desk -> s = StartMenuOpen)
        /\ (~ (Config.DYNAMIC_START cfg && IsStartVisible desk = true
               /\ mon = start_monitor desk) ->
            (Config.DYNAMIC_WS cfg = true
             /\ trigger_on cfg o (top_level desk) (cache_hits r)
                           (blacklist_cache st) mon ->
             s = WindowMaximised)
            /\ (~ (Config.DYNAMIC_WS cfg = true
                   /\ trigger_on cfg o (top_level desk) (cache_hits r)
                                 (blacklist_cache st) mon) ->
                s = Normal))).
Proof.
  unfold full_pass.
  set (r0 := with_should_show_peek _ r).
  set (r1 := with_taskbars (reset_states (taskbars r0)) r0).
  set (enumerate := Config.DYNAMIC_WS cfg
                    || Config.PEEK.eqb (Config.PEEK cfg) Config.PEEK.Dynamic).
  assert (Henum : forall r2 c2,
    (if enumerate
     then EnumWindows cfg o (top_level desk) (r1, blacklist_cache st)
     else Some (r1, blacklist_cache st)) = Some (r2, c2) ->
    peek_active r2 = peek_active r
    /\ forall mon w s, taskbars r2 !! mon = Some (w, s) ->
         (Config.DYNAMIC_WS cfg = true
          /\ trigger_on cfg o (top_level desk) (cache_hits r)
                        (blacklist_cache st) mon ->
          s = WindowMaximised)
         /\ (~ (Config.DYNAMIC_WS cfg = true
                /\ trigger_on cfg o (top_level desk) (cache_hits r)
                              (blacklist_cache st) mon) ->
             s = Normal)).
  { intros r2 c2 He.
    assert (Hr1 : forall mon w s, taskbars r1 !! mon = Some (w, s) -> s = Normal)
      by (intros mon w s; apply reset_states_Normal).
    destruct enumerate eqn:Ee.
    - pose proof (EnumWindows_cases cfg o (top_level desk) r1
                    (blacklist_cache st)) as Hframe.
      rewrite He in Hframe. destruct Hframe as (_ & _ & _ & _ & Hpa & _).
      split; [exact Hpa|].
      intros mon w s Hl.
      destruct (EnumWindows_states cfg o (top_level desk) _ _ _ _ He mon w s Hl)
        as [Hmax Hkeep].
      split; [exact Hmax|].
      intros Hn. eapply Hr1. apply Hkeep. exact Hn.
    - assert (r2 = r1) as -> by congruence.
      split; [reflexivity|]. intros mon w s Hl. split.
      + intros [Hws _]. subst enumerate. rewrite Hws in Ee. discriminate.
      + intros _. eapply Hr1. exact Hl. }
  destruct (if enumerate
            then EnumWindows cfg o (top_level desk) (r1, blacklist_cache st)
            else Some (r1, blacklist_cache st)) as [[r2 c2]|];
    [|discriminate].
  destruct (Henum r2 c2 eq_refl) as (Hpa & Hstates). clear Henum.
  destruct (TogglePeek desk (main_taskbar r2) (should_show_peek r2)
              (peek_cache st)) as [peek toggled].
  set (three := Config.DYNAMIC_WS cfg && Config.DYNAMIC_NORMAL_ON_PEEK cfg).
  destruct (Config.DYNAMIC_START cfg && IsStartVisible desk) eqn:Es.
  - destruct (taskbars r2 !! start_monitor desk) as [taskbar|] eqn:Hl;
      cbn [mbind option_bind]; [|discriminate].
    change (peek_active
              (with_taskbars
                 (<[start_monitor desk := (taskbar.1, StartMenuOpen)]>
                    (taskbars r2)) r2)) with (peek_active r2).
    rewrite Hpa. intros H mon w s Hlr.
    destruct (three && peek_active r) eqn:E3.
    + split; [|discriminate]. intros _.
      assert (Hr' : r' = with_taskbars
                          (reset_states
                             (taskbars
                                (with_taskbars
                                   (<[start_monitor desk
                                      := (taskbar.1, StartMenuOpen)]>
                                      (taskbars r2)) r2)))
                          (with_taskbars
                             (<[start_monitor desk
                                := (taskbar.1, StartMenuOpen)]>
                                (taskbars r2)) r2)) by congruence.
      clear H. rewrite Hr' in Hlr. eapply reset_states_Normal. exact Hlr.
    + split; [discriminate|]. intros _.
      assert (Hr' : r' = with_taskbars
                          (<[start_monitor desk := (taskbar.1, StartMenuOpen)]>
                             (taskbars r2)) r2) by congruence.
      clear H. rewrite Hr' in Hlr. cbn [with_taskbars taskbars] in Hlr.
      split.
      * intros [_ ->]. rewrite lookup_insert_eq in Hlr. congruence.
      * intros Hn.
        assert (Hm : start_monitor desk <> mon) by (intros <-; now apply Hn).
        rewrite lookup_insert_ne in Hlr by exact Hm.
        exact (Hstates mon w s Hlr).
  - rewrite Hpa. intros H mon w s Hlr.
    destruct (three && peek_active r) eqn:E3.
    + split; [|discriminate]. intros _.
      assert (Hr' : r' = with_taskbars (reset_states (taskbars r2)) r2)
        by congruence.
      clear H. rewrite Hr' in Hlr. eapply reset_states_Normal. exact Hlr.
    + split; [discriminate|]. intros _.
      assert (Hr' : r' = r2) by congruence.
      clear H. rewrite Hr' in Hlr.
      split; [intros [H _]; discriminate|].
      intros _. exact (Hstates mon w s Hlr).
Qed.

(** ** Precedence among the states *)

Lemma SetTaskbarBlur_full (has_swca : bool) (cfg : Config.t) (o : OPTIONS)
    (desk : Desktop) (r r' : RUNTIMESTATE) (st st' : STATICS)
    (sent : list Event) :
  10 <= counter st ->
  SetTaskbarBlur has_swca cfg o desk r st = returned (r', st', sent) ->
  exists (st1 : STATICS) (toggled : list Event),
    full_pass cfg o desk r st = returned (r', st1, toggled)
    /\ peek_cache st' = peek_cache st1
    /\ blacklist_cache st' = blacklist_cache st1
    /\ counter st' = 1
    /\ sent = toggled
              ++ (blur_each has_swca (accent_for cfg)
                    (map_to_list (taskbars r')) (is_normal st)).2.
Proof.
  intros Hge. unfold SetTaskbarBlur.
  replace (counter st >=? 10) with true
    by (symmetry; apply Z.geb_le; lia).
  pose proof (full_pass_cases cfg o desk r st) as Hc.
  destruct (full_pass cfg o desk r st) as [[[r1 st1] toggled]|thrown];
    [|discriminate].
  destruct Hc as (_ & Hcount & Hmemo & _).
  rewrite Hmemo.
  destruct (blur_each has_swca (accent_for cfg) (map_to_list (taskbars r1))
              (is_normal st)) as [memo accents] eqn:Eb.
  intros H.
  assert (r' = r1) as -> by congruence.
  assert (st' = mkSTATICS memo (peek_cache st1) (blacklist_cache st1)
                          (counter st1 + 1)) as -> by congruence.
  assert (sent = toggled ++ accents) as -> by congruence.
  exists st1, toggled. rewrite Eb, Hcount. repeat split.
Qed.

(** C2, as the code has it.  On a full pass that the registry covers,
    [SetTaskbarBlur] completes and keeps every taskbar on its monitor, and
    the state of every taskbar follows the order: reset on peek, then
    [StartMenuOpen], then [WindowMaximised], then [Normal].  With
    [DYNAMIC_WS], [DYNAMIC_NORMAL_ON_PEEK] and [peek_active] all set, the
    reset that ends the pass leaves the taskbar [Normal], the one on the
    monitor of the open Start menu too.  Without the reset, the taskbar on
    the monitor of the visible Start menu ends [StartMenuOpen] whatever the
    enumeration assigned; any other taskbar ends [WindowMaximised] when
    [DYNAMIC_WS] is set and a window on its monitor passes the test of
    [EnumWindowsProcess], and [Normal] otherwise.  The Start menu has its
    taskbar and every window that passes has one. *)
Theorem peek_reset_outranks_start_menu (has_swca : bool) (cfg : Config.t)
    (o : OPTIONS) (desk : Desktop) (r : RUNTIMESTATE) (st : STATICS) :
  10 <= counter st ->
  covered cfg desk (taskbars r) ->
  exists (r' : RUNTIMESTATE) (st' : STATICS) (sent : list Event),
    SetTaskbarBlur has_swca cfg o desk r st = returned (r', st', sent)
    /\ same_handles (taskbars r) (taskbars r')
    /\ (forall (mon : HMONITOR) (w : HWND) (s : TASKBARSTATE),
          taskbars r' !! mon = Some (w, s) ->
          (Config.DYNAMIC_WS cfg && Config.DYNAMIC_NORMAL_ON_PEEK cfg
           && peek_active r = true -> s = Normal)
          /\ (Config.DYNAMIC_WS cfg && Config.DYNAMIC_NORMAL_ON_PEEK cfg
              && peek_active r = false ->
              (Config.DYNAMIC_START cfg && IsStartVisible desk = true
               /\ mon = start_monitor desk -> s = StartMenuOpen)
              /\ (~ (Config.DYNAMIC_START cfg && IsStartVisible desk = true
                     /\ mon = start_monitor desk) ->
                  (Config.DYNAMIC_WS cfg = true
                   /\ trigger_on cfg o (top_level desk) (cache_hits r)
                                 (blacklist_cache st) mon ->
                   s = WindowMaximised)
                  /\ (~ (Config.DYNAMIC_WS cfg = true
                         /\ trigger_on cfg o (top_level desk) (cache_hits r)
                                       (blacklist_cache st) mon) ->
                      s = Normal))))
    /\ (Config.DYNAMIC_START cfg && IsStartVisible desk = true ->
        is_Some (taskbars r' !! start_monitor desk))
    /\ (Config.DYNAMIC_WS cfg = true ->
        forall mon : HMONITOR,
          trigger_on cfg o (top_level desk) (cache_hits r)
                     (blacklist_cache st) mon ->
          is_Some (taskbars r' !! mon)).
Proof.
  intros Hge Hcov.
  pose proof (SetTaskbarBlur_cases has_swca cfg o desk r st) as H.
  destruct (SetTaskbarBlur has_swca cfg o desk r st)
    as [[[r' st'] sent]|before] eqn:Erun.
  - exists r', st', sent. split; [reflexivity|].
    destruct H as (Hs & _).
    destruct Hs as (_ & _ & _ & _ & _ & Hs).
    split; [exact Hs|].
    destruct (SetTaskbarBlur_full _ _ _ _ _ _ _ _ _ Hge Erun)
      as (st1 & toggled & Hfp & _).
    split; [exact (full_pass_states _ _ _ _ _ _ _ _ Hfp)|].
    destruct Hcov as [Hwindows Hstart].
    split.
    + intros Hs'. eapply same_handles_is_Some; [exact Hs|]. now apply Hstart.
    + intros Hws mon (window & Hin & <-).
      destruct (passing_candidate _ _ _ _ _ _ Hin) as [Hin' Hc].
      eapply same_handles_is_Some; [exact Hs|].
      apply Hwindows; [|exact Hin' | exact Hc].
      now rewrite Hws.
  - exfalso. destruct H as [_ Hn]. now apply Hn.
Qed.

Lemma peek_reset_outranks_start_menu_witness :
  (exists (r' : RUNTIMESTATE) (st' : STATICS) (sent : list Event),
     SetTaskbarBlur true some_config no_rules sample_desktop
                    (with_peek_active true sample_run) statics_initial
     = returned (r', st', sent)
     /\ forall (mon : HMONITOR) (w : HWND) (s : TASKBARSTATE),
          taskbars r' !! mon = Some (w, s) -> s = Normal)
  /\ (exists (r' : RUNTIMESTATE) (st' : STATICS) (sent : list Event),
        SetTaskbarBlur true some_config no_rules maximised_desktop
                       sample_run statics_initial
        = returned (r', st', sent)
        /\ forall (w : HWND) (s : TASKBARSTATE),
             taskbars r' !! 1 = Some (w, s) -> s = WindowMaximised).
Proof.
  split.
  - destruct (peek_reset_outranks_start_menu true some_config no_rules
                sample_desktop (with_peek_active true sample_run)
                statics_initial ltac:(vm_compute; discriminate) covered_sample)
      as (r' & st' & sent & Hrun & _ & Hstates & _).
    exists r', st', sent. split; [exact Hrun|].
    intros mon w s Hl. destruct (Hstates mon w s Hl) as [Hreset _].
    apply Hreset. reflexivity.
  - assert (Hcov : covered some_config maximised_desktop (taskbars sample_run)).
    { split.
      - intros _ window [<-|[]] _. exists (100, Normal). vm_compute.
        reflexivity.
      - intros Hs. vm_compute in Hs. discriminate. }
    destruct (peek_reset_outranks_start_menu true some_config no_rules
                maximised_desktop sample_run statics_initial
                ltac:(vm_compute; discriminate) Hcov)
      as (r' & st' & sent & Hrun & _ & Hstates & _).
    exists r', st', sent. split; [exact Hrun|].
    intros w s Hl. destruct (Hstates 1 w s Hl) as [_ Hrest].
    destruct (Hrest eq_refl) as [_ Hother].
    destruct (Hother ltac:(intros [Hs _]; vm_compute in Hs; discriminate))
      as [Hmax _].
    apply Hmax. split; [reflexivity|].
    exists notepad. split; [|reflexivity]. vm_compute. now left.
Defined.

(** C2, the claim as it is written, fails: the Start menu is open on the
    monitor of the primary taskbar, the three flags of the reset are set, the
    pass is a full one, and the taskbar ends [Normal], not [StartMenuOpen].
    Without the peek the same taskbar ends [StartMenuOpen], although a
    window is maximised on its monitor; with the window alone it ends
    [WindowMaximised], and [Normal] again once the peek is active. *)
Lemma start_menu_state_erased_by_peek_reset :
  Config.DYNAMIC_WS some_config = true
  /\ Config.DYNAMIC_NORMAL_ON_PEEK some_config = true
  /\ Config.DYNAMIC_START some_config = true
  /\ peek_active (with_peek_active true sample_run) = true
  /\ IsStartVisible sample_desktop = true
  /\ start_monitor sample_desktop = 1
  /\ counter statics_initial = 10
  /\ (fun res : RUNTIMESTATE * STATICS * list Event => taskbars res.1.1 !! 1)
       <$> SetTaskbarBlur true some_config no_rules sample_desktop
             (with_peek_active true sample_run) statics_initial
     = returned (Some (100, Normal))
  /\ (fun res : RUNTIMESTATE * STATICS * list Event => taskbars res.1.1 !! 1)
       <$> SetTaskbarBlur true some_config no_rules sample_desktop
             sample_run statics_initial
     = returned (Some (100, StartMenuOpen))
  /\ (fun res : RUNTIMESTATE * STATICS * list Event => taskbars res.1.1 !! 1)
       <$> SetTaskbarBlur true some_config no_rules maximised_desktop
             sample_run statics_initial
     = returned (Some (100, WindowMaximised))
  /\ (fun res : RUNTIMESTATE * STATICS * list Event => taskbars res.1.1 !! 1)
       <$> SetTaskbarBlur true some_config no_rules maximised_desktop
             (with_peek_active true sample_run) statics_initial
     = returned (Some (100, Normal)).
Proof. repeat split; vm_compute; reflexivity. Qed.

(** ** [run.fluent_available] is not read *)

Ltac run_fields :=
  unfold with_fluent_available, with_cache_hits, with_taskbars,
    with_should_show_peek, with_main_taskbar, with_peek_active;
  cbn [exit_reason main_taskbar taskbars should_show_peek is_running
       fluent_available cache_hits peek_active fst snd].

Lemma EnumWindowsProcess_fluent (b : bool) (cfg : Config.t) (o : OPTIONS)
    (window : Window) (r : RUNTIMESTATE) (cache : gmap HWND bool) :
  EnumWindowsProcess cfg o window (with_fluent_available b r, cache)
  = (fun s : RUNTIMESTATE * gmap HWND bool =>
       (with_fluent_available b s.1, s.2))
      <$> EnumWindowsProcess cfg o window (r, cache).
Proof.
  destruct r as [er mt tb ssp ir fa ch pa].
  unfold EnumWindowsProcess. run_fields.
  destruct (visible window && (state window =? SW_MAXIMIZE)
            && negb (cloaked window)); [|reflexivity].
  destruct (negb (answer (IsWindowBlacklisted cfg o window ch cache))
            && on_current_desktop window); [|reflexivity].
  destruct (tb !! monitor window) as [taskbar|]; [|reflexivity].
  cbn [mbind option_bind fmap option_fmap option_map Tick_fmap].
  destruct (Config.DYNAMIC_WS cfg); run_fields;
    destruct (Config.PEEK.eqb (Config.PEEK cfg) Config.PEEK.Dynamic
              && (taskbar.1 =? mt)); reflexivity.
Qed.

Lemma EnumWindows_fluent (b : bool) (cfg : Config.t) (o : OPTIONS)
    (windows : list Window) (r : RUNTIMESTATE) (cache : gmap HWND bool) :
  EnumWindows cfg o windows (with_fluent_available b r, cache)
  = (fun s : RUNTIMESTATE * gmap HWND bool =>
       (with_fluent_available b s.1, s.2))
      <$> EnumWindows cfg o windows (r, cache).
Proof.
  revert r cache. induction windows as [|window rest IH]; intros r cache.
  - reflexivity.
  - cbn [EnumWindows]. rewrite EnumWindowsProcess_fluent.
    destruct (EnumWindowsProcess cfg o window (r, cache)) as [[r1 c1]|];
      [|reflexivity].
    cbn [mbind option_bind fmap option_fmap option_map Tick_fmap fst snd].
    apply IH.
Qed.

Lemma full_pass_fluent (b : bool) (cfg : Config.t) (o : OPTIONS)
    (desk : Desktop) (r : RUNTIMESTATE) (st : STATICS) :
  full_pass cfg o desk (with_fluent_available b r) st
  = (fun res : RUNTIMESTATE * STATICS * list Event =>
       (with_fluent_available b res.1.1, res.1.2, res.2))
      <$> full_pass cfg o desk r st.
Proof.
  destruct r as [er mt tb ssp ir fa ch pa].
  unfold full_pass. run_fields.
  set (r1 := mkRUN er mt (reset_states tb)
               (Config.PEEK.eqb (Config.PEEK cfg) Config.PEEK.Enabled)
               ir fa ch pa).
  change (mkRUN er mt (reset_states tb)
            (Config.PEEK.eqb (Config.PEEK cfg) Config.PEEK.Enabled)
            ir b ch pa)
    with (with_fluent_available b r1).
  change (fun res : RUNTIMESTATE * STATICS * list Event =>
            (mkRUN (exit_reason res.1.1) (main_taskbar res.1.1)
                   (taskbars res.1.1) (should_show_peek res.1.1)
                   (is_running res.1.1) b (cache_hits res.1.1)
                   (peek_active res.1.1), res.1.2, res.2))
    with (fun res : RUNTIMESTATE * STATICS * list Event =>
            (with_fluent_available b res.1.1, res.1.2, res.2)).
  assert (Henum :
    (if Config.DYNAMIC_WS cfg
        || Config.PEEK.eqb (Config.PEEK cfg) Config.PEEK.Dynamic
     then EnumWindows cfg o (top_level desk)
            (with_fluent_available b r1, blacklist_cache st)
     else Some (with_fluent_available b r1, blacklist_cache st))
    = (fun s : RUNTIMESTATE * gmap HWND bool =>
         (with_fluent_available b s.1, s.2))
        <$> (if Config.DYNAMIC_WS cfg
                || Config.PEEK.eqb (Config.PEEK cfg) Config.PEEK.Dynamic
             then EnumWindows cfg o (top_level desk) (r1, blacklist_cache st)
             else Some (r1, blacklist_cache st))).
  { destruct (Config.DYNAMIC_WS cfg
              || Config.PEEK.eqb (Config.PEEK cfg) Config.PEEK.Dynamic);
      [apply EnumWindows_fluent | reflexivity]. }
  rewrite Henum. clear Henum.
  destruct (if Config.DYNAMIC_WS cfg
               || Config.PEEK.eqb (Config.PEEK cfg) Config.PEEK.Dynamic
            then EnumWindows cfg o (top_level desk) (r1, blacklist_cache st)
            else Some (r1, blacklist_cache st)) as [[r2 c2]|]; [|reflexivity].
  cbn [mbind option_bind fmap option_fmap option_map Tick_fmap fst snd].
  destruct r2 as [er2 mt2 tb2 ssp2 ir2 fa2 ch2 pa2]. run_fields.
  destruct (TogglePeek desk mt2 ssp2 (peek_cache st)) as [peek toggled].
  destruct (Config.DYNAMIC_START cfg && IsStartVisible desk).
  - destruct (tb2 !! start_monitor desk) as [taskbar|]; [|reflexivity].
    cbn [mbind option_bind fmap option_fmap option_map Tick_fmap]. run_fields.
    destruct (Config.DYNAMIC_WS cfg && Config.DYNAMIC_NORMAL_ON_PEEK cfg && pa2);
      reflexivity.
  - cbn [mbind option_bind fmap option_fmap option_map Tick_fmap]. run_fields.
    destruct (Config.DYNAMIC_WS cfg && Config.DYNAMIC_NORMAL_ON_PEEK cfg && pa2);
      reflexivity.
Qed.

Lemma SetTaskbarBlur_fluent (has_swca b : bool) (cfg : Config.t) (o : OPTIONS)
    (desk : Desktop) (r : RUNTIMESTATE) (st : STATICS) :
  SetTaskbarBlur has_swca cfg o desk (with_fluent_available b r) st
  = (fun res : RUNTIMESTATE * STATICS * list Event =>
       (with_fluent_available b res.1.1, res.1.2, res.2))
      <$> SetTaskbarBlur has_swca cfg o desk r st.
Proof.
  unfold SetTaskbarBlur.
  destruct (counter st >=? 10).
  - rewrite full_pass_fluent.
    destruct (full_pass cfg o desk r st) as [[[r1 st1] toggled]|];
      [|reflexivity].
    cbn [mbind option_bind fmap option_fmap option_map Tick_fmap fst snd].
    change (taskbars (with_fluent_available b r1)) with (taskbars r1).
    destruct (blur_each has_swca (accent_for cfg) (map_to_list (taskbars r1))
                (is_normal st1)); reflexivity.
  - cbn [mbind option_bind fmap option_fmap option_map Tick_fmap fst snd].
    change (taskbars (with_fluent_available b r)) with (taskbars r).
    destruct (blur_each has_swca (accent_for cfg) (map_to_list (taskbars r))
                (is_normal st)); reflexivity.
Qed.

(** C1, as the code has it.  [SetTaskbarBlur] does not read
    [run.fluent_available]: with the flag set either way it does the same
    and leaves the flag as it was.  On a host with the entry point, every
    taskbar whose state maps to [ACCENT_ENABLE_FLUENT] has a policy with
    that very accent submitted, the colour converted and a zero alpha
    promoted to 1. *)
Theorem fluent_submitted_whatever_fluent_available (cfg : Config.t)
    (o : OPTIONS) (desk : Desktop) (r : RUNTIMESTATE) (st : STATICS)
    (r' : RUNTIMESTATE) (st' : STATICS) (sent : list Event) :
  SetTaskbarBlur true cfg o desk r st = returned (r', st', sent) ->
  (forall b : bool,
     SetTaskbarBlur true cfg o desk (with_fluent_available b r) st
     = returned (with_fluent_available b r', st', sent))
  /\ fluent_available r' = fluent_available r
  /\ forall (mon : HMONITOR) (w : HWND) (s : TASKBARSTATE),
       taskbars r' !! mon = Some (w, s) ->
       (accent_for cfg s).1 = ACCENT_ENABLE_FLUENT ->
       In (SetWindowCompositionAttribute w
             (mkPolicy ACCENT_ENABLE_FLUENT 2
                       (fluent_policy_color (accent_for cfg s).2) 0))
          sent.
Proof.
  intros Hrun. split; [|split].
  - intros b. rewrite SetTaskbarBlur_fluent, Hrun. reflexivity.
  - pose proof (SetTaskbarBlur_cases true cfg o desk r st) as H.
    rewrite Hrun in H. destruct H as ((_ & _ & _ & Hf & _) & _). exact Hf.
  - intros mon w s Hl Hfluent.
    pose proof (SetTaskbarBlur_cases true cfg o desk r st) as H.
    rewrite Hrun in H. destruct H as (_ & _ & _ & toggled & ->).
    apply in_or_app. right.
    assert (Hin : In (mon, (w, s)) (map_to_list (taskbars r'))).
    { apply list_elem_of_In. now apply elem_of_map_to_list. }
    pose proof (blur_each_submits (accent_for cfg) _ (is_normal st) mon w s Hin)
      as Hsub.
    rewrite Hfluent in Hsub. cbn [ACCENT_eqb andb] in Hsub.
    apply Hsub. discriminate.
Qed.

Lemma fluent_submitted_whatever_fluent_available_witness :
  fluent_available sample_run = false
  /\ exists sent : list Event,
       snd <$> SetTaskbarBlur true some_config no_rules maximised_desktop
                 sample_run statics_initial = returned sent
       /\ In (SetWindowCompositionAttribute 100
                (mkPolicy ACCENT_ENABLE_FLUENT 2 0x01332211 0)) sent.
Proof.
  split; [reflexivity|].
  destruct (SetTaskbarBlur true some_config no_rules maximised_desktop
              sample_run statics_initial) as [[[r' st'] sent]|] eqn:E.
  - exists sent. split; [reflexivity|].
    destruct (fluent_submitted_whatever_fluent_available _ _ _ _ _ _ _ _ E)
      as (_ & _ & Hsub).
    assert (Hl : taskbars r' !! 1 = Some (100, WindowMaximised)).
    { vm_compute in E. injection E as <- _ _. vm_compute. reflexivity. }
    exact (Hsub 1 100 WindowMaximised Hl eq_refl).
  - exfalso. vm_compute in E. discriminate.
Defined.

(** C1, the claim as it is written, fails: the host does not offer Fluent
    ([run.fluent_available] is [false]), a window is maximised on the
    monitor of the primary taskbar, the dynamic accent is Fluent, and the
    policy submitted for that taskbar is Fluent, not Blur. *)
Lemma fluent_submitted_without_fluent_support :
  fluent_available sample_run = false
  /\ Config.DYNAMIC_APPEARANCE some_config = ACCENT_ENABLE_FLUENT
  /\ Config.DYNAMIC_COLOR some_config = 0x00112233
  /\ snd <$> SetTaskbarBlur true some_config no_rules maximised_desktop
               sample_run statics_initial
     = returned [ SetWindowCompositionAttribute 200
                (mkPolicy ACCENT_ENABLE_BLURBEHIND 2 0x80000000 0);
              SetWindowCompositionAttribute 100
                (mkPolicy ACCENT_ENABLE_FLUENT 2 0x01332211 0) ].
Proof. repeat split; vm_compute; reflexivity. Qed.

(** * Further properties of the code *)

(** ** [RefreshHandles] *)

Lemma add_secondary_elsewhere (desk : Desktop) (found : list HWND)
    (t : gmap HMONITOR (HWND * TASKBARSTATE)) (mon : HMONITOR) :
  (forall s : HWND, In s found -> monitor_of desk s <> mon) ->
  add_secondary desk found t !! mon = t !! mon.
Proof.
  revert t. induction found as [|s rest IH]; intros t Hno; [reflexivity|].
  cbn [add_secondary]. rewrite IH by (intros s' Hs'; apply Hno; now right).
  apply lookup_insert_ne. apply Hno. now left.
Qed.

Lemma add_secondary_is_Some (desk : Desktop) (found : list HWND)
    (t : gmap HMONITOR (HWND * TASKBARSTATE)) (mon : HMONITOR) :
  is_Some (add_secondary desk found t !! mon)
  <-> is_Some (t !! mon) \/ exists s : HWND, In s found /\ monitor_of desk s = mon.
Proof.
  revert t. induction found as [|s rest IH]; intros t; cbn [add_secondary].
  - split; [auto | intros [H|(s & [] & _)]; exact H].
  - rewrite IH. rewrite lookup_insert_is_Some. split.
    + intros [[Heq|[_ H]]|(s' & Hin & Hm)].
      * right. exists s. split; [now left | exact Heq].
      * now left.
      * right. exists s'. split; [now right | exact Hm].
    + intros [H|(s' & [<-|Hin] & Hm)].
      * left. destruct (decide (monitor_of desk s = mon)); [now left|].
        right. split; assumption.
      * left. now left.
      * right. exists s'. split; assumption.
Qed.

Lemma add_secondary_entries (desk : Desktop) (found : list HWND)
    (t : gmap HMONITOR (HWND * TASKBARSTATE))
    (P : HMONITOR -> HWND -> TASKBARSTATE -> Prop) :
  (forall mon w s, t !! mon = Some (w, s) -> P mon w s) ->
  (forall s : HWND, In s found -> P (monitor_of desk s) s Normal) ->
  forall mon w s, add_secondary desk found t !! mon = Some (w, s) -> P mon w s.
Proof.
  revert t. induction found as [|x rest IH]; intros t Ht Hnew; [exact Ht|].
  cbn [add_secondary]. apply IH.
  - intros mon w s Hl. destruct (decide (monitor_of desk x = mon)) as [<-|Hne].
    + rewrite lookup_insert_eq in Hl.
      assert (w = x /\ s = Normal) as [-> ->] by (split; congruence).
      apply Hnew. now left.
    + rewrite lookup_insert_ne in Hl by exact Hne. now apply Ht.
  - intros s Hs. apply Hnew. now right.
Qed.

Lemma add_secondary_registers (desk : Desktop) (found : list HWND)
    (t : gmap HMONITOR (HWND * TASKBARSTATE)) (s : HWND) :
  NoDup (monitor_of desk <$> found) ->
  In s found ->
  add_secondary desk found t !! monitor_of desk s = Some (s, Normal).
Proof.
  revert t. induction found as [|x rest IH]; intros t Hnd Hin; [destruct Hin|].
  cbn [add_secondary]. rewrite fmap_cons in Hnd.
  apply NoDup_cons in Hnd. destruct Hnd as [Hx Hnd].
  destruct Hin as [->|Hin].
  - rewrite add_secondary_elsewhere; [apply lookup_insert_eq|].
    intros s' Hs' Heq. apply Hx. rewrite <- Heq.
    apply list_elem_of_fmap. exists s'. split; [reflexivity|].
    now apply list_elem_of_In.
  - now apply IH.
Qed.

(** X1.  What [RefreshHandles] leaves in [run]: the primary taskbar is the
    window found; the registry has an entry exactly for the monitors of the
    primary taskbar and of the secondary taskbars found; every entry is one
    of these windows, under its own monitor, in state [Normal]; the old
    registry and the old primary taskbar leave no trace; and when no two of
    the taskbars found share a monitor, each of them is in the registry. *)
Theorem RefreshHandles_rebuilds_registry (desk : Desktop) (r : RUNTIMESTATE) :
  let r' := RefreshHandles desk r in
  let discovered := Shell_TrayWnd desk :: Shell_SecondaryTrayWnd desk in
  main_taskbar r' = Shell_TrayWnd desk
  /\ (forall mon : HMONITOR,
        is_Some (taskbars r' !! mon)
        <-> exists w : HWND, In w discovered /\ monitor_of desk w = mon)
  /\ (forall (mon : HMONITOR) (w : HWND) (s : TASKBARSTATE),
        taskbars r' !! mon = Some (w, s) ->
        s = Normal /\ monitor_of desk w = mon /\ In w discovered)
  /\ (forall (t : gmap HMONITOR (HWND * TASKBARSTATE)) (old : HWND),
        taskbars (RefreshHandles desk (with_main_taskbar old (with_taskbars t r)))
        = taskbars r')
  /\ (NoDup (monitor_of desk <$> discovered) ->
      forall w : HWND, In w discovered ->
        taskbars r' !! monitor_of desk w = Some (w, Normal)).
Proof.
  cbn zeta. unfold RefreshHandles.
  cbn [with_taskbars with_main_taskbar main_taskbar taskbars].
  split; [reflexivity|]. split; [|split; [|split]].
  - intros mon. rewrite add_secondary_is_Some, lookup_insert_is_Some.
    split.
    + intros [[Heq|[_ H]]|(s & Hin & Hm)].
      * exists (Shell_TrayWnd desk). split; [now left | exact Heq].
      * rewrite lookup_empty in H. now destruct H.
      * exists s. split; [now right | exact Hm].
    + intros (w & [<-|Hin] & Hm).
      * left. now left.
      * right. exists w. split; assumption.
  - apply add_secondary_entries.
    + intros mon w s Hl.
      destruct (decide (monitor_of desk (Shell_TrayWnd desk) = mon)) as [<-|Hne].
      * rewrite lookup_insert_eq in Hl.
        assert (w = Shell_TrayWnd desk /\ s = Normal) as [-> ->]
          by (split; congruence).
        split; [reflexivity|]. split; [reflexivity | now left].
      * rewrite lookup_insert_ne, lookup_empty in Hl by exact Hne.
        discriminate.
    + intros s Hs. split; [reflexivity|]. split; [reflexivity | now right].
  - reflexivity.
  - intros Hnd w Hin. rewrite fmap_cons in Hnd.
    apply NoDup_cons in Hnd. destruct Hnd as [Hp Hnd].
    destruct Hin as [<-|Hin].
    + rewrite add_secondary_elsewhere; [apply lookup_insert_eq|].
      intros s Hs Heq. apply Hp. rewrite <- Heq.
      apply list_elem_of_fmap. exists s. split; [reflexivity|].
      now apply list_elem_of_In.
    + now apply add_secondary_registers.
Qed.

Lemma RefreshHandles_rebuilds_registry_witness :
  taskbars (RefreshHandles sample_desktop run_initial) !! 2 = Some (200, Normal).
Proof.
  destruct (RefreshHandles_rebuilds_registry sample_desktop run_initial)
    as (_ & _ & _ & _ & Hall).
  assert (Hnd : NoDup (monitor_of sample_desktop
                         <$> Shell_TrayWnd sample_desktop
                             :: Shell_SecondaryTrayWnd sample_desktop)).
  { apply (bool_decide_unpack _). vm_compute. exact I. }
  apply (Hall Hnd 200).
  right. now left.
Defined.

(** ** [TogglePeek], call after call *)

Lemma TogglePeek_cache_after (desk : Desktop) (main : HWND) (status : bool)
    (cache : option (bool * HWND)) :
  (TogglePeek desk main status cache).1 = Some (status, main).
Proof.
  rewrite TogglePeek_cases. case_bool_decide as Hc; [|reflexivity].
  cbn [fst]. destruct (peek_statics main cache) as [cp ct].
  cbn [fst snd] in Hc. destruct Hc as [-> ->]. reflexivity.
Qed.

(** X2.  After a call the cache holds the status asked for and the primary
    taskbar of the call.  So a second call with the same status and the
    same primary taskbar sends nothing, whatever the desktop has become;
    and a call with another status, or after the primary taskbar has been
    replaced, shows or hides the button again. *)
Theorem TogglePeek_repeated (desk desk' : Desktop) (main main' : HWND)
    (status status' : bool) (cache : option (bool * HWND)) :
  let after := (TogglePeek desk main status cache).1 in
  after = Some (status, main)
  /\ TogglePeek desk' main status after = (Some (status, main), [])
  /\ (status' <> status \/ main' <> main ->
      TogglePeek desk' main' status' after
      = (Some (status', main'),
         [ show (peek_button desk' main')
                (if status' then SW_SHOWNORMAL else SW_HIDE);
           send_message (overflow_button desk' main') WM_LBUTTONUP;
           send_message (overflow_button desk' main') WM_LBUTTONUP ])).
Proof.
  cbn zeta.
  rewrite TogglePeek_cache_after. split; [reflexivity|]. split.
  - rewrite TogglePeek_cases. cbn [peek_statics fst snd].
    rewrite bool_decide_eq_true_2 by (split; reflexivity). reflexivity.
  - intros Hdiff. rewrite TogglePeek_cases. cbn [peek_statics fst snd].
    rewrite bool_decide_eq_false_2; [reflexivity|].
    intros [H1 H2]. destruct Hdiff as [Hd|Hd]; apply Hd; congruence.
Qed.

Lemma TogglePeek_repeated_witness :
  TogglePeek sample_desktop 200 true
    (TogglePeek sample_desktop 100 true None).1
  = (Some (true, 200),
     [ show 202 SW_SHOWNORMAL; send_message 203 WM_LBUTTONUP;
       send_message 203 WM_LBUTTONUP ]).
Proof.
  destruct (TogglePeek_repeated sample_desktop sample_desktop 100 200
              true true None) as (_ & _ & H).
  apply H. right. discriminate.
Defined.

(** ** The blacklist cache over several calls *)

Lemma cache_after_holds_answer (cfg : Config.t) (o : OPTIONS) (window : Window)
    (hits : Z) (cache : gmap HWND bool) :
  let r := IsWindowBlacklisted cfg o window hits cache in
  cache_after r !! handle window = Some (answer r).
Proof.
  cbn zeta.
  destruct ((hits <=? Config.CACHE_HIT_MAX cfg)
            && (count cache (handle window) >? 0)) eqn:E.
  - unfold IsWindowBlacklisted. rewrite E. cbn [cache_after answer].
    apply andb_true_iff in E. destruct E as [_ Hc]. unfold count in Hc.
    destruct (cache !! handle window); [reflexivity | discriminate].
  - rewrite IsWindowBlacklisted_evaluates by exact E.
    cbn [cache_after answer]. apply lookup_insert_eq.
Qed.

(** X3.  A verdict stays: when the counter after a call is still within
    the bound, the next call for the same window handle gives the same
    answer without a comparison and leaves the cache as it is, even for
    other rule sets and for a window whose class, title or file name have
    changed. *)
Theorem cached_answer_survives_changes (cfg : Config.t) (o o' : OPTIONS)
    (window window' : Window) (hits : Z) (cache : gmap HWND bool) :
  let first := IsWindowBlacklisted cfg o window hits cache in
  let second :=
    IsWindowBlacklisted cfg o' window' (hits_after first) (cache_after first) in
  handle window' = handle window ->
  hits_after first <= Config.CACHE_HIT_MAX cfg ->
  answer second = answer first
  /\ compared second = []
  /\ cache_after second = cache_after first.
Proof.
  cbn zeta. intros Hh Hle.
  pose proof (cache_after_holds_answer cfg o window hits cache) as Hl.
  cbn zeta in Hl.
  set (first := IsWindowBlacklisted cfg o window hits cache) in *.
  unfold IsWindowBlacklisted at 1 2 3. unfold count. rewrite Hh, Hl.
  replace (hits_after first <=? Config.CACHE_HIT_MAX cfg) with true
    by (symmetry; apply Z.leb_le; exact Hle).
  cbn [andb Z.gtb Z.compare answer compared cache_after default from_option].
  auto.
Qed.

Lemma cached_answer_survives_changes_witness :
  answer (IsWindowBlacklisted some_config no_rules notepad_renamed
            (hits_after (IsWindowBlacklisted some_config some_rules notepad 0 ∅))
            (cache_after (IsWindowBlacklisted some_config some_rules notepad 0 ∅)))
  = true.
Proof.
  assert (Hle : hits_after (IsWindowBlacklisted some_config some_rules notepad 0 ∅)
                <= Config.CACHE_HIT_MAX some_config)
    by (vm_compute; congruence).
  destruct (cached_answer_survives_changes some_config some_rules no_rules
              notepad notepad_renamed 0 ∅ eq_refl Hle) as (H & _).
  rewrite H. reflexivity.
Defined.

(** X4.  The cache is stale for a bounded time only: with the counter
    between 0 and [CACHE_HIT_MAX + 1], as it always is, no more than
    [CACHE_HIT_MAX + 1 - hits] calls in a row can be answered from the cache,
    whatever windows they ask about; the call after that many evaluates the
    rules. *)
Theorem cache_hits_in_a_row_bounded (cfg : Config.t) (o : OPTIONS)
    (windows : list Window) (hits : Z) (cache : gmap HWND bool) :
  0 <= hits <= Config.CACHE_HIT_MAX cfg + 1 ->
  Config.CACHE_HIT_MAX cfg < INT_MAX ->
  answered_from_cache cfg o windows hits cache = true ->
  Z.of_nat (length windows) <= Config.CACHE_HIT_MAX cfg + 1 - hits.
Proof.
  intros Hhits Hmax. revert hits cache Hhits.
  induction windows as [|window rest IH]; intros hits cache Hhits Hall.
  - cbn [length]. lia.
  - cbn [answered_from_cache] in Hall.
    apply andb_true_iff in Hall. destruct Hall as [Hhit Hrest].
    pose proof Hhit as Hhit'.
    apply andb_true_iff in Hhit'. destruct Hhit' as [Hle _].
    apply Z.leb_le in Hle.
    assert (Hafter : hits_after (IsWindowBlacklisted cfg o window hits cache)
                     = hits + 1).
    { unfold IsWindowBlacklisted. rewrite Hhit. cbn [hits_after].
      apply wrap_int_small. unfold INT_MAX in *. lia. }
    rewrite Hafter in Hrest.
    assert (Hb : 0 <= hits + 1 <= Config.CACHE_HIT_MAX cfg + 1) by lia.
    specialize (IH _ _ Hb Hrest).
    rewrite length_cons, Nat2Z.inj_succ. lia.
Qed.

Lemma cache_hits_in_a_row_bounded_witness :
  answered_from_cache some_config no_rules [notepad; notepad] 500
    {[ 42 := true ]} = false.
Proof.
  destruct (answered_from_cache some_config no_rules [notepad; notepad] 500
              {[ 42 := true ]}) eqn:E; [|reflexivity].
  exfalso.
  pose proof (cache_hits_in_a_row_bounded some_config no_rules
                [notepad; notepad] 500 {[ 42 := true ]}
                ltac:(vm_compute; split; congruence)
                ltac:(vm_compute; reflexivity) E) as H.
  vm_compute in H. congruence.
Defined.

Lemma IsWindowBlacklisted_above_bound (cfg : Config.t) (o : OPTIONS)
    (window : Window) (hits : Z) (cache : gmap HWND bool) :
  hits > Config.CACHE_HIT_MAX cfg ->
  IsWindowBlacklisted cfg o window hits cache
  = mkBlacklisted
      (existsb (class_test window) (blacklisted_classes o)
       || existsb (title_test window) (blacklisted_titles o)
       || existsb (filename_test window) (blacklisted_filenames o))
      0
      {[ handle window :=
           existsb (class_test window) (blacklisted_classes o)
           || existsb (title_test window) (blacklisted_titles o)
           || existsb (filename_test window) (blacklisted_filenames o) ]}
      (comparisons_in_order o window).
Proof.
  intros Hgt. rewrite IsWindowBlacklisted_evaluates.
  - replace (hits >? Config.CACHE_HIT_MAX cfg) with true
      by (rewrite Z.gtb_ltb; symmetry; apply Z.ltb_lt; lia).
    reflexivity.
  - apply andb_false_iff. left. apply Z.leb_gt. lia.
Qed.

(** X5.  After the message that reloads the blacklist, and after the one
    that clears the cache, the next call of [IsWindowBlacklisted] does not
    answer from the cache: it compares the window with the rule sets in
    force (the new ones after a reload), and the cache holds that answer
    and nothing else.  The bound must leave room for [CACHE_HIT_MAX + 1]
    in an [int]. *)
Theorem reload_discards_cached_answers (cfg : Config.t) (desk : Desktop)
    (parsed o : OPTIONS) (r : RUNTIMESTATE) (window : Window)
    (cache : gmap HWND bool) :
  - 2 ^ 31 <= Config.CACHE_HIT_MAX cfg + 1 <= INT_MAX ->
  let reloaded :=
    DispatchMessage cfg desk (IDM_RELOADDYNAMICBLACKLIST parsed) (r, o) in
  let cleared := DispatchMessage cfg desk IDM_CLEARBLACKLISTCACHE (r, o) in
  reloaded.2 = parsed
  /\ cleared.2 = o
  /\ IsWindowBlacklisted cfg reloaded.2 window (cache_hits reloaded.1) cache
     = IsWindowBlacklisted cfg parsed window (Config.CACHE_HIT_MAX cfg + 1) ∅
  /\ IsWindowBlacklisted cfg cleared.2 window (cache_hits cleared.1) cache
     = IsWindowBlacklisted cfg o window (Config.CACHE_HIT_MAX cfg + 1) ∅
  /\ compared (IsWindowBlacklisted cfg parsed window
                 (Config.CACHE_HIT_MAX cfg + 1) ∅)
     = comparisons_in_order parsed window
  /\ hits_after (IsWindowBlacklisted cfg parsed window
                   (Config.CACHE_HIT_MAX cfg + 1) ∅) = 0.
Proof.
  intros Hmax. cbn zeta.
  cbn [DispatchMessage fst snd ClearBlacklistCache with_cache_hits cache_hits].
  rewrite wrap_int_small by exact Hmax.
  split; [reflexivity|]. split; [reflexivity|].
  rewrite !IsWindowBlacklisted_above_bound by lia.
  repeat split.
Qed.

Lemma reload_discards_cached_answers_witness :
  answer (IsWindowBlacklisted some_config
            (DispatchMessage some_config sample_desktop
               (IDM_RELOADDYNAMICBLACKLIST no_rules) (sample_run, some_rules)).2
            notepad
            (cache_hits (DispatchMessage some_config sample_desktop
                           (IDM_RELOADDYNAMICBLACKLIST no_rules)
                           (sample_run, some_rules)).1)
            {[ 42 := true ]})
  = false.
Proof.
  destruct (reload_discards_cached_answers some_config sample_desktop no_rules
              some_rules sample_run notepad {[ 42 := true ]}
              ltac:(vm_compute; split; congruence))
    as (_ & _ & H & _).
  cbn zeta in H. rewrite H. reflexivity.
Defined.

(** ** What a full pass assigns *)

Lemma EnumWindowsProcess_inv (cfg : Config.t) (o : OPTIONS) (window : Window)
    (r r' : RUNTIMESTATE) (cache cache' : gmap HWND bool) :
  EnumWindowsProcess cfg o window (r, cache) = Some (r', cache') ->
  (taskbars r' = taskbars r /\ should_show_peek r' = should_show_peek r)
  \/ (is_candidate window = true
      /\ answer (IsWindowBlacklisted cfg o window (cache_hits r) cache) = false
      /\ exists taskbar : HWND * TASKBARSTATE,
           taskbars r !! monitor window = Some taskbar
           /\ taskbars r'
              = (if Config.DYNAMIC_WS cfg
                 then <[monitor window := (taskbar.1, WindowMaximised)]>
                        (taskbars r)
                 else taskbars r)
           /\ should_show_peek r'
              = (if Config.PEEK.eqb (Config.PEEK cfg) Config.PEEK.Dynamic
                    && (taskbar.1 =? main_taskbar r)
                 then true else should_show_peek r)).
Proof.
  unfold EnumWindowsProcess, is_candidate.
  destruct (visible window && (state window =? SW_MAXIMIZE)
            && negb (cloaked window));
    [|intros H; left; split; congruence].
  set (b := IsWindowBlacklisted cfg o window (cache_hits r) cache).
  destruct (answer b) eqn:Ea; cbn [negb andb];
    [intros H; left; assert (r' = with_cache_hits (hits_after b) r) as ->
       by congruence; split; reflexivity|].
  destruct (on_current_desktop window);
    [|intros H; left; assert (r' = with_cache_hits (hits_after b) r) as ->
        by congruence; split; reflexivity].
  cbn [with_cache_hits taskbars main_taskbar].
  destruct (taskbars r !! monitor window) as [taskbar|] eqn:Hl;
    cbn [mbind option_bind]; [|discriminate].
  intros H. right. split; [reflexivity|]. split; [reflexivity|].
  exists taskbar. split; [reflexivity|].
  assert (Hr' : r' = _) by (symmetry; injection H as H _; exact H).
  rewrite Hr'. clear H Hr'.
  destruct (Config.DYNAMIC_WS cfg);
    cbn [with_taskbars with_cache_hits main_taskbar taskbars];
    destruct (Config.PEEK.eqb (Config.PEEK cfg) Config.PEEK.Dynamic
              && (taskbar.1 =? main_taskbar r));
    split; reflexivity.
Qed.

Lemma EnumWindows_inv (cfg : Config.t) (o : OPTIONS) (all windows : list Window) :
  (forall window, In window windows -> In window all) ->
  forall (r r' : RUNTIMESTATE) (cache cache' : gmap HWND bool),
    EnumWindows cfg o windows (r, cache) = Some (r', cache') ->
    should_show_peek r' = true ->
    should_show_peek r = true
    \/ (Config.PEEK cfg = Config.PEEK.Dynamic
        /\ exists window : Window,
             In window all /\ is_candidate window = true
             /\ fst <$> taskbars r !! monitor window
                = Some (main_taskbar r)).
Proof.
  intros Hsub. induction windows as [|window rest IH]; intros r r' cache cache' He.
  - cbn [EnumWindows] in He. assert (r' = r) as -> by congruence. auto.
  - cbn [EnumWindows] in He.
    pose proof (EnumWindowsProcess_cases cfg o window r cache) as Hframe.
    destruct (EnumWindowsProcess cfg o window (r, cache)) as [[r1 c1]|] eqn:E1;
      cbn [mbind option_bind] in He; [|discriminate].
    destruct Hframe as (_ & Hmain & _ & _ & _ & Hsame).
    pose proof (IH ltac:(intros w Hw; apply Hsub; now right) _ _ _ _ He)
      as IHp.
    apply EnumWindowsProcess_inv in E1.
    assert (Hin : In window all) by (apply Hsub; now left).
    intros Hp. destruct (IHp Hp) as [H1|(Hd & window' & Hin' & Hc' & Hl')].
    + destruct E1 as [[_ Hs]|(Hc & Ha & taskbar & Hlt & _ & Hs)].
      * left. congruence.
      * rewrite Hs in H1.
        destruct (Config.PEEK.eqb (Config.PEEK cfg) Config.PEEK.Dynamic
                  && (taskbar.1 =? main_taskbar r)) eqn:Ec; [|now left].
        right. apply andb_true_iff in Ec. destruct Ec as [Ed Em].
        split; [now destruct (Config.PEEK cfg)|].
        exists window. split; [exact Hin|]. split; [exact Hc|].
        rewrite Hlt. cbn. f_equal. now apply Z.eqb_eq.
    + right. split; [exact Hd|]. exists window'.
      split; [exact Hin'|]. split; [exact Hc'|].
      rewrite <- (Hsame (monitor window')), Hl', Hmain. reflexivity.
Qed.

Lemma EnumWindows_keeps_peek (cfg : Config.t) (o : OPTIONS)
    (windows : list Window) :
  forall (r r' : RUNTIMESTATE) (cache cache' : gmap HWND bool),
    should_show_peek r = true ->
    EnumWindows cfg o windows (r, cache) = Some (r', cache') ->
    should_show_peek r' = true.
Proof.
  induction windows as [|window rest IH]; intros r r' cache cache' Hp He.
  - cbn [EnumWindows] in He. assert (r' = r) as -> by congruence. exact Hp.
  - cbn [EnumWindows] in He.
    destruct (EnumWindowsProcess cfg o window (r, cache)) as [[ra ca]|] eqn:E;
      cbn [mbind option_bind] in He; [|discriminate].
    apply (IH ra r' ca cache'); [|exact He].
    apply EnumWindowsProcess_inv in E.
    destruct E as [[_ Hs]|(_ & _ & taskbar & _ & _ & Hs)];
      rewrite Hs; [exact Hp|].
    now destruct (_ && _).
Qed.

(** A full pass that completes: the decision about the peek button. *)
Lemma full_pass_inv (cfg : Config.t) (o : OPTIONS) (desk : Desktop)
    (r r' : RUNTIMESTATE) (st st' : STATICS) (sent : list Event) :
  full_pass cfg o desk r st = returned (r', st', sent) ->
  (should_show_peek r' = true ->
   Config.PEEK cfg = Config.PEEK.Enabled
   \/ (Config.PEEK cfg = Config.PEEK.Dynamic
       /\ exists window : Window,
            In window (top_level desk) /\ is_candidate window = true
            /\ fst <$> taskbars r !! monitor window = Some (main_taskbar r)))
  /\ (Config.PEEK cfg = Config.PEEK.Enabled -> should_show_peek r' = true)
  /\ peek_cache st' = Some (should_show_peek r', main_taskbar r)
  /\ sent = (TogglePeek desk (main_taskbar r) (should_show_peek r')
              (peek_cache st)).2
  /\ is_normal st' = is_normal st.
Proof.
  unfold full_pass.
  set (r0 := with_should_show_peek _ r).
  set (r1 := with_taskbars (reset_states (taskbars r0)) r0).
  set (enumerate := Config.DYNAMIC_WS cfg
                    || Config.PEEK.eqb (Config.PEEK cfg) Config.PEEK.Dynamic).
  assert (Henum : forall r2 c2,
    (if enumerate
     then EnumWindows cfg o (top_level desk) (r1, blacklist_cache st)
     else Some (r1, blacklist_cache st)) = Some (r2, c2) ->
    main_taskbar r2 = main_taskbar r
    /\ (should_show_peek r2 = true ->
        Config.PEEK cfg = Config.PEEK.Enabled
        \/ (Config.PEEK cfg = Config.PEEK.Dynamic
            /\ exists window : Window,
                 In window (top_level desk) /\ is_candidate window = true
                 /\ fst <$> taskbars r !! monitor window
                    = Some (main_taskbar r)))
    /\ (Config.PEEK cfg = Config.PEEK.Enabled -> should_show_peek r2 = true)).
  { intros r2 c2 He.
    assert (Hp1 : should_show_peek r1 = true ->
                  Config.PEEK cfg = Config.PEEK.Enabled)
      by (cbn; now destruct (Config.PEEK cfg)).
    destruct enumerate.
    - pose proof (EnumWindows_cases cfg o (top_level desk) r1
                    (blacklist_cache st)) as Hframe.
      rewrite He in Hframe. destruct Hframe as (_ & Hmain & _).
      pose proof (EnumWindows_inv cfg o (top_level desk) (top_level desk)
                    (fun _ H => H) _ _ _ _ He) as Hp.
      split; [exact Hmain|]. split.
      + intros Hssp. destruct (Hp Hssp) as [H|(Hd & window & Hin & Hc & Hl)];
          [left; now apply Hp1|].
        right. split; [exact Hd|]. exists window.
        split; [exact Hin|]. split; [exact Hc|].
        change (fst <$> reset_states (taskbars r) !! monitor window
                = Some (main_taskbar r)) in Hl.
        rewrite <- Hl. symmetry. apply same_handles_reset.
      + intros He'. eapply EnumWindows_keeps_peek; [|exact He].
        cbn. now rewrite He'.
    - assert (r2 = r1) as -> by congruence.
      split; [reflexivity|]. split.
      + intros Hssp. left. now apply Hp1.
      + intros He'. cbn. now rewrite He'. }
  destruct (if enumerate
            then EnumWindows cfg o (top_level desk) (r1, blacklist_cache st)
            else Some (r1, blacklist_cache st)) as [[r2 c2]|];
    [|discriminate].
  destruct (Henum r2 c2 eq_refl) as (Hmain & Hpeek & Henabled).
  clear Henum.
  pose proof (TogglePeek_cache_after desk (main_taskbar r2)
                (should_show_peek r2) (peek_cache st)) as Hcache.
  destruct (TogglePeek desk (main_taskbar r2) (should_show_peek r2)
              (peek_cache st)) as [peek toggled] eqn:Et.
  cbn [fst] in Hcache. subst peek.
  assert (Htog : toggled
                 = (TogglePeek desk (main_taskbar r2) (should_show_peek r2)
                      (peek_cache st)).2) by now rewrite Et.
  rewrite Hmain in Htog. clear Et.
  set (three := Config.DYNAMIC_WS cfg && Config.DYNAMIC_NORMAL_ON_PEEK cfg).
  assert (Htail : forall r3 : RUNTIMESTATE,
            should_show_peek r3 = should_show_peek r2 ->
            returned (if three && peek_active r3
                      then with_taskbars (reset_states (taskbars r3)) r3
                      else r3,
                      mkSTATICS (is_normal st)
                        (Some (should_show_peek r2, main_taskbar r2)) c2 0,
                      toggled) = returned (r', st', sent) ->
            should_show_peek r' = should_show_peek r2
            /\ peek_cache st' = Some (should_show_peek r2, main_taskbar r2)
            /\ sent = toggled
            /\ is_normal st' = is_normal st).
  { intros r3 Hs3 H.
    assert (Hr' : r' = (if three && peek_active r3
                        then with_taskbars (reset_states (taskbars r3)) r3
                        else r3)) by congruence.
    assert (Hst' : st' = mkSTATICS (is_normal st)
                           (Some (should_show_peek r2, main_taskbar r2)) c2 0)
      by congruence.
    assert (Hsent : sent = toggled) by congruence.
    clear H. subst st'.
    split; [|split; [reflexivity | split; [exact Hsent | reflexivity]]].
    rewrite Hr'. now destruct (three && peek_active r3). }
  destruct (Config.DYNAMIC_START cfg && IsStartVisible desk) eqn:Es.
  - destruct (taskbars r2 !! start_monitor desk) as [taskbar|] eqn:Hl;
      cbn [mbind option_bind]; [|discriminate].
    intros H. apply Htail in H; [|reflexivity].
    destruct H as (Hssp & Hpc & Hsent & Hmemo). rewrite Hpc, Hssp, Hmain.
    split; [exact Hpeek|]. split; [exact Henabled|].
    split; [reflexivity|]. split; [|exact Hmemo].
    rewrite Hsent. exact Htog.
  - intros H. apply Htail in H; [|reflexivity].
    destruct H as (Hssp & Hpc & Hsent & Hmemo). rewrite Hpc, Hssp, Hmain.
    split; [exact Hpeek|]. split; [exact Henabled|].
    split; [reflexivity|]. split; [|exact Hmemo].
    rewrite Hsent. exact Htog.
Qed.

(** X6.  After a full pass no taskbar is in a state without its cause.  A
    taskbar is [WindowMaximised] only with [DYNAMIC_WS] set and, on its
    monitor, a window of the desktop that is visible, maximised, not cloaked
    and on the current desktop and for which [IsWindowBlacklisted], asked
    in this very enumeration with the counter and the cache as the windows
    before had left them, answered [false]; it is [StartMenuOpen] only with
    [DYNAMIC_START] set, the Start menu visible and on its monitor. *)
Theorem states_have_their_cause (has_swca : bool) (cfg : Config.t) (o : OPTIONS)
    (desk : Desktop) (r r' : RUNTIMESTATE) (st st' : STATICS)
    (sent : list Event) (mon : HMONITOR) (w : HWND) (s : TASKBARSTATE) :
  10 <= counter st ->
  SetTaskbarBlur has_swca cfg o desk r st = returned (r', st', sent) ->
  taskbars r' !! mon = Some (w, s) ->
  (s = WindowMaximised ->
   Config.DYNAMIC_WS cfg = true
   /\ exists window : Window,
        In window (passing cfg o (top_level desk) (cache_hits r)
                           (blacklist_cache st))
        /\ monitor window = mon
        /\ In window (top_level desk) /\ is_candidate window = true)
  /\ (s = StartMenuOpen ->
      Config.DYNAMIC_START cfg = true /\ IsStartVisible desk = true
      /\ mon = start_monitor desk).
Proof.
  intros Hge Hrun Hl.
  destruct (SetTaskbarBlur_full _ _ _ _ _ _ _ _ _ Hge Hrun)
    as (st1 & toggled & Hfp & _).
  destruct (full_pass_states _ _ _ _ _ _ _ _ Hfp mon w s Hl) as [Hreset Hrest].
  destruct (Config.DYNAMIC_WS cfg && Config.DYNAMIC_NORMAL_ON_PEEK cfg
            && peek_active r) eqn:E3.
  { rewrite (Hreset eq_refl). split; discriminate. }
  destruct (Hrest eq_refl) as [Hstart Hother]. clear Hreset Hrest.
  pose proof (trigger_on_existsb cfg o (top_level desk) (cache_hits r)
                (blacklist_cache st) mon) as Hdec.
  split.
  - intros ->.
    destruct (Config.DYNAMIC_START cfg && IsStartVisible desk) eqn:Es.
    + destruct (decide (mon = start_monitor desk)) as [Hm|Hm].
      * specialize (Hstart (conj eq_refl Hm)). discriminate.
      * destruct (Hother ltac:(intros [_ H]; contradiction)) as [_ Hnormal].
        destruct (Config.DYNAMIC_WS cfg) eqn:Ews;
          [|exfalso; now discriminate Hnormal; intros [H _]].
        split; [reflexivity|].
        destruct (existsb (fun window => monitor window =? mon)
                    (passing cfg o (top_level desk) (cache_hits r)
                       (blacklist_cache st))) eqn:Eex.
        -- destruct (proj2 Hdec eq_refl) as (window & Hin & Hmon).
           exists window. split; [exact Hin|]. split; [exact Hmon|].
           eapply passing_candidate. exact Hin.
        -- exfalso. discriminate Hnormal. intros [_ H]. apply Hdec in H.
           congruence.
    + destruct (Hother ltac:(intros [H _]; discriminate)) as [_ Hnormal].
      destruct (Config.DYNAMIC_WS cfg) eqn:Ews;
        [|exfalso; now discriminate Hnormal; intros [H _]].
      split; [reflexivity|].
      destruct (existsb (fun window => monitor window =? mon)
                  (passing cfg o (top_level desk) (cache_hits r)
                     (blacklist_cache st))) eqn:Eex.
      * destruct (proj2 Hdec eq_refl) as (window & Hin & Hmon).
        exists window. split; [exact Hin|]. split; [exact Hmon|].
        eapply passing_candidate. exact Hin.
      * exfalso. discriminate Hnormal. intros [_ H]. apply Hdec in H.
        congruence.
  - intros ->.
    destruct (Config.DYNAMIC_START cfg && IsStartVisible desk) eqn:Es.
    + apply andb_true_iff in Es. destruct Es as [Hs Hv].
      split; [exact Hs|]. split; [exact Hv|].
      destruct (decide (mon = start_monitor desk)) as [Hm|Hm]; [exact Hm|].
      exfalso.
      destruct (Hother ltac:(intros [_ H]; contradiction)) as [Hmax Hnormal].
      destruct (Config.DYNAMIC_WS cfg) eqn:Ews.
      * destruct (existsb (fun window => monitor window =? mon)
                    (passing cfg o (top_level desk) (cache_hits r)
                       (blacklist_cache st))) eqn:Eex.
        -- discriminate Hmax. split; [reflexivity | now apply Hdec].
        -- discriminate Hnormal. intros [_ H]. apply Hdec in H. congruence.
      * discriminate Hnormal. intros [H _]. discriminate.
    + exfalso.
      destruct (Hother ltac:(intros [H _]; discriminate)) as [Hmax Hnormal].
      destruct (Config.DYNAMIC_WS cfg) eqn:Ews.
      * destruct (existsb (fun window => monitor window =? mon)
                    (passing cfg o (top_level desk) (cache_hits r)
                       (blacklist_cache st))) eqn:Eex.
        -- discriminate Hmax. split; [reflexivity | now apply Hdec].
        -- discriminate Hnormal. intros [_ H]. apply Hdec in H. congruence.
      * discriminate Hnormal. intros [H _]. discriminate.
Qed.

Lemma states_have_their_cause_witness :
  In notepad (passing some_config no_rules (top_level maximised_desktop)
                      (cache_hits sample_run) (blacklist_cache statics_initial))
  /\ ~ In notepad (passing some_config some_rules (top_level maximised_desktop)
                           (cache_hits sample_run)
                           (blacklist_cache statics_initial)).
Proof.
  split; [|vm_compute; tauto].
  destruct (SetTaskbarBlur true some_config no_rules maximised_desktop
              sample_run statics_initial) as [[[r' st'] sent]|thrown] eqn:E.
  - assert (Hl : taskbars r' !! 1 = Some (100, WindowMaximised)).
    { vm_compute in E. injection E as <- _ _. vm_compute. reflexivity. }
    destruct (states_have_their_cause true some_config no_rules
                maximised_desktop sample_run r' statics_initial st' sent
                1 100 WindowMaximised ltac:(vm_compute; congruence) E Hl)
      as [H _].
    destruct (H eq_refl) as (_ & window & Hin & _ & [<-|[]] & _).
    exact Hin.
  - exfalso. vm_compute in E. discriminate.
Defined.

(** X7.  What a full pass decides about the peek button, and that it acts
    on it.  With [PEEK] enabled the button is to be shown, with [PEEK]
    disabled it is not; with the dynamic mode it is to be shown only if
    some window that is visible, maximised, not cloaked and on the current
    desktop sits on a monitor whose taskbar is the primary one.  After the
    pass the cache of [TogglePeek] holds that decision for the primary
    taskbar. *)
Theorem peek_decision_of_full_pass (has_swca : bool) (cfg : Config.t)
    (o : OPTIONS) (desk : Desktop) (r r' : RUNTIMESTATE) (st st' : STATICS)
    (sent : list Event) :
  10 <= counter st ->
  SetTaskbarBlur has_swca cfg o desk r st = returned (r', st', sent) ->
  (Config.PEEK cfg = Config.PEEK.Enabled -> should_show_peek r' = true)
  /\ (Config.PEEK cfg = Config.PEEK.Disabled -> should_show_peek r' = false)
  /\ (Config.PEEK cfg = Config.PEEK.Dynamic ->
      should_show_peek r' = true ->
      exists (window : Window) (s : TASKBARSTATE),
        In window (top_level desk) /\ is_candidate window = true
        /\ taskbars r !! monitor window = Some (main_taskbar r, s))
  /\ peek_cache st' = Some (should_show_peek r', main_taskbar r).
Proof.
  intros Hge Hrun.
  destruct (SetTaskbarBlur_full _ _ _ _ _ _ _ _ _ Hge Hrun)
    as (st1 & toggled & Hfp & Hpc & _).
  destruct (full_pass_inv _ _ _ _ _ _ _ _ Hfp)
    as (Hpeek & Henabled & Hcache & _).
  split; [exact Henabled|]. split; [|split].
  - intros Hd. destruct (should_show_peek r') eqn:E; [|reflexivity].
    destruct (Hpeek eq_refl) as [H|[H _]]; congruence.
  - intros Hd Hs. destruct (Hpeek Hs) as [H|(_ & window & Hin & Hc & Hl)];
      [congruence|].
    destruct (taskbars r !! monitor window) as [[w s]|] eqn:El;
      [|discriminate].
    exists window, s. split; [exact Hin|]. split; [exact Hc|].
    cbn in Hl. congruence.
  - now rewrite Hpc.
Qed.

Lemma peek_decision_of_full_pass_witness :
  exists (r' : RUNTIMESTATE) (st' : STATICS) (sent : list Event),
    SetTaskbarBlur true some_config no_rules stray_start_desktop
      (with_taskbars (<[9 := (900, Normal)]> (taskbars sample_run)) sample_run)
      statics_initial = returned (r', st', sent)
    /\ peek_cache st' = Some (should_show_peek r', 100).
Proof.
  destruct (SetTaskbarBlur true some_config no_rules stray_start_desktop
      (with_taskbars (<[9 := (900, Normal)]> (taskbars sample_run)) sample_run)
      statics_initial) as [[[r' st'] sent]|] eqn:E.
  - exists r', st', sent. split; [reflexivity|].
    destruct (peek_decision_of_full_pass true some_config no_rules
                stray_start_desktop _ r' statics_initial st' sent
                ltac:(vm_compute; congruence) E) as (_ & _ & _ & H).
    exact H.
  - exfalso. vm_compute in E. discriminate.
Defined.

(** ** The cadence of the full passes *)

Lemma SetTaskbarBlur_between (has_swca : bool) (cfg : Config.t) (o : OPTIONS)
    (desk desk' : Desktop) (r : RUNTIMESTATE) (st : STATICS) :
  counter st < 10 ->
  SetTaskbarBlur has_swca cfg o desk r st
  = SetTaskbarBlur has_swca cfg o desk' r st.
Proof.
  intros Hlt. unfold SetTaskbarBlur.
  replace (counter st >=? 10) with false
    by (rewrite Z.geb_leb; symmetry; apply Z.leb_gt; lia).
  reflexivity.
Qed.

Lemma SetTaskbarBlur_counter (has_swca : bool) (cfg : Config.t) (o : OPTIONS)
    (desk : Desktop) (r r' : RUNTIMESTATE) (st st' : STATICS)
    (sent : list Event) :
  SetTaskbarBlur has_swca cfg o desk r st = returned (r', st', sent) ->
  counter st' = if 10 <=? counter st then 1 else counter st + 1.
Proof.
  intros Hrun. destruct (Z.leb_spec 10 (counter st)) as [Hge|Hlt].
  - destruct (SetTaskbarBlur_full _ _ _ _ _ _ _ _ _ Hge Hrun)
      as (_ & _ & _ & _ & _ & Hc & _). exact Hc.
  - unfold SetTaskbarBlur in Hrun.
    replace (counter st >=? 10) with false in Hrun
      by (rewrite Z.geb_leb; symmetry; apply Z.leb_gt; lia).
    cbn [mbind option_bind] in Hrun.
    destruct (blur_each has_swca (accent_for cfg) (map_to_list (taskbars r))
                (is_normal st)) as [memo accents].
    assert (st' = mkSTATICS memo (peek_cache st) (blacklist_cache st)
                            (counter st + 1)) as -> by congruence.
    reflexivity.
Qed.

(** X8.  The desktop is looked at on every tenth tick only.  With the
    counter between 1 and 10, two runs of ticks over desktops that agree
    at the ticks that fall on a full pass (those at which the counter has
    come back to 10) end alike, whatever the desktops are in between; and
    after the ticks the counter is again between 1 and 10, advanced by
    their number. *)
Theorem desktop_sampled_every_tenth_tick (has_swca : bool) (cfg : Config.t)
    (o : OPTIONS) (desks desks' : list Desktop) (r : RUNTIMESTATE)
    (st : STATICS) :
  1 <= counter st <= 10 ->
  length desks = length desks' ->
  (forall k : nat,
     (counter st + Z.of_nat k) mod 10 = 0 -> desks !! k = desks' !! k) ->
  ticks has_swca cfg o desks r st = ticks has_swca cfg o desks' r st
  /\ forall (r' : RUNTIMESTATE) (st' : STATICS) (sent : list Event),
       ticks has_swca cfg o desks r st = returned (r', st', sent) ->
       counter st' = (counter st - 1 + Z.of_nat (length desks)) mod 10 + 1.
Proof.
  revert desks' r st.
  induction desks as [|desk rest IH]; intros desks' r st Hc Hlen Hagree.
  - destruct desks'; [|discriminate]. split; [reflexivity|].
    intros r' st' sent H. cbn [ticks] in H.
    assert (st' = st) as -> by congruence.
    cbn [length]. rewrite Z.add_0_r, Z.mod_small by lia. lia.
  - destruct desks' as [|desk' rest']; [discriminate|].
    cbn [length] in Hlen. injection Hlen as Hlen.
    assert (Hfirst : SetTaskbarBlur has_swca cfg o desk r st
                     = SetTaskbarBlur has_swca cfg o desk' r st).
    { destruct (Z.eq_dec (counter st) 10) as [H10|Hn10].
      - specialize (Hagree 0%nat). cbn in Hagree.
        rewrite H10 in Hagree. specialize (Hagree eq_refl).
        now injection Hagree as ->.
      - apply SetTaskbarBlur_between. lia. }
    cbn [ticks]. rewrite <- Hfirst.
    destruct (SetTaskbarBlur has_swca cfg o desk r st)
      as [[[r1 st1] sent1]|] eqn:E1; cbn [mbind option_bind];
      [|split; [reflexivity | discriminate]].
    pose proof (SetTaskbarBlur_counter _ _ _ _ _ _ _ _ _ E1) as Hc1.
    assert (Hc1' : 1 <= counter st1 <= 10
                   /\ (counter st1 - (counter st + 1)) mod 10 = 0).
    { rewrite Hc1. destruct (Z.leb_spec 10 (counter st)).
      - assert (counter st = 10) as -> by lia. split; [lia | reflexivity].
      - split; [lia|]. now rewrite Z.sub_diag. }
    destruct Hc1' as [Hr1 Hmod].
    destruct (IH rest' r1 st1 Hr1 Hlen) as [IHeq IHc].
    { intros k Hk. apply (Hagree (S k)).
      rewrite Nat2Z.inj_succ.
      replace (counter st + Z.succ (Z.of_nat k))
        with (counter st1 + Z.of_nat k - (counter st1 - (counter st + 1)))
        by lia.
      rewrite Zminus_mod, Hk, Hmod. reflexivity. }
    rewrite <- IHeq. split; [reflexivity|].
    intros r' st' sent H.
    destruct (ticks has_swca cfg o rest r1 st1) as [[[r2 st2] sent2]|] eqn:E2;
      cbn [mbind option_bind] in H; [|discriminate].
    assert (st' = st2) as -> by congruence.
    rewrite (IHc _ _ _ eq_refl). cbn [length]. rewrite Nat2Z.inj_succ.
    f_equal.
    replace (counter st - 1 + Z.succ (Z.of_nat (length rest)))
      with (counter st1 - 1 + Z.of_nat (length rest)
            - (counter st1 - (counter st + 1))) by lia.
    rewrite Zminus_mod, Hmod, Z.sub_0_r. now rewrite Z.mod_mod.
Qed.

Lemma desktop_sampled_every_tenth_tick_witness :
  ticks true some_config no_rules [sample_desktop; stray_desktop]
        sample_run statics_initial
  = ticks true some_config no_rules [sample_desktop; maximised_desktop]
          sample_run statics_initial.
Proof.
  apply (desktop_sampled_every_tenth_tick true some_config no_rules
           [sample_desktop; stray_desktop] [sample_desktop; maximised_desktop]
           sample_run statics_initial).
  - vm_compute. split; congruence.
  - reflexivity.
  - intros k Hk. destruct k as [|[|k]];
      [reflexivity | vm_compute in Hk; discriminate | reflexivity].
Defined.

(** ** The applier, tick after tick *)

Lemma SetWindowBlur_memo (window w : HWND) (appearance : ACCENT) (color : Z)
    (memo : gmap HWND bool) :
  (SetWindowBlur true window appearance color memo).1 !! w
  = if decide (window = w)
    then Some (ACCENT_eqb appearance ACCENT_NORMAL)
    else memo !! w.
Proof.
  destruct (ACCENT_eqb appearance ACCENT_NORMAL) eqn:En.
  - apply ACCENT_eqb_eq in En. subst appearance.
    apply SetWindowBlur_normal_memo.
  - rewrite SetWindowBlur_not_normal
      by (intros ->; discriminate).
    cbn [fst]. destruct (decide (window = w)) as [->|Hne].
    + apply lookup_insert_eq.
    + now apply lookup_insert_ne.
Qed.

Lemma blur_each_memo_elsewhere (args : TASKBARSTATE -> ACCENT * Z)
    (entries : list (HMONITOR * (HWND * TASKBARSTATE))) (memo : gmap HWND bool)
    (w : HWND) :
  w ∉ entries.*2.*1 ->
  (blur_each true args entries memo).1 !! w = memo !! w.
Proof.
  revert memo. induction entries as [|[mon [window s]] rest IH]; intros memo Hn.
  - reflexivity.
  - change (((mon, (window, s)) :: rest).*2.*1) with (window :: rest.*2.*1) in Hn.
    apply not_elem_of_cons in Hn. destruct Hn as [Hne Hn].
    cbn [blur_each].
    pose proof (SetWindowBlur_memo window w (args s).1 (args s).2 memo) as H1.
    destruct (SetWindowBlur true window (args s).1 (args s).2 memo)
      as [memo1 sent1].
    specialize (IH memo1 Hn).
    destruct (blur_each true args rest memo1) as [memo2 sent2].
    cbn [fst] in *. rewrite IH, H1. now rewrite decide_False by congruence.
Qed.

Lemma blur_each_memo_entries (args : TASKBARSTATE -> ACCENT * Z)
    (entries : list (HMONITOR * (HWND * TASKBARSTATE))) (memo : gmap HWND bool) :
  NoDup (entries.*2.*1) ->
  forall (mon : HMONITOR) (w : HWND) (s : TASKBARSTATE),
    In (mon, (w, s)) entries ->
    (blur_each true args entries memo).1 !! w
    = Some (ACCENT_eqb (args s).1 ACCENT_NORMAL).
Proof.
  revert memo. induction entries as [|[mon' [window s']] rest IH];
    intros memo Hnd mon w s Hin; [destruct Hin|].
  change (((mon', (window, s')) :: rest).*2.*1) with (window :: rest.*2.*1) in Hnd.
  apply NoDup_cons in Hnd. destruct Hnd as [Hfresh Hnd].
  pose proof (blur_each_memo_elsewhere args rest) as Hels.
  cbn [blur_each].
  pose proof (SetWindowBlur_memo window window (args s').1 (args s').2 memo)
    as H1.
  rewrite decide_True in H1 by reflexivity.
  destruct (SetWindowBlur true window (args s').1 (args s').2 memo)
    as [memo1 sent1].
  specialize (IH memo1 Hnd). specialize (Hels memo1).
  destruct (blur_each true args rest memo1) as [memo2 sent2].
  cbn [fst] in *. destruct Hin as [Heq|Hin].
  - assert (window = w /\ s' = s) as [-> ->] by (split; congruence).
    rewrite Hels by exact Hfresh. exact H1.
  - eapply IH. exact Hin.
Qed.

Lemma blur_each_settled (args : TASKBARSTATE -> ACCENT * Z)
    (entries : list (HMONITOR * (HWND * TASKBARSTATE))) (memo : gmap HWND bool) :
  (forall (mon : HMONITOR) (w : HWND) (s : TASKBARSTATE),
     In (mon, (w, s)) entries ->
     memo !! w = Some (ACCENT_eqb (args s).1 ACCENT_NORMAL)) ->
  blur_each true args entries memo = (memo, submissions args entries).
Proof.
  induction entries as [|[mon [window s]] rest IH]; intros Hagree;
    [reflexivity|].
  cbn [blur_each submissions].
  assert (Hw := Hagree mon window s (or_introl eq_refl)).
  assert (H1 : SetWindowBlur true window (args s).1 (args s).2 memo
               = (memo,
                  if ACCENT_eqb (args s).1 ACCENT_NORMAL then []
                  else [SetWindowCompositionAttribute window
                          (policy_for (args s).1 (args s).2)])).
  { destruct (ACCENT_eqb (args s).1 ACCENT_NORMAL) eqn:En.
    - apply ACCENT_eqb_eq in En. rewrite En, SetWindowBlur_normal.
      unfold not_yet_normal. rewrite Hw. reflexivity.
    - rewrite SetWindowBlur_not_normal
        by (intros Hc; rewrite Hc in En; discriminate).
      rewrite insert_id by exact Hw. reflexivity. }
  rewrite H1, IH by (intros mon' w' s' Hin; eapply Hagree; right; exact Hin).
  reflexivity.
Qed.

Lemma theme_resets_submissions (args : TASKBARSTATE -> ACCENT * Z)
    (entries : list (HMONITOR * (HWND * TASKBARSTATE))) (w : HWND) :
  theme_resets w (submissions args entries) = 0%nat.
Proof.
  induction entries as [|[mon [window s]] rest IH]; [reflexivity|].
  cbn [submissions]. rewrite theme_resets_app, IH.
  now destruct (ACCENT_eqb (args s).1 ACCENT_NORMAL).
Qed.

Lemma SetTaskbarBlur_memo (has_swca : bool) (cfg : Config.t) (o : OPTIONS)
    (desk : Desktop) (r r' : RUNTIMESTATE) (st st' : STATICS)
    (sent : list Event) :
  SetTaskbarBlur has_swca cfg o desk r st = returned (r', st', sent) ->
  is_normal st'
  = (blur_each has_swca (accent_for cfg) (map_to_list (taskbars r'))
       (is_normal st)).1.
Proof.
  unfold SetTaskbarBlur.
  destruct (counter st >=? 10).
  - pose proof (full_pass_cases cfg o desk r st) as Hc.
    destruct (full_pass cfg o desk r st) as [[[r1 st1] toggled]|];
      cbn [mbind option_bind]; [|discriminate].
    destruct Hc as (_ & _ & Hmemo & _). rewrite Hmemo.
    destruct (blur_each has_swca (accent_for cfg) (map_to_list (taskbars r1))
                (is_normal st)) as [memo accents] eqn:Eb.
    intros H. assert (r' = r1) as -> by congruence.
    assert (st' = mkSTATICS memo (peek_cache st1) (blacklist_cache st1)
                            (counter st1 + 1)) as -> by congruence.
    rewrite Eb. reflexivity.
  - cbn [mbind option_bind].
    destruct (blur_each has_swca (accent_for cfg) (map_to_list (taskbars r))
                (is_normal st)) as [memo accents] eqn:Eb.
    intros H. assert (r' = r) as -> by congruence.
    assert (st' = mkSTATICS memo (peek_cache st) (blacklist_cache st)
                            (counter st + 1)) as -> by congruence.
    rewrite Eb. reflexivity.
Qed.

(** X9.  A tick that follows a tick without a full pass in between repeats
    nothing but the submissions: when no two entries of the registry hold
    the same window, the second tick leaves [run] and the memo as they are,
    sends one policy for every taskbar whose accent is not the normal one,
    in the order of the registry, and sends [WM_THEMECHANGED] to no window. *)
Theorem second_tick_only_resubmits (cfg : Config.t) (o : OPTIONS)
    (desk desk' : Desktop) (r r1 : RUNTIMESTATE) (st st1 : STATICS)
    (sent1 : list Event) :
  SetTaskbarBlur true cfg o desk r st = returned (r1, st1, sent1) ->
  counter st1 < 10 ->
  NoDup ((map_to_list (taskbars r1)).*2.*1) ->
  SetTaskbarBlur true cfg o desk' r1 st1
  = returned (r1,
          mkSTATICS (is_normal st1) (peek_cache st1) (blacklist_cache st1)
                    (counter st1 + 1),
          submissions (accent_for cfg) (map_to_list (taskbars r1)))
  /\ forall w : HWND,
       theme_resets w (submissions (accent_for cfg) (map_to_list (taskbars r1)))
       = 0%nat.
Proof.
  intros Hrun Hlt Hnd. split; [|intros w; apply theme_resets_submissions].
  pose proof (SetTaskbarBlur_memo _ _ _ _ _ _ _ _ _ Hrun) as Hmemo.
  unfold SetTaskbarBlur.
  replace (counter st1 >=? 10) with false
    by (rewrite Z.geb_leb; symmetry; apply Z.leb_gt; lia).
  cbn [mbind option_bind].
  rewrite blur_each_settled; [reflexivity|].
  intros mon w s Hin. rewrite Hmemo.
  eapply blur_each_memo_entries; eassumption.
Qed.

Lemma second_tick_only_resubmits_witness :
  exists (r1 : RUNTIMESTATE) (st1 : STATICS) (sent1 : list Event),
    SetTaskbarBlur true some_config no_rules sample_desktop sample_run
                   statics_initial = returned (r1, st1, sent1)
    /\ snd <$> SetTaskbarBlur true some_config no_rules stray_desktop r1 st1
       = returned [ SetWindowCompositionAttribute 200
                  (mkPolicy ACCENT_ENABLE_BLURBEHIND 2 0x80000000 0) ].
Proof.
  destruct (SetTaskbarBlur true some_config no_rules sample_desktop sample_run
              statics_initial) as [[[r1 st1] sent1]|] eqn:E.
  - exists r1, st1, sent1. split; [reflexivity|].
    pose proof E as E'. vm_compute in E'. injection E' as <- <- <-.
    match type of E with
    | _ = returned (?r1, ?st1, ?s1) =>
        assert (Hlt : counter st1 < 10) by (vm_compute; reflexivity);
        assert (Hnd : NoDup ((map_to_list (taskbars r1)).*2.*1))
          by (apply (bool_decide_unpack _); vm_compute; exact I);
        destruct (second_tick_only_resubmits some_config no_rules
                    sample_desktop stray_desktop sample_run r1
                    statics_initial st1 s1 E Hlt Hnd) as [H _]
    end.
    rewrite H. vm_compute. reflexivity.
  - exfalso. vm_compute in E. discriminate.
Defined.

(** ** What a tick sends *)

Lemma fluent_color_range (x : Z) : 0 <= x -> 0 <= fluent_color x < 2 ^ 32.
Proof.
  intros Hx. destruct (fluent_color_bytes x Hx) as (Heq & _).
  rewrite Heq. change 0x00FFFFFF with (Z.ones 24).
  rewrite Z.land_ones by lia.
  pose proof (Z.mod_pos_bound x (2 ^ 24) ltac:(lia)). lia.
Qed.

Lemma policy_for_fields (appearance : ACCENT) (color : Z) :
  nAccentState (policy_for appearance color) = appearance
  /\ nFlags (policy_for appearance color) = 2
  /\ nAnimationId (policy_for appearance color) = 0
  /\ 0 <= nColor (policy_for appearance color) < 2 ^ 32.
Proof.
  unfold policy_for. cbn [nAccentState nFlags nAnimationId nColor].
  repeat (split; [reflexivity|]).
  assert (Hp : 0 <= policy_color color < 2 ^ 32)
    by (rewrite policy_color_abgr; apply abgr_of_argb_range).
  destruct (_ && _); [apply fluent_color_range; lia | exact Hp].
Qed.

Lemma blur_each_events (has_swca : bool) (args : TASKBARSTATE -> ACCENT * Z)
    (entries : list (HMONITOR * (HWND * TASKBARSTATE))) (memo : gmap HWND bool)
    (e : Event) :
  In e (blur_each has_swca args entries memo).2 ->
  exists (mon : HMONITOR) (w : HWND) (s : TASKBARSTATE),
    In (mon, (w, s)) entries
    /\ ((args s).1 <> ACCENT_NORMAL
        /\ e = SetWindowCompositionAttribute w (policy_for (args s).1 (args s).2)
        \/ (args s).1 = ACCENT_NORMAL /\ e = send_message w WM_THEMECHANGED).
Proof.
  destruct has_swca; [|rewrite blur_each_without_swca; intros []].
  revert memo. induction entries as [|[mon [window s]] rest IH]; intros memo Hin;
    [destruct Hin|].
  cbn [blur_each] in Hin.
  destruct (SetWindowBlur true window (args s).1 (args s).2 memo)
    as [memo1 sent1] eqn:E1.
  specialize (IH memo1).
  destruct (blur_each true args rest memo1) as [memo2 sent2].
  cbn [snd] in *. apply in_app_or in Hin. destruct Hin as [Hin|Hin].
  - exists mon, window, s. split; [now left|].
    destruct (ACCENT_eqb (args s).1 ACCENT_NORMAL) eqn:En.
    + apply ACCENT_eqb_eq in En. right. split; [exact En|].
      rewrite En, SetWindowBlur_normal in E1.
      destruct (not_yet_normal memo window).
      * assert (sent1 = [send_message window WM_THEMECHANGED]) as ->
          by congruence.
        destruct Hin as [<-|[]]. reflexivity.
      * assert (sent1 = []) as -> by congruence. destruct Hin.
    + assert (Hne : (args s).1 <> ACCENT_NORMAL)
        by (intros Hc; rewrite Hc in En; discriminate).
      left. split; [exact Hne|].
      rewrite SetWindowBlur_not_normal in E1 by exact Hne.
      assert (sent1 = [SetWindowCompositionAttribute window
                         (policy_for (args s).1 (args s).2)]) as ->
        by (unfold policy_for; congruence).
      destruct Hin as [<-|[]]. reflexivity.
  - destruct (IH Hin) as (mon' & w' & s' & Hin' & H).
    exists mon', w', s'. split; [now right | exact H].
Qed.

(** X10.  Everything a tick sends follows the table of [SetTaskbarBlur].
    A policy goes only to a taskbar of the registry whose state maps to an
    accent other than the normal one, and it is the policy of that accent
    and colour, with flags 2, animation 0 and a 32-bit colour: the normal
    accent is never handed to the accent API.  [WM_THEMECHANGED] goes only
    to a taskbar of the registry whose state maps to the normal accent.
    The peek button is shown or hidden only on a full pass, as
    [should_show_peek] says, and [WM_LBUTTONUP] goes only to the overflow
    button of the primary taskbar. *)
Theorem tick_sends_what_the_table_says (has_swca : bool) (cfg : Config.t)
    (o : OPTIONS) (desk : Desktop) (r r' : RUNTIMESTATE) (st st' : STATICS)
    (sent : list Event) :
  SetTaskbarBlur has_swca cfg o desk r st = returned (r', st', sent) ->
  (forall (w : HWND) (policy : ACCENTPOLICY),
     In (SetWindowCompositionAttribute w policy) sent ->
     has_swca = true
     /\ exists (mon : HMONITOR) (s : TASKBARSTATE),
          taskbars r' !! mon = Some (w, s)
          /\ (accent_for cfg s).1 <> ACCENT_NORMAL
          /\ policy = policy_for (accent_for cfg s).1 (accent_for cfg s).2
          /\ nAccentState policy = (accent_for cfg s).1
          /\ nFlags policy = 2 /\ nAnimationId policy = 0
          /\ 0 <= nColor policy < 2 ^ 32)
  /\ (forall w : HWND,
        In (send_message w WM_THEMECHANGED) sent ->
        exists (mon : HMONITOR) (s : TASKBARSTATE),
          taskbars r' !! mon = Some (w, s)
          /\ (accent_for cfg s).1 = ACCENT_NORMAL)
  /\ (forall (w : HWND) (cmd : Z),
        In (show w cmd) sent ->
        10 <= counter st
        /\ w = peek_button desk (main_taskbar r)
        /\ cmd = if should_show_peek r' then SW_SHOWNORMAL else SW_HIDE)
  /\ (forall (w : HWND) (msg : Z),
        In (send_message w msg) sent ->
        msg = WM_THEMECHANGED
        \/ (msg = WM_LBUTTONUP /\ 10 <= counter st
            /\ w = overflow_button desk (main_taskbar r))).
Proof.
  intros Hrun.
  pose proof (SetTaskbarBlur_cases has_swca cfg o desk r st) as Hc.
  rewrite Hrun in Hc. destruct Hc as (_ & Hbetween & _ & toggled & Hsent).
  assert (Htoggled :
    forall e, In e toggled ->
      10 <= counter st
      /\ (e = show (peek_button desk (main_taskbar r))
                   (if should_show_peek r' then SW_SHOWNORMAL else SW_HIDE)
          \/ e = send_message (overflow_button desk (main_taskbar r))
                              WM_LBUTTONUP)).
  { intros e He.
    destruct (Z.le_gt_cases 10 (counter st)) as [Hge|Hlt].
    - split; [exact Hge|].
      destruct (SetTaskbarBlur_full _ _ _ _ _ _ _ _ _ Hge Hrun)
        as (st1 & toggled' & Hfp & _ & _ & _ & Hsent').
      assert (toggled' = toggled) as ->.
      { rewrite Hsent in Hsent'. now apply app_inv_tail in Hsent'. }
      destruct (full_pass_inv _ _ _ _ _ _ _ _ Hfp) as (_ & _ & _ & Ht & _).
      rewrite Ht, TogglePeek_cases in He.
      case_bool_decide; cbn [snd] in He; [destruct He|].
      destruct He as [<-|[<-|[<-|[]]]]; auto.
    - exfalso. unfold SetTaskbarBlur in Hrun.
      replace (counter st >=? 10) with false in Hrun
        by (rewrite Z.geb_leb; symmetry; apply Z.leb_gt; lia).
      cbn [mbind option_bind] in Hrun.
      destruct (blur_each has_swca (accent_for cfg) (map_to_list (taskbars r))
                  (is_normal st)) as [memo accents] eqn:Eb.
      cbn [app] in Hrun.
      assert (Hs : sent = accents) by congruence.
      assert (r' = r) as -> by congruence.
      rewrite Eb in Hsent. cbn [snd] in Hsent. rewrite Hs in Hsent.
      assert (toggled = []) as ->.
      { apply (f_equal (@length Event)) in Hsent.
        rewrite length_app in Hsent. destruct toggled; [reflexivity|].
        cbn in Hsent. lia. }
      destruct He. }
  assert (Haccents :
    forall e,
      In e (blur_each has_swca (accent_for cfg) (map_to_list (taskbars r'))
              (is_normal st)).2 ->
      exists (mon : HMONITOR) (w : HWND) (s : TASKBARSTATE),
        taskbars r' !! mon = Some (w, s)
        /\ ((accent_for cfg s).1 <> ACCENT_NORMAL
            /\ e = SetWindowCompositionAttribute w
                     (policy_for (accent_for cfg s).1 (accent_for cfg s).2)
            \/ (accent_for cfg s).1 = ACCENT_NORMAL
               /\ e = send_message w WM_THEMECHANGED)).
  { intros e He. apply blur_each_events in He.
    destruct He as (mon & w & s & Hin & H). exists mon, w, s.
    split; [|exact H]. apply elem_of_map_to_list. now apply list_elem_of_In. }
  assert (Hswca :
    forall e,
      In e (blur_each has_swca (accent_for cfg) (map_to_list (taskbars r'))
              (is_normal st)).2 -> has_swca = true).
  { intros e He. destruct has_swca; [reflexivity|].
    rewrite blur_each_without_swca in He. destruct He. }
  rewrite Hsent. split; [|split; [|split]].
  - intros w policy Hin. apply in_app_or in Hin. destruct Hin as [Hin|Hin].
    + destruct (Htoggled _ Hin) as (_ & [H|H]); discriminate.
    + split; [eapply Hswca; exact Hin|].
      destruct (Haccents _ Hin) as (mon & w' & s & Hl & [[Hne He]|[_ He]]);
        [|discriminate].
      assert (w' = w /\ policy = policy_for (accent_for cfg s).1
                                            (accent_for cfg s).2)
        as [-> ->] by (split; congruence).
      exists mon, s. split; [exact Hl|]. split; [exact Hne|].
      split; [reflexivity|].
      destruct (policy_for_fields (accent_for cfg s).1 (accent_for cfg s).2)
        as (H1 & H2 & H3 & H4). auto.
  - intros w Hin. apply in_app_or in Hin. destruct Hin as [Hin|Hin].
    + destruct (Htoggled _ Hin) as (_ & [H|H]); discriminate.
    + destruct (Haccents _ Hin) as (mon & w' & s & Hl & [[_ He]|[Hn He]]);
        [discriminate|].
      assert (w' = w) as -> by congruence. eauto.
  - intros w cmd Hin. apply in_app_or in Hin. destruct Hin as [Hin|Hin].
    + destruct (Htoggled _ Hin) as (Hge & [H|H]); [|discriminate].
      split; [exact Hge|]. split; congruence.
    + destruct (Haccents _ Hin) as (mon & w' & s & Hl & [[_ He]|[_ He]]);
        discriminate.
  - intros w msg Hin. apply in_app_or in Hin. destruct Hin as [Hin|Hin].
    + destruct (Htoggled _ Hin) as (Hge & [H|H]); [discriminate|].
      right. split; [congruence|]. split; [exact Hge | congruence].
    + destruct (Haccents _ Hin) as (mon & w' & s & Hl & [[_ He]|[_ He]]);
        [discriminate|].
      left. congruence.
Qed.

Lemma tick_sends_what_the_table_says_witness :
  exists (r' : RUNTIMESTATE) (st' : STATICS) (sent : list Event),
    SetTaskbarBlur true some_config no_rules sample_desktop sample_run
                   statics_initial = returned (r', st', sent)
    /\ forall (w : HWND) (policy : ACCENTPOLICY),
         In (SetWindowCompositionAttribute w policy) sent ->
         nAccentState policy <> ACCENT_NORMAL /\ nFlags policy = 2.
Proof.
  destruct (SetTaskbarBlur true some_config no_rules sample_desktop sample_run
              statics_initial) as [[[r' st'] sent]|] eqn:E.
  - exists r', st', sent. split; [reflexivity|].
    intros w policy Hin.
    destruct (tick_sends_what_the_table_says true some_config no_rules
                sample_desktop sample_run r' statics_initial st' sent E)
      as (H & _).
    destruct (H w policy Hin) as (_ & mon & s & _ & Hne & _ & Hst & Hf & _).
    split; [congruence | exact Hf].
  - exfalso. vm_compute in E. discriminate.
Defined.

(** ** Leaving the loop *)

Lemma dispatched_shutdown (i : Input) (m : Machine) (msg : Message) :
  message i = Some msg -> is_shutdown msg = true ->
  (dispatched i m).1 = stop_running (reason_of msg) (run m)
  /\ (dispatched i m).2 = opt m.
Proof.
  intros Hm Hs. unfold dispatched. rewrite Hm.
  destruct msg; try discriminate; split; reflexivity.
Qed.

Lemma dispatched_keeps_running (i : Input) (m : Machine) :
  (forall msg, message i = Some msg -> is_shutdown msg = false) ->
  is_running (dispatched i m).1 = is_running (run m)
  /\ exit_reason (dispatched i m).1 = exit_reason (run m).
Proof.
  intros Hno. unfold dispatched. destruct (message i) as [msg|];
    [|split; reflexivity].
  specialize (Hno msg eq_refl).
  destruct msg; try discriminate; split; reflexivity.
Qed.

(** What has gone to the shell when the exception leaves a full pass:
    nothing when it comes in the enumeration; what [TogglePeek] sent, three
    events or none, when it comes at the lookup for the Start menu. *)
Lemma full_pass_thrown (cfg : Config.t) (o : OPTIONS) (desk : Desktop)
    (r : RUNTIMESTATE) (st : STATICS) (before : list Event) :
  full_pass cfg o desk r st = out_of_range before ->
  before = []
  \/ exists status : bool,
       before = [ show (peek_button desk (main_taskbar r))
                       (if status then SW_SHOWNORMAL else SW_HIDE);
                  send_message (overflow_button desk (main_taskbar r))
                               WM_LBUTTONUP;
                  send_message (overflow_button desk (main_taskbar r))
                               WM_LBUTTONUP ].
Proof.
  unfold full_pass.
  set (r0 := with_should_show_peek _ r).
  set (r1 := with_taskbars (reset_states (taskbars r0)) r0).
  set (enumerate := Config.DYNAMIC_WS cfg
                    || Config.PEEK.eqb (Config.PEEK cfg) Config.PEEK.Dynamic).
  assert (Hmain : forall r2 c2,
    (if enumerate
     then EnumWindows cfg o (top_level desk) (r1, blacklist_cache st)
     else Some (r1, blacklist_cache st)) = Some (r2, c2) ->
    main_taskbar r2 = main_taskbar r).
  { intros r2 c2 He. destruct enumerate.
    - pose proof (EnumWindows_cases cfg o (top_level desk) r1
                    (blacklist_cache st)) as Hframe.
      rewrite He in Hframe. destruct Hframe as (_ & Hm & _). exact Hm.
    - assert (r2 = r1) as -> by congruence. reflexivity. }
  destruct (if enumerate
            then EnumWindows cfg o (top_level desk) (r1, blacklist_cache st)
            else Some (r1, blacklist_cache st)) as [[r2 c2]|];
    [|intros H; left; congruence].
  rewrite (Hmain r2 c2 eq_refl). clear Hmain.
  rewrite TogglePeek_cases.
  case_bool_decide as Hcached.
  - destruct (Config.DYNAMIC_START cfg && IsStartVisible desk);
      [|discriminate].
    destruct (taskbars r2 !! start_monitor desk); cbn [mbind option_bind];
      [discriminate|].
    intros Hthrown. left. congruence.
  - destruct (Config.DYNAMIC_START cfg && IsStartVisible desk);
      [|discriminate].
    destruct (taskbars r2 !! start_monitor desk); cbn [mbind option_bind];
      [discriminate|].
    intros Hthrown. right. exists (should_show_peek r2). congruence.
Qed.

Lemma iteration_thrown (has_swca : bool) (i : Input) (m : Machine)
    (before : list Event) :
  iteration has_swca i m = out_of_range before ->
  10 <= counter (statics m)
  /\ (before = []
      \/ exists status : bool,
           before
           = [ show (peek_button (desktop i)
                       (main_taskbar (dispatched i m).1))
                    (if status then SW_SHOWNORMAL else SW_HIDE);
               send_message (overflow_button (desktop i)
                               (main_taskbar (dispatched i m).1))
                            WM_LBUTTONUP;
               send_message (overflow_button (desktop i)
                               (main_taskbar (dispatched i m).1))
                            WM_LBUTTONUP ]).
Proof.
  intros Hthrown.
  pose proof (iteration_cases has_swca i m) as Hi.
  rewrite Hthrown in Hi. destruct Hi as [Hge _]. split; [exact Hge|].
  unfold iteration in Hthrown.
  destruct (dispatched i m) as [r o]. cbn [fst].
  unfold SetTaskbarBlur in Hthrown.
  replace (counter (statics m) >=? 10) with true in Hthrown
    by (symmetry; apply Z.geb_le; lia).
  destruct (full_pass (config i) o (desktop i) r (statics m))
    as [[[r1 st1] toggled]|thrown] eqn:Efp.
  - destruct (blur_each has_swca (accent_for (config i))
                (map_to_list (taskbars r1)) (is_normal st1));
      discriminate.
  - assert (thrown = before) as -> by congruence.
    exact (full_pass_thrown _ _ _ _ _ _ Efp).
Qed.

Lemma iteration_thrown_no_accent (has_swca : bool) (i : Input) (m : Machine)
    (before : list Event) :
  iteration has_swca i m = out_of_range before ->
  forall e : Event, In e before -> is_accent_event e = false.
Proof.
  intros Hthrown e He.
  destruct (iteration_thrown _ _ _ _ Hthrown) as [_ [->|[status ->]]];
    [destruct He|].
  destruct He as [<-|[<-|[<-|[]]]]; reflexivity.
Qed.

(** X11.  How the loop ends in the iteration that meets a shutdown
    message.  The tick of that iteration still runs; the inputs after it
    are never looked at.  If the tick completes, the loop is left with the
    exit reason of the message, the block after the loop runs on the
    desktop of that iteration and the exit code is [EXIT_SUCCESS]; after
    [NEW_TTB_INSTANCE] that block sends nothing.  If the tick throws, the
    process ends with [EXIT_SUCCESS] all the same, and the block that
    restores the taskbars has not run.  A tick that throws in an iteration
    without a shutdown message ends the process with [EXIT_FAILURE].  In
    both cases what the tick had sent before the exception has reached the
    shell: nothing, or the three events by which [TogglePeek] shows or
    hides the peek button. *)
Theorem shutdown_in_its_iteration (has_swca : bool) (desk : Desktop)
    (i : Input) (rest : list Input) (m : Machine) (sent : list Event) :
  is_running (run m) = true ->
  (forall msg : Message,
     message i = Some msg -> is_shutdown msg = true ->
     match iteration has_swca i m with
     | returned (m1, sent1) =>
         message_loop has_swca desk (i :: rest) m sent
         = left_loop (restore_default has_swca (desktop i) m1).1
                     ((sent ++ sent1)
                      ++ (restore_default has_swca (desktop i) m1).2)
                     EXIT_SUCCESS
         /\ exit_reason (run (restore_default has_swca (desktop i) m1).1)
            = reason_of msg
         /\ (msg = NEW_TTB_INSTANCE ->
             restore_default has_swca (desktop i) m1 = (m1, []))
     | out_of_range before =>
         message_loop has_swca desk (i :: rest) m sent
         = uncaught (sent ++ before) EXIT_SUCCESS
     end)
  /\ ((forall msg : Message, message i = Some msg -> is_shutdown msg = false) ->
      forall before : list Event,
        iteration has_swca i m = out_of_range before ->
        message_loop has_swca desk (i :: rest) m sent
        = uncaught (sent ++ before) EXIT_FAILURE)
  /\ (forall before : list Event,
        iteration has_swca i m = out_of_range before ->
        10 <= counter (statics m)
        /\ (before = []
            \/ exists status : bool,
                 before
                 = [ show (peek_button (desktop i)
                             (main_taskbar (dispatched i m).1))
                          (if status then SW_SHOWNORMAL else SW_HIDE);
                     send_message (overflow_button (desktop i)
                                     (main_taskbar (dispatched i m).1))
                                  WM_LBUTTONUP;
                     send_message (overflow_button (desktop i)
                                     (main_taskbar (dispatched i m).1))
                                  WM_LBUTTONUP ])).
Proof.
  intros Hrun. split; [|split].
  - intros msg Hm Hs.
    destruct (dispatched_shutdown i m msg Hm Hs) as [Hd _].
    pose proof (iteration_cases has_swca i m) as Hi.
    cbn [message_loop]. rewrite Hrun.
    destruct (iteration has_swca i m) as [[m1 sent1]|before].
    + destruct Hi as [(Hex & _ & Hr & _) _].
      rewrite Hd in Hex, Hr. cbn [stop_running exit_reason is_running] in Hex, Hr.
      assert (Hloop : message_loop has_swca (desktop i) rest m1 (sent ++ sent1)
                      = left_loop (restore_default has_swca (desktop i) m1).1
                          ((sent ++ sent1)
                           ++ (restore_default has_swca (desktop i) m1).2)
                          (Terminate (run (restore_default has_swca
                                             (desktop i) m1).1))).
      { destruct rest; cbn [message_loop]; rewrite Hr;
          destruct (restore_default has_swca (desktop i) m1); reflexivity. }
      rewrite Hloop, restore_default_run. unfold Terminate. rewrite Hr.
      split; [reflexivity|]. split; [exact Hex|].
      intros ->. unfold restore_default. cbn [reason_of] in Hex.
      now rewrite Hex.
    + rewrite Hd. reflexivity.
  - intros Hno before Hnone. cbn [message_loop]. rewrite Hrun, Hnone.
    destruct (dispatched_keeps_running i m Hno) as [Hr _].
    unfold Terminate. now rewrite Hr, Hrun.
  - apply iteration_thrown.
Qed.

Lemma shutdown_in_its_iteration_witness :
  message_loop true sample_desktop [closing_input; stray_input]
               machine_at_start []
  = message_loop true sample_desktop [closing_input] machine_at_start [].
Proof.
  destruct (shutdown_in_its_iteration true sample_desktop closing_input
              [stray_input] machine_at_start [] eq_refl) as [H1 _].
  destruct (shutdown_in_its_iteration true sample_desktop closing_input
              [] machine_at_start [] eq_refl) as [H2 _].
  specialize (H1 WM_CLOSE eq_refl eq_refl).
  specialize (H2 WM_CLOSE eq_refl eq_refl).
  destruct (iteration true closing_input machine_at_start)
    as [[m1 sent1]|before].
  - destruct H1 as [H1 _]. destruct H2 as [H2 _]. now rewrite H1, H2.
  - now rewrite H1, H2.
Defined.

(** The user closes the program while the Start menu is open on a monitor
    without a taskbar: the peek button has been hidden, the exception
    follows, and the process ends with [EXIT_SUCCESS], the button still
    hidden and no taskbar restored. *)
Example shutdown_with_stray_start_menu :
  message_loop true sample_desktop
    [mkInput (Some WM_CLOSE) some_config stray_start_desktop]
    machine_at_start []
  = uncaught [ show 102 SW_HIDE; send_message 103 WM_LBUTTONUP;
               send_message 103 WM_LBUTTONUP ] EXIT_SUCCESS.
Proof. vm_compute. reflexivity. Qed.

(** ** [peek_active] *)

Lemma dispatched_peek_active (i : Input) (m : Machine) :
  peek_active (dispatched i m).1
  = match message i with
    | Some (AeroPeekEvent event) => event =? 0x21
    | _ => peek_active (run m)
    end.
Proof.
  unfold dispatched. destruct (message i) as [[]|]; reflexivity.
Qed.

(** X12.  While the loop turns, [run.peek_active] says whether the latest
    peek event among the messages met was the start of a peek (code
    [0x21]); without any such event it keeps the value it had. *)
Theorem peek_active_follows_latest_event (has_swca : bool)
    (inputs : list Input) :
  forall (desk : Desktop) (m : Machine) (sent : list Event)
         (m' : Machine) (sent' : list Event),
    message_loop has_swca desk inputs m sent = turning m' sent' ->
    peek_active (run m')
    = match last_peek_event inputs with
      | Some event => event =? 0x21
      | None => peek_active (run m)
      end.
Proof.
  induction inputs as [|i rest IH]; intros desk m sent m' sent' Hl.
  - cbn [message_loop] in Hl. destruct (is_running (run m)).
    + assert (m' = m) as -> by congruence. reflexivity.
    + destruct (restore_default has_swca desk m). discriminate.
  - cbn [message_loop] in Hl. destruct (is_running (run m)).
    + pose proof (iteration_cases has_swca i m) as Hi.
      destruct (iteration has_swca i m) as [[m1 sent1]|]; [|discriminate].
      destruct Hi as [(_ & _ & _ & _ & Hp & _) _].
      rewrite (IH _ _ _ _ _ Hl). cbn [last_peek_event].
      destruct (last_peek_event rest); [reflexivity|].
      rewrite Hp, dispatched_peek_active.
      destruct (message i) as [[]|]; reflexivity.
    + destruct (restore_default has_swca desk m). discriminate.
Qed.

Lemma peek_active_follows_latest_event_witness :
  match
    message_loop true sample_desktop
      [ mkInput (Some (AeroPeekEvent 0x21)) some_config sample_desktop;
        mkInput (Some WM_DISPLAYCHANGE) some_config sample_desktop ]
      machine_at_start []
  with
  | turning m' _ => peek_active (run m') = true
  | _ => False
  end.
Proof.
  destruct (message_loop true sample_desktop
              [ mkInput (Some (AeroPeekEvent 0x21)) some_config sample_desktop;
                mkInput (Some WM_DISPLAYCHANGE) some_config sample_desktop ]
              machine_at_start []) as [m' sent'| |] eqn:H.
  - exact (peek_active_follows_latest_event true _ _ _ _ _ _ H).
  - vm_compute in H. discriminate H.
  - vm_compute in H. discriminate H.
Defined.

(** ** A host without the accent entry point *)

Lemma SetTaskbarBlur_toggled (has_swca : bool) (cfg : Config.t) (o : OPTIONS)
    (desk : Desktop) (r r' : RUNTIMESTATE) (st st' : STATICS)
    (sent : list Event) :
  SetTaskbarBlur has_swca cfg o desk r st = returned (r', st', sent) ->
  exists toggled : list Event,
    sent = toggled
           ++ (blur_each has_swca (accent_for cfg)
                 (map_to_list (taskbars r')) (is_normal st)).2
    /\ forall e, In e toggled -> is_accent_event e = false.
Proof.
  intros Hrun. unfold SetTaskbarBlur in Hrun.
  destruct (counter st >=? 10).
  - destruct (full_pass cfg o desk r st) as [[[r1 st1] toggled]|] eqn:Hfp;
      cbn [mbind option_bind] in Hrun; [|discriminate].
    pose proof (full_pass_cases cfg o desk r st) as Hc. rewrite Hfp in Hc.
    destruct Hc as (_ & _ & Hmemo & _).
    destruct (full_pass_inv _ _ _ _ _ _ _ _ Hfp) as (_ & _ & _ & Ht & _).
    rewrite Hmemo in Hrun.
    destruct (blur_each has_swca (accent_for cfg) (map_to_list (taskbars r1))
                (is_normal st)) as [memo accents] eqn:Eb.
    assert (r' = r1) as -> by congruence.
    assert (sent = toggled ++ accents) as -> by congruence.
    exists toggled. rewrite Eb. split; [reflexivity|].
    intros e He. rewrite Ht, TogglePeek_cases in He.
    case_bool_decide; cbn [snd] in He; [destruct He|].
    destruct He as [<-|[<-|[<-|[]]]]; reflexivity.
  - cbn [mbind option_bind] in Hrun.
    destruct (blur_each has_swca (accent_for cfg) (map_to_list (taskbars r))
                (is_normal st)) as [memo accents] eqn:Eb.
    cbn [app] in Hrun.
    assert (r' = r) as -> by congruence.
    assert (sent = accents) as -> by congruence.
    exists []. rewrite Eb. split; [reflexivity | intros e []].
Qed.

Lemma iteration_without_swca (i : Input) (m m' : Machine) (sent : list Event) :
  iteration false i m = returned (m', sent) ->
  is_normal (statics m') = is_normal (statics m)
  /\ forall e, In e sent -> is_accent_event e = false.
Proof.
  unfold iteration. destruct (dispatched i m) as [r o].
  destruct (SetTaskbarBlur false (config i) o (desktop i) r (statics m))
    as [[[r' st'] sent0]|] eqn:E; cbn [mbind option_bind]; [|discriminate].
  intros H. assert (m' = mkMachine r' o st') as -> by congruence.
  assert (sent = sent0) as -> by congruence. cbn [statics].
  pose proof (SetTaskbarBlur_memo _ _ _ _ _ _ _ _ _ E) as Hmemo.
  rewrite blur_each_without_swca in Hmemo.
  destruct (SetTaskbarBlur_toggled _ _ _ _ _ _ _ _ _ E) as (toggled & Hs & Ht).
  rewrite blur_each_without_swca, app_nil_r in Hs. subst sent0. auto.
Qed.

Lemma restore_default_without_swca (desk : Desktop) (m : Machine) :
  is_normal (statics (restore_default false desk m).1) = is_normal (statics m)
  /\ forall e, In e (restore_default false desk m).2 ->
               is_accent_event e = false.
Proof.
  unfold restore_default. destruct (exit_reason (run m));
    [split; [reflexivity | intros e []] | |];
    rewrite TogglePeek_cases, blur_each_without_swca;
    case_bool_decide; cbn [fst snd statics is_normal app];
    (split; [reflexivity|]); intros e He;
    try destruct He as [<-|[<-|[<-|[]]]]; try destruct He; reflexivity.
Qed.

(** X13.  On a host without [SetWindowCompositionAttribute] the program
    never changes how a taskbar is drawn: however the loop ends, no policy
    is submitted and no [WM_THEMECHANGED] is sent, in the loop and in the
    block after it, and the memo of [SetWindowBlur] stays as it was; only
    the peek button is still shown and hidden. *)
Theorem no_accent_without_entry_point (inputs : list Input) :
  forall (desk : Desktop) (m : Machine) (sent : list Event),
    (forall e, In e sent -> is_accent_event e = false) ->
    (forall e, In e (events_of (message_loop false desk inputs m sent)) ->
               is_accent_event e = false)
    /\ (forall m' : Machine,
          machine_of (message_loop false desk inputs m sent) = Some m' ->
          is_normal (statics m') = is_normal (statics m)).
Proof.
  assert (Hleft : forall desk m sent,
    (forall e, In e sent -> is_accent_event e = false) ->
    (forall e,
       In e (events_of (let '(m', sent') := restore_default false desk m in
                        left_loop m' (sent ++ sent') (Terminate (run m')))) ->
       is_accent_event e = false)
    /\ (forall m' : Machine,
          machine_of (let '(m', sent') := restore_default false desk m in
                      left_loop m' (sent ++ sent') (Terminate (run m')))
          = Some m' ->
          is_normal (statics m') = is_normal (statics m))).
  { intros desk m sent Hsent.
    destruct (restore_default_without_swca desk m) as [Hm He].
    destruct (restore_default false desk m) as [m2 sent2].
    cbn [fst snd events_of machine_of] in *. split.
    - intros e Hin. apply in_app_or in Hin. destruct Hin; auto.
    - intros m' H. assert (m' = m2) as -> by congruence. exact Hm. }
  induction inputs as [|i rest IH]; intros desk m sent Hsent.
  - cbn [message_loop]. destruct (is_running (run m)); [|now apply Hleft].
    cbn [events_of machine_of]. split; [exact Hsent|].
    intros m' H. congruence.
  - cbn [message_loop]. destruct (is_running (run m)); [|now apply Hleft].
    destruct (iteration false i m) as [[m1 sent1]|before] eqn:Ei.
    + destruct (iteration_without_swca _ _ _ _ Ei) as [Hm He].
      destruct (IH (desktop i) m1 (sent ++ sent1)) as [IHe IHm].
      { intros e Hin. apply in_app_or in Hin. destruct Hin; auto. }
      split; [exact IHe|]. intros m' H. rewrite (IHm m' H). exact Hm.
    + cbn [events_of machine_of]. split; [|discriminate].
      intros e Hin. apply in_app_or in Hin. destruct Hin as [Hin|Hin];
        [now apply Hsent|].
      exact (iteration_thrown_no_accent _ _ _ _ Ei e Hin).
Qed.

Lemma no_accent_without_entry_point_witness :
  List.Forall (fun e : Event => is_accent_event e = false)
    (events_of (wWinMain false false no_rules sample_desktop
                  [sample_input; closing_input])).
Proof.
  apply List.Forall_forall. intros e He.
  destruct (no_accent_without_entry_point [sample_input; closing_input]
              sample_desktop machine_at_start [] (fun e H => match H with end))
    as [H _].
  exact (H e He).
Defined.

(** ** The shell after a clean shutdown *)














(** The events of that run: the first tick hides the peek button and
    submits the policies, the block after the loop shows the button and
    brings the normal accent back. *)
Example clean_shutdown_events :
  events_of (wWinMain true false no_rules sample_desktop
               [bare_input; bare_closing_input])
  = [ show 102 SW_HIDE; send_message 103 WM_LBUTTONUP;
      send_message 103 WM_LBUTTONUP;
      SetWindowCompositionAttribute 200
        (mkPolicy ACCENT_ENABLE_BLURBEHIND 2 0x80000000 0);
      SetWindowCompositionAttribute 100
        (mkPolicy ACCENT_ENABLE_BLURBEHIND 2 0x80000000 0);
      SetWindowCompositionAttribute 200
        (mkPolicy ACCENT_ENABLE_BLURBEHIND 2 0x80000000 0);
      SetWindowCompositionAttribute 100
        (mkPolicy ACCENT_ENABLE_BLURBEHIND 2 0x80000000 0);
      show 102 SW_SHOWNORMAL; send_message 103 WM_LBUTTONUP;
      send_message 103 WM_LBUTTONUP;
      send_message 200 WM_THEMECHANGED; send_message 100 WM_THEMECHANGED ].
Proof. vm_compute. reflexivity. Qed.

(** ** [ParseBlacklistFile] *)

Lemma append_cons (a : ascii) (s t : wstring) :
  String a s +:+ t = String a (s +:+ t).
Proof. reflexivity. Qed.

Lemma append_assoc (p q r : wstring) : (p +:+ q) +:+ r = p +:+ (q +:+ r).
Proof.
  induction p as [|a p IH]; [reflexivity|].
  rewrite !append_cons. now rewrite IH.
Qed.

Lemma last_char_app_delimiter (s : wstring) :
  last_char (s +:+ String delimiter "") = Some delimiter.
Proof.
  induction s as [|a s IH]; [reflexivity|].
  rewrite append_cons. cbn [last_char]. rewrite IH.
  destruct s; reflexivity.
Qed.

Lemma prepared_ends_with_delimiter (line l : wstring) :
  prepared line = Some l -> last_char l = Some delimiter.
Proof.
  unfold prepared. destruct (String.eqb line ""); [discriminate|].
  assert (H : forall body : wstring,
            last_char (if bool_decide (last_char body = Some delimiter)
                       then body else body +:+ String delimiter "")
            = Some delimiter).
  { intros body. case_bool_decide as Hd; [exact Hd|].
    apply last_char_app_delimiter. }
  destruct (find_char comment line) as [[|n]|]; [discriminate| |];
    intros Heq; injection Heq as <-; apply H.
Qed.

Lemma substring_all (n : nat) (s : wstring) :
  (String.length s <= n)%nat -> substring 0 n s = s.
Proof.
  revert n. induction s as [|a s IH]; intros n Hn.
  - now destruct n.
  - destruct n as [|n]; [cbn in Hn; lia|].
    cbn [substring]. rewrite IH by (cbn in Hn; lia). reflexivity.
Qed.

Lemma substring_length (n : nat) (s : wstring) :
  String.length (substring 0 n s) = Nat.min n (String.length s).
Proof.
  revert n. induction s as [|a s IH]; intros n.
  - now destruct n.
  - destruct n as [|n]; [reflexivity|].
    cbn [substring String.length]. now rewrite IH.
Qed.

(** The second half of the test for titles never holds for a line that
    ends with the delimiter: thirteen characters are compared with the
    eleven of ["windowtitle"]. *)
Lemma windowtitle_test_fails (l : wstring) :
  last_char l = Some delimiter ->
  String.eqb (substring 0 13 l) "windowtitle" = false.
Proof.
  intros Hlast. apply String.eqb_neq. intros Heq.
  pose proof (substring_length 13 l) as Hlen. rewrite Heq in Hlen.
  cbn [String.length] in Hlen.
  assert (Hl : (String.length l <= 13)%nat) by lia.
  rewrite substring_all in Heq by exact Hl. subst l. discriminate.
Qed.

Lemma find_char_after (c : ascii) (p rest : wstring) :
  find_char c p = None ->
  find_char c (p +:+ rest)
  = option_map (Nat.add (String.length p)) (find_char c rest).
Proof.
  induction p as [|a p IH]; intros Hp.
  - change ("" +:+ rest) with rest.
    destruct (find_char c rest); reflexivity.
  - rewrite append_cons. cbn [find_char] in Hp |- *.
    destruct (Ascii.eqb a c); [discriminate|].
    destruct (find_char c p); [discriminate|].
    rewrite (IH eq_refl). destruct (find_char c rest); reflexivity.
Qed.

Lemma substring_after (p rest : wstring) (n : nat) :
  substring 0 (String.length p + n) (p +:+ rest) = p +:+ substring 0 n rest.
Proof.
  induction p as [|a p IH]; [reflexivity|].
  rewrite !append_cons. cbn [String.length Nat.add substring].
  now rewrite IH.
Qed.

(** A line that begins with a non-empty text free of the comment sign is
    kept, and still begins with that text once prepared. *)
Lemma prepared_keeps_prefix (p rest : wstring) :
  p <> "" -> find_char comment p = None ->
  exists tail : wstring, prepared (p +:+ rest) = Some (p +:+ tail).
Proof.
  intros Hne Hp. unfold prepared.
  rewrite (find_char_after _ _ rest Hp).
  destruct p as [|a p]; [congruence|].
  change (String.eqb (String a p +:+ rest) "") with false. cbv iota.
  destruct (find_char comment rest) as [n|]; cbn [option_map].
  - change (String.length (String a p) + n)%nat
      with (S (String.length p + n)).
    cbv iota.
    change (S (String.length p + n)) with (String.length (String a p) + n)%nat.
    rewrite substring_after.
    case_bool_decide.
    + eexists. reflexivity.
    + rewrite append_assoc. eexists. reflexivity.
  - case_bool_decide.
    + eexists. reflexivity.
    + rewrite append_assoc. eexists. reflexivity.
Qed.

(** X14.  A line is never taken for a title rule through the prefix
    ["windowtitle"]: for a prepared line that test is always false, so the
    titles change only for a line whose first five characters, lower-cased,
    are ["title"]; and a line that begins with ["windowtitle"] is counted
    as invalid and changes no rule set. *)
Theorem windowtitle_lines_are_invalid
    (AddValues : ascii -> list wstring -> wstring -> list wstring)
    (acc : OPTIONS * nat) (line rest : wstring) :
  (forall l : wstring,
     prepared line = Some l ->
     String.eqb (substring 0 13 l) "windowtitle" = false)
  /\ ((forall l : wstring,
         prepared line = Some l ->
         String.eqb (substring 0 5 (ToLower l)) "title" = false) ->
      blacklisted_titles (parse_line AddValues acc line).1
      = blacklisted_titles acc.1)
  /\ parse_line AddValues acc ("windowtitle" +:+ rest) = (acc.1, S acc.2).
Proof.
  split; [|split].
  - intros l Hl. apply windowtitle_test_fails.
    eapply prepared_ends_with_delimiter. exact Hl.
  - intros Hno. unfold parse_line.
    destruct (prepared line) as [l|] eqn:Hp; [|reflexivity].
    rewrite (Hno l eq_refl).
    rewrite windowtitle_test_fails
      by (eapply prepared_ends_with_delimiter; exact Hp).
    cbn [orb].
    destruct (String.eqb (substring 0 5 (ToLower l)) "class"); [reflexivity|].
    destruct (String.eqb (substring 0 7 (ToLower l)) "exename"); reflexivity.
  - destruct (prepared_keeps_prefix "windowtitle" rest) as [tail Hp];
      [discriminate|reflexivity|].
    unfold parse_line. rewrite Hp.
    rewrite windowtitle_test_fails
      by (eapply prepared_ends_with_delimiter; exact Hp).
    reflexivity.
Qed.

Lemma windowtitle_lines_are_invalid_witness :
  blacklisted_titles
    (parse_line add_whole_line (some_rules, 0%nat) "exename,calc.exe").1
  = ["Visual Studio"].
Proof.
  destruct (windowtitle_lines_are_invalid add_whole_line (some_rules, 0%nat)
              "exename,calc.exe" "") as (_ & H & _).
  rewrite H; [reflexivity|].
  intros l Hl. vm_compute in Hl. injection Hl as <-. reflexivity.
Defined.

Lemma find_char_app (c : ascii) (body tail : wstring) :
  find_char c body = None ->
  find_char c (body +:+ String c tail) = Some (String.length body).
Proof.
  intros Hbody. rewrite (find_char_after _ _ _ Hbody).
  cbn [find_char]. rewrite Ascii.eqb_refl. cbn [option_map].
  f_equal. lia.
Qed.

Lemma substring_body (body rest : wstring) :
  substring 0 (String.length body) (body +:+ rest) = body.
Proof.
  induction body as [|a body IH]; [destruct rest; reflexivity|].
  rewrite append_cons. cbn [String.length substring]. now rewrite IH.
Qed.

Lemma prepared_cuts_comment (body tail : wstring) :
  find_char comment body = None -> body <> "" ->
  prepared (body +:+ String comment tail) = prepared body.
Proof.
  intros Hfree Hne. unfold prepared.
  rewrite (find_char_app _ _ tail Hfree), Hfree.
  destruct body as [|a body]; [congruence|].
  change (String.eqb (String a body +:+ String comment tail) "") with false.
  change (String.eqb (String a body) "") with false.
  cbv iota.
  change (String.length (String a body)) with (S (String.length body)).
  cbv iota.
  change (S (String.length body)) with (String.length (String a body)).
  rewrite substring_body. reflexivity.
Qed.

(** A prepared line is left as it is when prepared again. *)
Lemma prepared_again (line l : wstring) :
  prepared line = Some l -> prepared l = Some l.
Proof.
  intros Hl.
  pose proof (prepared_ends_with_delimiter _ _ Hl) as Hlast.
  assert (Hfree : find_char comment l = None).
  { assert (Hadd : forall body : wstring,
              find_char comment body = None ->
              find_char comment
                (if bool_decide (last_char body = Some delimiter)
                 then body else body +:+ String delimiter "") = None).
    { intros body Hbody. case_bool_decide; [exact Hbody|].
      rewrite (find_char_after _ _ _ Hbody). reflexivity. }
    assert (Hcut : forall (s : wstring) (n : nat),
              find_char comment s = Some n ->
              find_char comment (substring 0 n s) = None).
    { clear. induction s as [|a s IH]; intros n Hn; [discriminate|].
      cbn [find_char] in Hn. destruct (Ascii.eqb a comment) eqn:Ha.
      - injection Hn as <-. reflexivity.
      - destruct (find_char comment s) as [m|] eqn:Hs; [|discriminate].
        injection Hn as <-. cbn [substring find_char]. rewrite Ha.
        rewrite (IH m eq_refl). reflexivity. }
    unfold prepared in Hl. destruct (String.eqb line ""); [discriminate|].
    destruct (find_char comment line) as [[|n]|] eqn:Hfind; [discriminate| |];
      injection Hl as <-; apply Hadd.
    - apply Hcut. exact Hfind.
    - exact Hfind. }
  unfold prepared. rewrite Hfree.
  destruct l as [|a l]; [discriminate|].
  change (String.eqb (String a l) "") with false. cbv iota.
  rewrite (bool_decide_eq_true_2 _ Hlast). reflexivity.
Qed.

(** X15.  Blank lines, comment lines and the text from the comment sign
    on take no part in the parse: such lines leave the rule sets and the
    count of invalid lines as they were, a line with a trailing comment is
    read as the text before it, and the whole file parses as the list of
    its prepared lines does. *)
Theorem comments_and_blank_lines_ignored
    (AddValues : ascii -> list wstring -> wstring -> list wstring)
    (acc : OPTIONS * nat) (lines : list wstring) (body tail : wstring) :
  parse_line AddValues acc "" = acc
  /\ parse_line AddValues acc (String comment tail) = acc
  /\ (find_char comment body = None -> body <> "" ->
      parse_line AddValues acc (body +:+ String comment tail)
      = parse_line AddValues acc body)
  /\ ParseBlacklistFile AddValues lines
     = ParseBlacklistFile AddValues (omap prepared lines).
Proof.
  split; [reflexivity|]. split.
  { unfold parse_line, prepared. cbn [find_char String.eqb].
    rewrite Ascii.eqb_refl. reflexivity. }
  split.
  { intros Hfree Hne. unfold parse_line.
    rewrite (prepared_cuts_comment _ tail Hfree Hne). reflexivity. }
  unfold ParseBlacklistFile.
  generalize (mkOPTIONS [] [] [], 0%nat). clear acc.
  induction lines as [|line lines IH]; intros acc; [reflexivity|].
  change (omap prepared (line :: lines))
    with (match prepared line with
          | Some l => l :: omap prepared lines
          | None => omap prepared lines
          end).
  cbn [fold_left]. rewrite IH.
  destruct (prepared line) as [l|] eqn:Hl.
  - cbn [fold_left]. f_equal.
    unfold parse_line. rewrite Hl, (prepared_again _ _ Hl). reflexivity.
  - f_equal. unfold parse_line. rewrite Hl. reflexivity.
Qed.

Lemma comments_and_blank_lines_ignored_witness :
  parse_line add_whole_line (some_rules, 0%nat) "class,Progman; the desktop"
  = parse_line add_whole_line (some_rules, 0%nat) "class,Progman".
Proof.
  destruct (comments_and_blank_lines_ignored add_whole_line
              (some_rules, 0%nat) [] "class,Progman" " the desktop")
    as (_ & _ & H & _).
  apply H; [reflexivity|discriminate].
Defined.

Lemma to_lower_char_again (c : ascii) :
  to_lower_char (to_lower_char c) = to_lower_char c.
Proof.
  destruct c as [[] [] [] [] [] [] [] []]; vm_compute; reflexivity.
Qed.

Lemma ToLower_again (s : wstring) : ToLower (ToLower s) = ToLower s.
Proof.
  induction s as [|c s IH]; [reflexivity|].
  cbn [ToLower]. now rewrite to_lower_char_again, IH.
Qed.

(** X16.  When the splitting helper hands on lower-case text as lower-case
    values, every file name [ParseBlacklistFile] stores is lower-case; so a
    lookup that is not answered from the cache says exactly whether a rule
    of the parsed file matches the window, the executable name being
    compared without regard to case. *)
Theorem parsed_file_names_are_lower_case
    (AddValues : ascii -> list wstring -> wstring -> list wstring)
    (lines : list wstring) :
  (forall (values : list wstring) (line : wstring),
     Forall (fun value => ToLower value = value) values ->
     ToLower line = line ->
     Forall (fun value => ToLower value = value)
            (AddValues delimiter values line)) ->
  let opt := (ParseBlacklistFile AddValues lines).1 in
  Forall (fun value => ToLower value = value) (blacklisted_filenames opt)
  /\ forall (cfg : Config.t) (window : Window) (hits : Z)
            (cache : gmap HWND bool),
       hits > Config.CACHE_HIT_MAX cfg \/ cache !! handle window = None ->
       (answer (IsWindowBlacklisted cfg opt window hits cache) = true
        <-> matches_rules opt window).
Proof.
  intros Hadd. cbn zeta.
  assert (Hlow : Forall (fun value => ToLower value = value)
                   (blacklisted_filenames
                      (ParseBlacklistFile AddValues lines).1)).
  { unfold ParseBlacklistFile.
    assert (Hstart : Forall (fun value => ToLower value = value)
                       (blacklisted_filenames
                          (mkOPTIONS [] [] [], 0%nat).1))
      by constructor.
    revert Hstart. generalize (mkOPTIONS [] [] [], 0%nat).
    induction lines as [|line lines IH]; intros acc Hacc; [exact Hacc|].
    cbn [fold_left]. apply IH. unfold parse_line.
    destruct (prepared line) as [l|]; [|exact Hacc].
    destruct (String.eqb (substring 0 5 (ToLower l)) "class");
      [exact Hacc|].
    destruct (String.eqb (substring 0 5 (ToLower l)) "title"
              || String.eqb (substring 0 13 l) "windowtitle");
      [exact Hacc|].
    destruct (String.eqb (substring 0 7 (ToLower l)) "exename");
      [|exact Hacc].
    cbn [fst blacklisted_filenames].
    apply Hadd; [exact Hacc|apply ToLower_again]. }
  split; [exact Hlow|].
  intros cfg window hits cache Hmiss.
  rewrite IsWindowBlacklisted_evaluates.
  - cbn [answer]. apply rules_answer. exact Hlow.
  - apply andb_false_iff. destruct Hmiss as [Hgt|Hnone].
    + left. apply Z.leb_gt. lia.
    + right. unfold count. now rewrite Hnone.
Qed.

Lemma parsed_file_names_are_lower_case_witness :
  Forall (fun value => ToLower value = value)
    (blacklisted_filenames
       (ParseBlacklistFile add_whole_line
          ["; windows left alone"; "class,Progman"; "ExeName,NotePad.EXE"]).1).
Proof.
  apply (parsed_file_names_are_lower_case add_whole_line
           ["; windows left alone"; "class,Progman"; "ExeName,NotePad.EXE"]).
  intros values line Hvalues Hline. unfold add_whole_line.
  apply Forall_app. split; [exact Hvalues|].
  constructor; [exact Hline|constructor].
Defined.
